(* ===== verification/_CoqProject ===== *)
-Q . S2P
Prelude.v
PyString.v
PyValue.v
Codecs.v
Converter.v
RoundTrip.v
ConverterSpec.v
ParserSpec.v
RoundTripLines.v
Tests.v
Bidict.v
PrefsManager.v
EngineSpec.v
Sides.v
Fakes.v
Aggregator.v
Typing.v
Liveness.v
DeletionSync.v
SyncScript.v
Session.v
Prefs.v
Pass.v
Refinement.v
