(* ===== verification/Prelude.v ===== *)
(** * Verification of the TaskWarrior <-> Google Calendar synchroniser

    The program (package [taskw_gcal_sync]) keeps a local TaskWarrior task
    list and a remote Google Calendar in step.  Its parts, and the files of
    this development that model them:

    - [Prelude] (this file): Python's exceptions as the type [exn], fallible
      computations as [result], stateful fallible computations as [prog]
      (state is kept when an exception is raised, as a Python object keeps
      its mutations), the notations of both in the scopes [result_scope] and
      [prog_scope], the tactics and hint databases shared by all files.
    - [PyString]: the [str] methods the converter calls ([split],
      [split(sep, maxsplit=1)], [strip], [lower], [startswith], [format] of
      an integer), on strings read as sequences of code points below 256.
    - [PyValue]: Python objects as the program sees them ([value]: None,
      int, str, UUID, datetime, list, dict with string keys), items as
      [gmap string value], subscription [d[k]] with its [KeyError], [str()];
      and what the converter calls and does not define, as interfaces (type
      classes with laws): [UuidLib] for [uuid.UUID], [DateTimeLib] for
      [datetime], [timedelta] and [GCalSide.format_datetime] /
      [GCalSide.parse_datetime], [ContainerLib] for the [repr] of a list or
      a dict and the order of the keys of a dict.
    - [Codecs]: instances of the three interfaces (hexadecimal uuids,
      decimal instants, containers printed without their contents), which
      show their laws consistent.
    - [Converter]: the static methods of
      [src/taskw_gcal_sync/TWGCalAggregator.py] (lines 118-267):
      [convert_tw_to_gcal], [_parse_gcal_item_desc], [convert_gcal_to_tw],
      [compare_tw_gcal_items].
    - [RoundTrip]: the round trip task -> event -> task.
    - [ConverterSpec]: the other properties of the converter: the event
      written, the task built from parsed values, the round trip event ->
      task -> event, the comparison, the error paths.
    - [ParserSpec]: a loop-free reference for [_parse_gcal_item_desc]
      ([parse_reference]) and the proof that the parser computes it.
    - [RoundTripLines]: the round trip task -> event -> task when the
      annotations hold line breaks, through the reference of [ParserSpec].
    - [Tests]: the five tests of
      [src/tests/test_tw_gcal_conversions.py] as functions from the
      contents of the sample file to a [result] (pass, failure, error),
      run against the converters of [Converter].
    - [Bidict]: the correspondence table, the [bidict] of
      [TWGCalAggregator.tw_gcal_ids]: two maps kept inverse of each other,
      [__setitem__] with bidict's default duplication policy, the inverse
      view, deletion.  The library is outside the sources.
    - [PrefsManager]: the preferences manager that the constructor of the
      aggregator makes (line 34 of [TWGCalAggregator.py]), modelled from
      the specification as a key-value structure loaded from durable
      storage and flushed at exit.
    - [EngineSpec]: what the specification promises of the table and of
      registration, apart from the code, as the module [spec]: the table
      as a set of pairs with a guarded insertion, and the step relations
      [spec.register_task] and [spec.register_event] over abstract
      identifiers, conversions and stores; and the abstraction [table_of]
      of a [bidict] to such a table.
    - [Sides]: [src/taskw_gcal_sync/TaskWarriorSide.py] (constructor,
      [get_items], [update_item], [add_item]) over the interface
      [TaskwClient] of the [taskw] client; the interface [SideAdapter] of a
      side as the aggregator and the script use it, [GCalSideLib] for the
      calendar side and [GenericSide] for the methods the task side
      inherits.
    - [Fakes]: in-memory instances of these interfaces, on which the
      theorems' witnesses run.
    - [Aggregator]: class [TWGCalAggregator] (lines 20-116 and 269-288):
      the object as the record [aggregator], the constructor
      [aggregator_init] as a program on the preferences manager of the
      process, [start], [cleanup], [find_in_tw], [find_in_gcal],
      [__enter__], [__exit__], and [register_items] with its loop body
      [register_item].  The relation [register_step] lists the outcomes of
      the body for the proofs; it models no code of its own.
    - [Typing]: the types the converter relies on and Python does not
      declare: [pytype] and [has_type] for values, schemas for the task
      and the event of each conversion.
    - [Liveness]: the interface [FreshLinks] of a calendar side whose adds
      return fresh links, and the invariant [links_issued] under which
      registration of tasks returns.
    - [DeletionSync]: [synchronise_deleted_items], which the script calls
      and the sources do not define, modelled from its specification.
    - [SyncScript]: [src/taskw_gcal_sync/scripts/tw_gcal_sync.py]: [main]
      (lines 36-65) with the [with] statement and the order of a
      synchronisation pass, and the command [click] makes of it from the
      option declarations (lines 7-35): [command] applies them to an
      [invocation], the values collected for each option.
    - [Session]: the life of an aggregator as a state machine: the calls
      that change it ([call], [run_call]), the states they reach
      ([reachable]) and the pass of the script as one sequence of calls.
    - [Prefs]: the table of the aggregator as the object held under the
      entry ['tw_gcal_ids'] of the preferences ([live_prefs], line 59);
      the exit of a process ([process_exit]: the cleanup registered at
      line 61, then the flush of the preferences manager, if one was
      made); a run of the process ([run_program]: constructor, body,
      exit), runs one after the other ([run_programs]), and the script as
      such a process ([run_script], lines 68-69 of [tw_gcal_sync.py]).
    - [Pass]: the pass of the script end to end, over a calendar that
      lists what was added to it (the interface [CalendarStore]) and from
      a state in which the table, the listed tasks and the listed events
      agree ([consistent]).
    - [Refinement]: the abstraction [absr] of an aggregator to a state of
      [spec], and the registration of the code against the protocol
      instantiated with the identifiers, converters and adds of the code
      ([spec_register_task], [spec_register_event]).

    The files depend on each other in this order.

    ** How state and operations correspond to the code

    A Python function [f(args)] that cannot mutate anything is a Rocq
    function returning [result T]: [Ok v] for [return v], [Err e] for an
    uncaught exception [e].  A method that mutates [self] or calls a side's
    store is a [prog S T], a function [S -> result T * S]; the state
    component is returned on both outcomes.  [assert c] is [assert_ c],
    [d[k]] is [getitem d k], [k in d] is a [bool_decide] on the map's
    domain.  Loops over a list are structural recursions on it ([foldlM],
    [pfor], the two scans of the parser), so every modelled function is
    total and no fuel is needed anywhere.

    The aggregator object is the record [aggregator]: its [config], the
    task side (a [tw_side]: its config and the state of the [taskw]
    client), the calendar side (the state of any [SideAdapter]) and the
    table [tw_gcal_ids].  A method call on a side inside a method of the
    aggregator is [on_tw] or [on_gcal] of the side's [prog].  What a
    constructor takes from its environment (the task client, the
    directory of the preferences and the storage they are loaded from)
    are arguments of [aggregator_init] and [main].  The constructor of
    the aggregator is a [prog] on the preferences manager of the process,
    which is [None] until line 34 makes it: when a later line raises, the
    manager stays, and the exit of the process flushes it.  The table of
    the aggregator and the entry of the preferences are one Python
    object: the model keeps the table in the aggregator only and reads
    the preferences of a running process through it, so that the flush at
    exit stores what the aggregator wrote.

    A test is a [result unit]: [Ok tt] when it passes,
    [Err AssertionError] when an assertion fails, another exception when
    it ends in an error.

    ** The program logic

    [hoare P m Q] says that [m], run from a state in [P], ends with a
    result and a state in [Q], on both outcomes; [preserves I m] is the
    case of an invariant.  The rules for [pbind], [pget] and [pfor] carry
    the invariants of the aggregator ([bidict_wf] of the table, the frame
    of the task side, the pairs already bound) through [register_items],
    [synchronise_deleted_items] and the pass of the script; the lemmas of
    [pfor_done] carry the idempotence of a loop that marks its elements.
    [steps R l a b] is a sequence of steps of a relation [R], one for each
    element of [l]; [pfor_simulates] turns a loop that returns into such a
    sequence on the abstractions of its states, when every iteration that
    returns is a step and keeps the invariant.  It is the forward
    simulation by which [Refinement] relates [register_items] to the
    protocol of [EngineSpec].

    ** What the theorems show

    - [PyString]: characterisations of [split], [strip] and
      [split(maxsplit=1)] on concatenations and on the characters a string
      does not hold, used by the round trips.
    - [Codecs]: printing then parsing a uuid or an instant gives it back.
    - [Bidict]: the two maps stay inverse of each other under every
      operation (the bijection invariant); an insertion that would bind a
      value twice raises and changes nothing.
    - [EngineSpec]: the promises of the specification hold of its own
      protocol (the table stays a bijection under insertion, removal and
      every step; after the steps on a list of tasks every one of them is
      bound; the steps on tasks already bound change nothing), and the
      [bidict] is a data refinement of the table: lookups agree, a
      guarded [__setitem__] is the insertion of the specification,
      deletion is its removal.  Where the specification refuses a key
      already bound, [__setitem__] overwrites.
    - [RoundTrip], [ConverterSpec]: the outcome of [convert_tw_to_gcal] on
      every task that has the fields the converter reads: the event, or
      [OverflowError] when the task has no due date and the day after its
      entry is past [datetime.max]; the round trip task -> event -> task
      on a well-formed task, and with the annotations stripped on a task
      whose annotations have white space at their ends; event -> task ->
      event -> task on any event whose task has a status and a uuid; the
      event written field by field; the parser's totality on string
      descriptions, the shape of what it returns and its early return; the
      comparison, sound and complete: it reports exactly the keys one task
      has and the other has not and the values that differ, and nothing
      exactly when the two tasks are the same; every error path of the two
      conversions.
    - [RoundTripLines]: the round trip on any annotations: the status,
      the uuid and the other fields come back whatever the annotations
      hold, and the annotations come back up to the first line that is no
      bullet of an annotation.
    - [Tests]: what each test does on every sample file:
      [test_tw_gcal_n_back] passes on none, [test_gcal_tw_date_convert]
      ends in a [KeyError] on an event with a date and no time,
      [test_gcal_tw_n_back] passes exactly on the events that convert and
      have the keys of a converted event and those the calendar adds, and
      the two basic tests pass exactly on the samples characterised
      there.
    - [Sides]: the constructor of the task side by the kind of its [tags];
      [add_item] on every item, the misspelled key it reads included; no
      method of the task side changes its config, and [get_items] on a
      constructed side cannot raise on its config.
    - [Aggregator]: registration is idempotent, from the state it left
      and from every state with the same table, keeps the table a
      bijection, never rebinds a pair, binds identifiers of its items
      only, never touches the task side, registers every item when it
      returns; an add that is not recorded is made again on the next
      pass; the constructor on every input, step by step, with the
      preferences manager it leaves to the process, its outcome
      independent of what the calendar's config holds.
    - [DeletionSync]: a deletion pass that returns leaves exactly the
      entries whose item is still listed, and a second pass against the
      same listing changes nothing.
    - [ParserSpec]: the parser and its reference agree on every event
      (equivalence).
    - [Typing]: progress and preservation of the conversion picked by
      [convert_fun]: an item with the schema of its side converts, to an
      item with the schema of the other side.  The schema of a task asks
      for an entry at least a day before [datetime.max] ([TTimePlus]),
      without which progress fails.
    - [Liveness]: over a calendar side with fresh links, [register_items]
      on well-typed tasks returns and registers every one of them.
    - [SyncScript]: [main] raises [RuntimeError] on every input, so the
      command ends with that or with a usage error and builds no
      aggregator; a preferences manager is made when [main] is called
      with one tag.
    - [Session]: by induction on [reachable], every state reached from a
      constructed aggregator by any calls has a table that is a bijection
      and the constructor's config.
    - [Prefs]: across runs of the process, a registration that returned
      is settled for the next run, which adds nothing and leaves the
      storage as it is.  The script itself ([run_script]) ends in an
      error on every command line and leaves the storage as it was: its
      preferences manager, when the constructor gets as far as making
      one, flushes what it loaded.
    - [Pass]: the pass converges: from a consistent state it returns, no
      step of it raising, in a consistent state where every listed task
      is registered, and a further pass changes nothing.  The calendar is
      one that the synchroniser alone writes; an event of another origin
      is registered through the calendar side as well, as [Aggregator]
      shows, and is outside this theorem.
    - [Refinement]: on tasks the code refines the protocol: when
      [register_items] returns, the states before and after are related,
      under [absr], by the steps of [spec.register_task] on the items in
      their order, so the promises of [EngineSpec] hold of the code.  On
      events it does not: the add goes to the calendar side, which no
      step of [spec.register_event] changes, and the link is bound to the
      [uuid] object and not to its string, so that the task is mirrored
      to the calendar once more.

    Each theorem with hypotheses has a witness, a closed instance on the
    tasks, events and states defined at the end of the files, run over the
    instances of [Codecs] and [Fakes].

    ** Bounds

    Strings are sequences of 8-bit characters, read as the code points
    0-255; [str.strip] and [str.lower] are modelled on that range.  A uuid
    is a natural number; the ones [uuid.UUID] makes are below 2^128
    ([uuid_ok]), and the round trips ask for that bound.  An instant is an
    integer count of microseconds since the epoch, read in UTC; the ones
    [datetime] holds lie between [datetime_min] (year 1) and
    [datetime_max] (the last microsecond of year 9999), and
    [entry + timedelta(days=1)] ([add_days]) raises [OverflowError]
    outside that range ([datetime_ok]).  The offset of a time zone, which
    moves the two ends of the range by less than a day, is not modelled.
    Python values outside [value] (floats, booleans, sets, user classes)
    are not represented.  A dict is a finite map: the order in which its
    keys were inserted is not part of it, so the string that [str()]
    returns on a list or a dict and the order in which a loop visits the
    keys of a dict are taken from the interface [ContainerLib], of which
    the theorems assume nothing but that the keys visited are the keys of
    the dict.  Slicing a dict raises [TypeError], as it does before
    Python 3.12.

    ** Not modelled

    Logging, the Google API client and the [taskw] client are outside the
    sources; the last two appear only through the interfaces of [Sides].
    The modules that the sources import and do not hold ([GCalSide],
    [GenericSide], [PrefsManager], [clogger], [logger], [bidict], [taskw],
    [click]) are taken to load, and the constructors of their classes
    that the code calls without arguments of its own
    ([GenericSide.__init__], [TaskWarrior(marshal=True)],
    [PrefsManager(...)]) are taken to return: the objects they leave are
    arguments of the model (the task client, the directory and the
    storage of the preferences).  [PrefsManager] is modelled from what
    the specification says of it (loaded at startup, flushed at every
    exit), with persistence as the identity on the contents: not its file
    format, the location of its directory, or a process killed between
    two writes, after which nothing is flushed.  The
    sample file of the tests and their base class are not among the
    sources: the tests are functions of the contents of the file, taken
    as a mapping from names to items; the test file imports the
    converters from a package [syncall], which is not among the sources
    either, and the tests are run against the static methods of the same
    names.  Of [click] the
    development models what the option declarations of [main] say
    (required, multiple, choice, default, count); how [click] splits the
    argument vector into options and values is the library's and is not
    modelled, and a usage error, for which [click] ends the process with
    status 2, is the exception [UsageError].  [synchronise_deleted_items]
    follows the specification, since the sources call it without defining
    it. *)

From stdpp Require Export base tactics option list strings gmap.

(** This file: exceptions, the [result] and [prog] monads, their notations,
    tactics and hint databases. *)

(** ** Exceptions *)

Inductive exn : Type :=
| KeyError (key : string)
| AssertionError
| TypeError
| AttributeError
| ValueError
| RuntimeError
| NotImplementedError
| ValueDuplicationError
| OverflowError
| UsageError.

#[export] Instance exn_eq_dec : EqDecision exn.
Proof. solve_decision. Defined.

(** ** Fallible computations *)

Inductive result (A : Type) : Type :=
| Ok (a : A)
| Err (e : exn).
Arguments Ok {A} a.
Arguments Err {A} e.

#[export] Instance result_eq_dec `{EqDecision A} : EqDecision (result A).
Proof. solve_decision. Defined.

Definition bind {A B} (m : result A) (f : A → result B) : result B :=
  match m with
  | Ok a => f a
  | Err e => Err e
  end.

Definition assert_ (c : bool) : result unit :=
  if c then Ok tt else Err AssertionError.

Definition is_ok {A} (m : result A) : bool :=
  match m with Ok _ => true | Err _ => false end.

Definition from_ok {A} (d : A) (m : result A) : A :=
  match m with Ok a => a | Err _ => d end.

(** [d[k]] on a dict with string keys. *)
Definition getitem {V} (d : gmap string V) (k : string) : result V :=
  match d !! k with
  | Some v => Ok v
  | None => Err (KeyError k)
  end.

Declare Scope result_scope.
Delimit Scope result_scope with result.
Bind Scope result_scope with result.

Notation "x <- c1 ;; c2" := (bind c1 (fun x => c2))
  (at level 100, c1 at next level, right associativity) : result_scope.
Notation "c1 ;; c2" := (bind c1 (fun _ => c2))
  (at level 100, right associativity) : result_scope.

(** Monadic fold from the left: a Python [for] loop whose body may raise. *)
Fixpoint foldlM {A B} (f : A → B → result A) (a : A) (l : list B) : result A :=
  match l with
  | [] => Ok a
  | x :: l' => bind (f a x) (fun a' => foldlM f a' l')
  end.

(** A list comprehension whose element expression may raise. *)
Fixpoint mapM_result {A B} (f : A → result B) (l : list A) : result (list B) :=
  match l with
  | [] => Ok []
  | x :: l' => bind (f x) (fun y => bind (mapM_result f l') (fun ys => Ok (y :: ys)))
  end.

(** ** Stateful fallible computations *)

Definition prog (S A : Type) : Type := S → result A * S.

Definition pret {S A} (a : A) : prog S A := fun s => (Ok a, s).

Definition pbind {S A B} (m : prog S A) (f : A → prog S B) : prog S B :=
  fun s => match m s with
           | (Ok a, s') => f a s'
           | (Err e, s') => (Err e, s')
           end.

Definition praise {S A} (e : exn) : prog S A := fun s => (Err e, s).

Definition plift {S A} (r : result A) : prog S A := fun s => (r, s).

Definition pget {S} : prog S S := fun s => (Ok s, s).

Definition pput {S} (s : S) : prog S unit := fun _ => (Ok tt, s).

Definition pmodify {S} (f : S → S) : prog S unit := fun s => (Ok tt, f s).

Declare Scope prog_scope.
Delimit Scope prog_scope with prog.
Bind Scope prog_scope with prog.

Notation "x <- c1 ;; c2" := (pbind c1 (fun x => c2))
  (at level 100, c1 at next level, right associativity) : prog_scope.
Notation "c1 ;; c2" := (pbind c1 (fun _ => c2))
  (at level 100, right associativity) : prog_scope.

(** A [for] loop over [l] whose body is a [prog]: it stops at the first
    exception, with the state reached so far. *)
Fixpoint pfor {S B} (l : list B) (body : B → prog S unit) : prog S unit :=
  match l with
  | [] => pret tt
  | x :: l' => pbind (body x) (fun _ => pfor l' body)
  end.

(** ** Hint databases and tactics *)

Create HintDb py discriminated.
Create Rewrite HintDb py.

(** ** Laws of [result] *)

Section result_laws.
Context {A B C : Type}.
Implicit Types (m : result A) (f : A → result B) (g : B → result C).

Lemma bind_Ok a f : bind (Ok a) f = f a.
Proof. done. Qed.

Lemma bind_Err e f : bind (Err e : result A) f = Err e.
Proof. done. Qed.

Lemma bind_ret m : bind m Ok = m.
Proof. by destruct m. Qed.

Lemma bind_assoc m f g :
  bind (bind m f) g = bind m (fun a => bind (f a) g).
Proof. by destruct m. Qed.

Lemma bind_Ok_inv m f b :
  bind m f = Ok b ↔ ∃ a, m = Ok a ∧ f a = Ok b.
Proof. destruct m; naive_solver. Qed.

Lemma bind_Err_inv m f e :
  bind m f = Err e ↔ m = Err e ∨ ∃ a, m = Ok a ∧ f a = Err e.
Proof. destruct m; naive_solver. Qed.

Lemma is_ok_Ok m : is_ok m = true ↔ ∃ a, m = Ok a.
Proof. destruct m; naive_solver. Qed.

Lemma from_ok_Ok d m : is_ok m = true → m = Ok (from_ok d m).
Proof. by destruct m. Qed.

End result_laws.

Lemma assert_Ok c : assert_ c = Ok tt ↔ c = true.
Proof. by destruct c. Qed.

Lemma assert_Err c e : assert_ c = Err e ↔ c = false ∧ e = AssertionError.
Proof. destruct c; naive_solver. Qed.

Section getitem_laws.
Context {V : Type}.
Implicit Types (d : gmap string V) (k : string) (v : V).

Lemma getitem_Ok d k v : getitem d k = Ok v ↔ d !! k = Some v.
Proof. unfold getitem. destruct (d !! k); naive_solver. Qed.

Lemma getitem_Err d k e : getitem d k = Err e ↔ d !! k = None ∧ e = KeyError k.
Proof. unfold getitem. destruct (d !! k); naive_solver. Qed.

Lemma getitem_Some d k v : d !! k = Some v → getitem d k = Ok v.
Proof. by intros ?%getitem_Ok. Qed.

Lemma getitem_None d k : d !! k = None → getitem d k = Err (KeyError k).
Proof. intros. by apply getitem_Err. Qed.

Lemma getitem_insert d k v : getitem (<[k:=v]> d) k = Ok v.
Proof. apply getitem_Some, lookup_insert_eq. Qed.

Lemma getitem_singleton k v : getitem ({[k := v]} : gmap string V) k = Ok v.
Proof. apply getitem_Some, lookup_singleton_eq. Qed.

Lemma getitem_insert_ne d k k' v :
  k ≠ k' → getitem (<[k:=v]> d) k' = getitem d k'.
Proof. intros. unfold getitem. by rewrite lookup_insert_ne. Qed.

End getitem_laws.

#[export] Hint Rewrite @bind_Ok @bind_Err @bind_ret @bind_assoc : py.
#[export] Hint Rewrite @getitem_insert @getitem_singleton : py.
#[export] Hint Rewrite @getitem_insert_ne using done : py.
#[export] Hint Resolve getitem_Some getitem_None : py.

(** ** Laws of [prog] *)

Section prog_laws.
Context {S A B C : Type}.
Implicit Types (m : prog S A) (f : A → prog S B) (s : S).

(** A run that returns, from its result alone: the state is the one the
    run leaves. *)
Lemma run_Ok m s a : (m s).1 = Ok a → m s = (Ok a, (m s).2).
Proof. destruct (m s) as [r s']. simpl. by intros ->. Qed.

Lemma pbind_pret a f s : pbind (pret a) f s = f a s.
Proof. done. Qed.

Lemma pbind_praise e f s : pbind (praise e : prog S A) f s = (Err e, s).
Proof. done. Qed.

Lemma pbind_Ok m f s a s' : m s = (Ok a, s') → pbind m f s = f a s'.
Proof. unfold pbind. by intros ->. Qed.

Lemma pbind_Err m f s e s' : m s = (Err e, s') → pbind m f s = (Err e, s').
Proof. unfold pbind. by intros ->. Qed.

Lemma pbind_assoc m f (g : B → prog S C) s :
  pbind (pbind m f) g s = pbind m (fun a => pbind (f a) g) s.
Proof. unfold pbind. by destruct (m s) as [[]]. Qed.

End prog_laws.

Section pfor_laws.
Context {S B : Type}.
Implicit Types (l : list B) (body : B → prog S unit) (s : S).

Lemma pfor_nil body s : pfor [] body s = (Ok tt, s).
Proof. done. Qed.

Lemma pfor_cons x l body s :
  pfor (x :: l) body s = pbind (body x) (fun _ => pfor l body) s.
Proof. done. Qed.

Lemma pfor_app l1 l2 body s :
  pfor (l1 ++ l2) body s = pbind (pfor l1 body) (fun _ => pfor l2 body) s.
Proof.
  revert s. induction l1 as [|x l1 IH]; intros s; [done|].
  simpl. unfold pbind at 1 2 3.
  destruct (body x s) as [[[]|] s']; [apply IH|done].
Qed.

(** An invariant of the state that every iteration keeps is kept by the
    loop, whether it ends normally or by an exception. *)
Lemma pfor_invariant (I : S → Prop) l body :
  (∀ x s, x ∈ l → I s → I (body x s).2) →
  ∀ s, I s → I (pfor l body s).2.
Proof.
  induction l as [|x l IH]; intros Hbody s Hs; [done|].
  rewrite pfor_cons. unfold pbind.
  pose proof (Hbody x s (list_elem_of_here _ _) Hs) as Hx.
  destruct (body x s) as [[[]|] s']; [|done].
  apply IH; [|done]. intros y s'' ?. apply Hbody. by right.
Qed.

(** Progress: when every iteration returns from a state of the invariant
    and keeps it, the loop returns. *)
Lemma pfor_returns (I : S → Prop) l body :
  (∀ x s, x ∈ l → I s → ∃ s', body x s = (Ok tt, s') ∧ I s') →
  ∀ s, I s → ∃ s', pfor l body s = (Ok tt, s') ∧ I s'.
Proof.
  induction l as [|x l IH]; intros Hbody s Hs; [by exists s|].
  rewrite pfor_cons.
  destruct (Hbody x s (list_elem_of_here _ _) Hs) as (s1 & Hx & Hs1).
  rewrite (pbind_Ok _ _ _ _ _ Hx).
  apply IH; [|done]. intros y s'' ?. apply Hbody. by right.
Qed.

End pfor_laws.

(** ** A program logic for [prog]

    [hoare P m Q]: run from a state satisfying [P], [m] ends with a result
    and a state related by [Q], whether it returns or raises. *)

Definition hoare {S A} (P : S → Prop) (m : prog S A)
    (Q : result A → S → Prop) : Prop :=
  ∀ s, P s → Q (m s).1 (m s).2.

(** [preserves I m]: [I] is an invariant of [m] on every outcome. *)
Definition preserves {S A} (I : S → Prop) (m : prog S A) : Prop :=
  hoare I m (λ _, I).

Section hoare_rules.
Context {S A B : Type}.
Implicit Types (P : S → Prop) (I : S → Prop) (m : prog S A).

Lemma hoare_conseq P P' m (Q Q' : result A → S → Prop) :
  (∀ s, P' s → P s) → (∀ r s, Q r s → Q' r s) →
  hoare P m Q → hoare P' m Q'.
Proof. intros HP HQ Hm s Hs. apply HQ, Hm, HP, Hs. Qed.

Lemma hoare_conj P m (Q1 Q2 : result A → S → Prop) :
  hoare P m Q1 → hoare P m Q2 → hoare P m (λ r s, Q1 r s ∧ Q2 r s).
Proof. intros H1 H2 s Hs. split; [by apply H1|by apply H2]. Qed.

Lemma hoare_pret P (a : A) (Q : result A → S → Prop) :
  (∀ s, P s → Q (Ok a) s) → hoare P (pret a) Q.
Proof. intros HQ s Hs. by apply HQ. Qed.

Lemma hoare_praise P e (Q : result A → S → Prop) :
  (∀ s, P s → Q (Err e) s) → hoare P (praise e) Q.
Proof. intros HQ s Hs. by apply HQ. Qed.

Lemma hoare_plift P (r : result A) (Q : result A → S → Prop) :
  (∀ s, P s → Q r s) → hoare P (plift r) Q.
Proof. intros HQ s Hs. by apply HQ. Qed.

Lemma hoare_pbind P m (f : A → prog S B) (R : A → S → Prop)
    (Q : result B → S → Prop) :
  hoare P m (λ r s, match r with Ok a => R a s | Err e => Q (Err e) s end) →
  (∀ a, hoare (R a) (f a) Q) →
  hoare P (pbind m f) Q.
Proof.
  intros Hm Hf s Hs. specialize (Hm s Hs). unfold pbind.
  destruct (m s) as [[a|e] s']; simpl in *; [by apply Hf|done].
Qed.

End hoare_rules.

Section preserves_rules.
Context {S : Type}.
Implicit Types (I : S → Prop).

Lemma preserves_pret {A} I (a : A) : preserves I (pret a).
Proof. by intros s Hs. Qed.

Lemma preserves_praise {A} I e : preserves I (praise e : prog S A).
Proof. by intros s Hs. Qed.

Lemma preserves_plift {A} I (r : result A) : preserves I (plift r).
Proof. by intros s Hs. Qed.

Lemma preserves_pget I : preserves I pget.
Proof. by intros s Hs. Qed.

Lemma preserves_pbind {A B} I (m : prog S A) (f : A → prog S B) :
  preserves I m → (∀ a, preserves I (f a)) → preserves I (pbind m f).
Proof.
  intros Hm Hf. apply (hoare_pbind _ _ _ (λ _, I)); [|done].
  intros s Hs. specialize (Hm s Hs). by destruct (m s) as [[] ?].
Qed.

(** Reading the state, then running a computation chosen from it. *)
Lemma preserves_pget_bind {A} I (f : S → prog S A) :
  (∀ s, I s → I (f s s).2) → preserves I (pbind pget f).
Proof. intros Hf s Hs. unfold pbind, pget. simpl. by apply Hf. Qed.

Lemma preserves_pfor {B} I (l : list B) (body : B → prog S unit) :
  (∀ x, x ∈ l → preserves I (body x)) → preserves I (pfor l body).
Proof.
  intros Hbody s Hs. apply pfor_invariant; [|done].
  intros x s' Hx Hs'. by apply Hbody.
Qed.

End preserves_rules.

(** ** Loops whose iterations mark their element as done

    A loop body that skips an element already done ([Hskip]), leaves an
    element done when it returns ([Hdone]) and never undoes one ([Hkeep])
    gives a loop that, run again on its own final state, returns without
    changing it. *)

Section pfor_done.
Context {S B : Type} (body : B → prog S unit) (done_in : B → S → Prop).
Hypothesis Hskip : ∀ x s, done_in x s → body x s = (Ok tt, s).
Hypothesis Hdone : ∀ x s s', body x s = (Ok tt, s') → done_in x s'.
Hypothesis Hkeep : ∀ x y, preserves (done_in x) (body y).

Lemma pfor_all_done l s s' :
  pfor l body s = (Ok tt, s') → Forall (λ x, done_in x s') l.
Proof.
  revert s. induction l as [|x l IH]; intros s; [done|].
  rewrite pfor_cons. unfold pbind.
  destruct (body x s) as [[[]|e] s1] eqn:Hx; [|done]. intros Hl.
  constructor; [|by eapply IH].
  pose proof (preserves_pfor (done_in x) l body (λ y _, Hkeep x y) s1
    (Hdone _ _ _ Hx)) as Hk.
  by rewrite Hl in Hk.
Qed.

Lemma pfor_skip l s : Forall (λ x, done_in x s) l → pfor l body s = (Ok tt, s).
Proof.
  induction 1 as [|x l Hx _ IH]; [done|].
  by rewrite pfor_cons, (pbind_Ok _ _ _ _ _ (Hskip _ _ Hx)).
Qed.

Lemma pfor_idempotent l s s' :
  pfor l body s = (Ok tt, s') → pfor l body s' = (Ok tt, s').
Proof. intros Hl. by eapply pfor_skip, pfor_all_done. Qed.

End pfor_done.

(** ** Sequences of steps

    [steps R l a b]: the steps [R x], one for each element [x] of [l] and in
    the order of [l], lead from [a] to [b].  A loop whose returning
    iterations are steps of [R] on an abstraction of the state is, when it
    returns, a sequence of steps of [R]. *)

Inductive steps {B T} (R : B → T → T → Prop) : list B → T → T → Prop :=
| steps_nil a : steps R [] a a
| steps_cons x l a b c : R x a b → steps R l b c → steps R (x :: l) a c.

Section steps.
Context {B T : Type} (R : B → T → T → Prop).

Lemma steps_app l1 l2 a b c :
  steps R l1 a b → steps R l2 b c → steps R (l1 ++ l2) a c.
Proof. induction 1; simpl; eauto using steps. Qed.

Lemma steps_invariant (P : T → Prop) l a b :
  (∀ x a b, x ∈ l → P a → R x a b → P b) →
  steps R l a b → P a → P b.
Proof.
  intros HR Hl. induction Hl as [|x l a b c Hx _ IH]; [done|]. intros Ha.
  apply IH; [intros y ? ? ?; apply HR; by right|].
  eapply HR; [apply list_elem_of_here|done..].
Qed.

(** Steps that leave a state unchanged whenever they start from one in
    which their element is done. *)
Lemma steps_skip (done_in : B → T → Prop) l a :
  (∀ x, x ∈ l → done_in x a → R x a a) →
  Forall (λ x, done_in x a) l → steps R l a a.
Proof.
  intros HR Hl. induction Hl as [|x l Hx _ IH]; [constructor|].
  apply (steps_cons R x l a a a); [apply HR; [left|done]|].
  apply IH. intros y ? ?. apply HR; [by right|done].
Qed.

Lemma pfor_simulates {S} (I : S → Prop) (abs : S → T) l
    (body : B → prog S unit) :
  (∀ x s s', x ∈ l → I s → body x s = (Ok tt, s') →
     R x (abs s) (abs s') ∧ I s') →
  ∀ s s', I s → pfor l body s = (Ok tt, s') →
    steps R l (abs s) (abs s') ∧ I s'.
Proof.
  induction l as [|x l IH]; intros Hbody s s' Hs.
  - intros [= <-]. split; [constructor|done].
  - rewrite pfor_cons. unfold pbind.
    destruct (body x s) as [[[]|e] s1] eqn:Hx; [|done]. intros Hl.
    destruct (Hbody x s s1 (list_elem_of_here _ _) Hs Hx) as [Hstep Hs1].
    destruct (IH (λ y s0 s0' Hy, Hbody y s0 s0' (list_elem_of_further _ _ _ Hy))
      s1 s' Hs1 Hl) as [Hsteps Hs'].
    split; [by eapply steps_cons|done].
Qed.

End steps.

(** ** Lists *)

Lemma filter_Forall_id {A} (P : A → Prop) `{!∀ x, Decision (P x)} (l : list A) :
  Forall P l → filter P l = l.
Proof.
  induction 1 as [|x l Hx _ IH]; [done|].
  by rewrite filter_cons_True, IH.
Qed.

Lemma forallb_Forall_true {A} (f : A → bool) (l : list A) :
  forallb f l = true ↔ Forall (λ x, f x = true) l.
Proof.
  induction l as [|x l IH]; simpl; [by split|].
  rewrite andb_true_iff, Forall_cons, IH. done.
Qed.

Lemma foldlM_app {A B} (f : A → B → result A) a l1 l2 :
  foldlM f a (l1 ++ l2) = bind (foldlM f a l1) (λ a', foldlM f a' l2).
Proof.
  revert a. induction l1 as [|x l1 IH]; intros a; [done|]. simpl.
  destruct (f a x); [apply IH|done].
Qed.

(** The longest prefix whose elements pass a test, and what follows it. *)
Fixpoint take_while {A} (p : A → bool) (l : list A) : list A :=
  match l with
  | x :: l' => if p x then x :: take_while p l' else []
  | [] => []
  end.

Fixpoint drop_while {A} (p : A → bool) (l : list A) : list A :=
  match l with
  | x :: l' => if p x then drop_while p l' else l
  | [] => []
  end.

Lemma take_drop_while {A} (p : A → bool) l :
  take_while p l ++ drop_while p l = l.
Proof. induction l as [|x l IH]; simpl; [done|]. destruct (p x); by f_equal/=. Qed.

Lemma take_while_Forall {A} (p : A → bool) l :
  Forall (λ x, p x = true) (take_while p l).
Proof.
  induction l as [|x l IH]; simpl; [done|].
  destruct (p x) eqn:Hx; by constructor.
Qed.

Lemma drop_while_head {A} (p : A → bool) l x rest :
  drop_while p l = x :: rest → p x = false.
Proof.
  induction l as [|y l IH]; simpl; [done|].
  destruct (p y) eqn:Hy; [done|]. by intros [= -> _].
Qed.

Lemma take_while_length {A} (p : A → bool) l :
  length l = length (take_while p l) + length (drop_while p l).
Proof. by rewrite <-length_app, take_drop_while. Qed.

Lemma drop_take_while {A} (p : A → bool) l :
  drop (length (take_while p l)) l = drop_while p l.
Proof.
  rewrite <-(take_drop_while p l) at 2. by rewrite drop_app_length.
Qed.

(** The last element a partial function keeps. *)
Lemma last_omap_cons {A B} (f : A → option B) x l :
  last (omap f (x :: l))
  = match last (omap f l) with Some y => Some y | None => f x end.
Proof.
  change (omap f (x :: l))
    with (match f x with Some y => y :: omap f l | None => omap f l end).
  destruct (f x); [apply last_cons|by destruct (last (omap f l))].
Qed.

Lemma length_omap_le {A B} (f : A → option B) (l : list A) :
  length (omap f l) ≤ length l.
Proof.
  induction l as [|x l IH]; [done|].
  change (omap f (x :: l))
    with (match f x with Some y => y :: omap f l | None => omap f l end).
  destruct (f x); simpl; lia.
Qed.

Lemma length_omap_Forall {A B} (f : A → option B) (l : list A) :
  Forall (λ x, is_Some (f x)) l → length (omap f l) = length l.
Proof.
  induction 1 as [|x l [y Hy] _ IH]; simpl; [done|]. rewrite Hy. simpl. by f_equal.
Qed.

(** A comprehension whose element expression returns on every element
    returns, with the values of the elements. *)
Lemma mapM_result_Ok {A B} (f : A → result B) (l : list A) :
  Forall (λ x, is_ok (f x) = true) l →
  ∃ ys, mapM_result f l = Ok ys ∧ ∀ y, y ∈ ys ↔ ∃ x, x ∈ l ∧ f x = Ok y.
Proof.
  induction 1 as [|x l [y Hy]%is_ok_Ok _ (ys & Hys & Hin)].
  - exists []. split; [done|]. intros y. split; [by intros ?%elem_of_nil|].
    by intros (x & ?%elem_of_nil & _).
  - exists (y :: ys). simpl. rewrite Hy, Hys. split; [done|]. intros z.
    rewrite elem_of_cons, Hin. split.
    + intros [->|(x' & ? & ?)]; [exists x|exists x']; by rewrite ?elem_of_cons; auto.
    + intros (x' & [->|?]%elem_of_cons & Hz); [left; congruence|right; eauto].
Qed.

(** The longest prefix and what follows it, when an element that fails
    the test comes after a list. *)
Lemma take_while_app_stop {A} (p : A → bool) l x rest :
  p x = false → take_while p (l ++ x :: rest) = take_while p l.
Proof.
  intros Hx. induction l as [|y l IH]; simpl; [by rewrite Hx|].
  destruct (p y); by rewrite ?IH.
Qed.

Lemma drop_while_app_stop {A} (p : A → bool) l x rest :
  p x = false → drop_while p (l ++ x :: rest) = drop_while p l ++ x :: rest.
Proof.
  intros Hx. induction l as [|y l IH]; simpl; [by rewrite Hx|].
  by destruct (p y).
Qed.

Lemma take_while_all {A} (p : A → bool) l :
  Forall (λ x, p x = true) l → take_while p l = l.
Proof. induction 1 as [|x l Hx _ IH]; simpl; [done|]. by rewrite Hx, IH. Qed.

(** The last value a partial function gives on a list that ends with
    two given elements. *)
Lemma last_omap_snoc {A B} (f : A → option B) l x y :
  f x = Some y → last (omap f (l ++ [x])) = Some y.
Proof. intros Hx. rewrite omap_app. simpl. rewrite Hx. apply last_snoc. Qed.

Lemma last_omap_snoc_None {A B} (f : A → option B) l x :
  f x = None → last (omap f (l ++ [x])) = last (omap f l).
Proof. intros Hx. rewrite omap_app. simpl. by rewrite Hx, app_nil_r. Qed.

(** ** Tactics *)

(** [inv_result] breaks hypotheses that equate a monadic computation with
    a result into the equations of its steps. *)
Ltac inv_result :=
  repeat match goal with
  | H : Ok _ = Ok _ |- _ => injection H as H; try subst
  | H : Err _ = Err _ |- _ => injection H as H; try subst
  | H : Ok _ = Err _ |- _ => discriminate H
  | H : Err _ = Ok _ |- _ => discriminate H
  | H : bind _ _ = Ok _ |- _ => apply bind_Ok_inv in H as (? & ? & H)
  | H : assert_ _ = Ok _ |- _ => apply assert_Ok in H
  | H : assert_ _ = Err _ |- _ => apply assert_Err in H as [H ->]
  | H : getitem _ _ = Ok _ |- _ => apply getitem_Ok in H
  | H : getitem _ _ = Err _ |- _ => apply getitem_Err in H as [H ->]
  end.

(** [py_simpl] normalises monadic terms with the rewrite database. *)
Ltac py_simpl := autorewrite with py; simpl.
