(* ===== verification/PyString.v ===== *)
(** Python's [str] methods used by the converter
    ([src/taskw_gcal_sync/TWGCalAggregator.py], lines 238-261), on strings
    read as sequences of code points below 256, and the lemmas that compute
    them on concatenations.

    - [split sep s] is [s.split(sep)] for a one-character separator,
    - [split1 sep s] is [s.split(sep, maxsplit=1)],
    - [strip s] is [s.strip()], [lower s] is [s.lower()],
    - [startswith p s] is [s.startswith(p)],
    - [str_of_nat n] is [str(n)] (also ['{}'.format(n)]). *)

From stdpp Require Import base tactics list strings pretty.
From Stdlib Require Import Ascii.
From S2P Require Import Prelude.

(** ** Characters *)

Definition nl : ascii := "010"%char.
Definition colon : ascii := ":"%char.

(** [str.isspace] on the code points below 256: the ASCII white space, the
    separators FS, GS, RS, US, NEL (0x85) and the no-break space (0xA0). *)
Definition is_space (c : ascii) : bool :=
  let n := N_of_ascii c in
  ((9 <=? n) && (n <=? 13) || (28 <=? n) && (n <=? 32)
   || (n =? 133) || (n =? 160))%N.

(** [str.lower] on one code point below 256: A-Z, and the Latin-1 capitals
    0xC0-0xDE except the multiplication sign 0xD7. *)
Definition lower_char (c : ascii) : ascii :=
  let n := N_of_ascii c in
  if ((65 <=? n) && (n <=? 90)
      || (192 <=? n) && (n <=? 222) && negb (n =? 215))%N
  then ascii_of_N (n + 32) else c.

(** ** Strings *)

Fixpoint has_char (c : ascii) (s : string) : bool :=
  match s with
  | EmptyString => false
  | String a s' => bool_decide (a = c) || has_char c s'
  end.

Fixpoint lower (s : string) : string :=
  match s with
  | EmptyString => EmptyString
  | String a s' => String (lower_char a) (lower s')
  end.

Fixpoint startswith (p s : string) : bool :=
  match p, s with
  | EmptyString, _ => true
  | String a p', String b s' => bool_decide (a = b) && startswith p' s'
  | String _ _, EmptyString => false
  end.

Fixpoint lstrip (s : string) : string :=
  match s with
  | EmptyString => EmptyString
  | String a s' => if is_space a then lstrip s' else s
  end.

Fixpoint rstrip (s : string) : string :=
  match s with
  | EmptyString => EmptyString
  | String a s' =>
      match rstrip s' with
      | EmptyString => if is_space a then EmptyString else String a EmptyString
      | r => String a r
      end
  end.

Definition strip (s : string) : string := rstrip (lstrip s).

(** [s.split(sep)]: never the empty list. *)
Fixpoint split (sep : ascii) (s : string) : list string :=
  match s with
  | EmptyString => [EmptyString]
  | String a s' =>
      if bool_decide (a = sep) then EmptyString :: split sep s'
      else match split sep s' with
           | h :: t => String a h :: t
           | [] => [String a EmptyString]
           end
  end.

(** [s.split(sep, maxsplit=1)]: one or two parts. *)
Fixpoint split1 (sep : ascii) (s : string) : list string :=
  match s with
  | EmptyString => [EmptyString]
  | String a s' =>
      if bool_decide (a = sep) then [EmptyString; s']
      else match split1 sep s' with
           | h :: t => String a h :: t
           | [] => [String a EmptyString]
           end
  end.

Definition str_of_nat (n : nat) : string := pretty n.

(** A string without white space at either end: [strip] leaves it alone. *)
Definition trimmed (s : string) : bool := bool_decide (strip s = s).

(** A string [lower] leaves alone. *)
Definition is_lower (s : string) : bool := bool_decide (lower s = s).

(** ** Append *)

Lemma app_nil_l_str s : "" +:+ s = s.
Proof. done. Qed.

Lemma app_cons_str a s t : String a s +:+ t = String a (s +:+ t).
Proof. done. Qed.

Lemma app_nil_r_str s : s +:+ "" = s.
Proof. induction s; [done|]. rewrite app_cons_str. by f_equal. Qed.

Lemma app_assoc_str s t u : (s +:+ t) +:+ u = s +:+ (t +:+ u).
Proof. induction s; [done|]. rewrite !app_cons_str. by f_equal. Qed.

Lemma length_app_str s t :
  String.length (s +:+ t) = String.length s + String.length t.
Proof. induction s; [done|]. rewrite app_cons_str. simpl. by f_equal. Qed.

#[export] Hint Rewrite app_nil_l_str app_nil_r_str app_cons_str app_assoc_str : py.

(** ** [has_char] *)

Lemma has_char_app c s t : has_char c (s +:+ t) = has_char c s || has_char c t.
Proof.
  induction s as [|a s IH]; [done|].
  rewrite app_cons_str. simpl. rewrite IH. by rewrite orb_assoc.
Qed.

Lemma has_char_app_false c s t :
  has_char c s = false → has_char c t = false → has_char c (s +:+ t) = false.
Proof. intros Hs Ht. by rewrite has_char_app, Hs, Ht. Qed.

(** ** [lower] and [startswith] *)

Lemma lower_app s t : lower (s +:+ t) = lower s +:+ lower t.
Proof.
  induction s as [|a s IH]; [done|].
  rewrite app_cons_str. simpl. rewrite app_cons_str. by f_equal.
Qed.

Lemma lower_char_idemp c : lower_char (lower_char c) = lower_char c.
Proof. by destruct c as [[] [] [] [] [] [] [] []]. Qed.

Lemma lower_idemp s : lower (lower s) = lower s.
Proof. induction s; [done|]. simpl. by rewrite lower_char_idemp, IHs. Qed.

Lemma startswith_app p s : startswith p (p +:+ s) = true.
Proof.
  induction p; [done|]. rewrite app_cons_str. simpl.
  by rewrite bool_decide_eq_true_2.
Qed.

Lemma startswith_app_l p s t : startswith p s = true → startswith p (s +:+ t) = true.
Proof.
  revert s. induction p as [|a p IH]; intros [|b s]; try done.
  rewrite app_cons_str. simpl. intros [? ?]%andb_prop.
  apply andb_true_intro. split; [done|by apply IH].
Qed.

(** Two prefixes of one string: one is a prefix of the other. *)
Lemma startswith_comparable p q s :
  startswith p s = true → startswith q s = true →
  startswith p q = true ∨ startswith q p = true.
Proof.
  revert q s.
  induction p as [|a p IH]; intros [|b q] [|c s]; simpl; auto; try done.
  intros [Ha%bool_decide_eq_true Hp]%andb_prop
    [Hb%bool_decide_eq_true Hq]%andb_prop.
  subst. rewrite !bool_decide_eq_true_2 by done. simpl. eauto.
Qed.

(** ** [split] *)

Lemma split_nonempty sep s : split sep s ≠ [].
Proof.
  destruct s as [|a s]; [done|]. simpl.
  case_bool_decide; [done|]. by destruct (split sep s).
Qed.

(** There is at most one part more than there are characters. *)
Lemma split_length_le sep s : length (split sep s) ≤ S (String.length s).
Proof.
  induction s as [|a s IH]; simpl; [done|].
  case_bool_decide; simpl; [lia|].
  destruct (split sep s); simpl in *; lia.
Qed.

Lemma split_sep sep s : split sep (String sep s) = "" :: split sep s.
Proof. simpl. by rewrite bool_decide_eq_true_2. Qed.

Lemma split_no_sep sep s : has_char sep s = false → split sep s = [s].
Proof.
  induction s as [|a s IH]; [done|]. simpl.
  intros [Ha Hs]%orb_false_elim. by rewrite Ha, IH.
Qed.

(** Splitting after a separator-free prefix: the prefix joins the first
    part of what follows. *)
Lemma split_app sep l s :
  has_char sep l = false →
  split sep (l +:+ s) =
    match split sep s with
    | h :: t => (l +:+ h) :: t
    | [] => [l]
    end.
Proof.
  induction l as [|a l IH]; intros Hl.
  - rewrite app_nil_l_str. destruct (split sep s) eqn:E; [|done].
    by destruct (split_nonempty sep s).
  - simpl in Hl. apply orb_false_elim in Hl as [Ha Hl].
    rewrite app_cons_str. simpl. rewrite Ha, (IH Hl).
    destruct (split sep s) eqn:E; [|done]. by destruct (split_nonempty sep s).
Qed.

(** The workhorse: a separator-free line followed by the separator. *)
Lemma split_line sep l s :
  has_char sep l = false →
  split sep (l +:+ String sep s) = l :: split sep s.
Proof.
  intros Hl. rewrite (split_app _ _ _ Hl), split_sep. by rewrite app_nil_r_str.
Qed.

(** ** [split1] *)

(** A text before a text that starts a new line: the parts of the first,
    then the parts of the second. *)
Lemma split_app_empty_head sep s t ts :
  split sep t = "" :: ts → split sep (s +:+ t) = split sep s ++ ts.
Proof.
  intros Ht. induction s as [|a s IH]; simpl;
    [by rewrite app_nil_l_str, Ht|].
  rewrite IH. case_bool_decide; [done|].
  pose proof (split_nonempty sep s). by destruct (split sep s).
Qed.

Lemma split_app_sep sep s t :
  split sep (s +:+ String sep t) = split sep s ++ split sep t.
Proof. apply split_app_empty_head, split_sep. Qed.

Lemma split1_no_sep sep s : has_char sep s = false → split1 sep s = [s].
Proof.
  induction s as [|a s IH]; [done|]. simpl.
  intros [Ha Hs]%orb_false_elim. by rewrite Ha, IH.
Qed.

Lemma split1_sep sep l s :
  has_char sep l = false →
  split1 sep (l +:+ String sep s) = [l; s].
Proof.
  induction l as [|a l IH]; intros Hl.
  - rewrite app_nil_l_str. simpl. by rewrite bool_decide_eq_true_2.
  - simpl in Hl. apply orb_false_elim in Hl as [Ha Hl].
    rewrite app_cons_str. simpl. by rewrite Ha, (IH Hl).
Qed.

Lemma split1_length sep s : length (split1 sep s) = 1 ∨ length (split1 sep s) = 2.
Proof.
  induction s as [|a s IH]; [by left|]. simpl.
  case_bool_decide; [by right|].
  destruct (split1 sep s) as [|? ?]; [by left|exact IH].
Qed.

Lemma split1_length_2 sep s :
  length (split1 sep s) = 2 ↔ has_char sep s = true.
Proof.
  induction s as [|a s IH]; [done|]. simpl.
  case_bool_decide; [done|]. simpl.
  destruct (split1 sep s) as [|? [|? ?]]; simpl in *; try done.
  destruct IH as [IH1 IH2]. destruct (has_char sep s); [by discriminate IH2|done].
Qed.

(** ** [strip] *)

Lemma lstrip_nonspace a s : is_space a = false → lstrip (String a s) = String a s.
Proof. simpl. by intros ->. Qed.

Lemma lstrip_space a s : is_space a = true → lstrip (String a s) = lstrip s.
Proof. simpl. by intros ->. Qed.

Lemma lstrip_length s : String.length (lstrip s) ≤ String.length s.
Proof. induction s as [|a s IH]; [done|]. simpl. destruct (is_space a); simpl; lia. Qed.

Lemma rstrip_length s : String.length (rstrip s) ≤ String.length s.
Proof.
  induction s as [|a s IH]; [done|]. simpl.
  destruct (rstrip s); [destruct (is_space a)|]; simpl in *; lia.
Qed.

Lemma lstrip_fixed s : String.length (lstrip s) = String.length s → lstrip s = s.
Proof.
  destruct s as [|a s]; [done|]. simpl.
  destruct (is_space a); [|done]. pose proof (lstrip_length s). lia.
Qed.

(** A trimmed string is fixed by both halves of [strip]. *)
Lemma strip_fixed_lstrip s : strip s = s → lstrip s = s.
Proof.
  unfold strip. intros Hs. apply lstrip_fixed.
  pose proof (rstrip_length (lstrip s)) as H1.
  pose proof (lstrip_length s) as H2.
  rewrite Hs in H1. lia.
Qed.

Lemma strip_fixed_rstrip s : strip s = s → rstrip s = s.
Proof. intros Hs. unfold strip in Hs. by rewrite (strip_fixed_lstrip s Hs) in Hs. Qed.

Lemma strip_space a s : is_space a = true → strip (String a s) = strip s.
Proof. intros Ha. unfold strip. by rewrite lstrip_space. Qed.

Lemma rstrip_cons_nonempty a s :
  rstrip s ≠ "" → rstrip (String a s) = String a (rstrip s).
Proof. simpl. by destruct (rstrip s). Qed.

Lemma rstrip_cons_nonspace a s :
  is_space a = false → rstrip (String a s) = String a (rstrip s).
Proof. simpl. intros ->. by destruct (rstrip s). Qed.

Lemma rstrip_cons_ne a s : is_space a = false → rstrip (String a s) ≠ "".
Proof. intros Ha. by rewrite rstrip_cons_nonspace. Qed.

(** [rstrip] only looks at the end of the string. *)
Lemma rstrip_app s t : rstrip t ≠ "" → rstrip (s +:+ t) = s +:+ rstrip t.
Proof.
  intros Ht. induction s as [|a s IH]; [done|].
  rewrite !app_cons_str, rstrip_cons_nonempty; [by rewrite IH|].
  rewrite IH. destruct s; [done|by rewrite app_cons_str].
Qed.

Lemma rstrip_app_empty s t : rstrip t = "" → rstrip (s +:+ t) = rstrip s.
Proof.
  intros Ht. induction s as [|a s IH]; [done|].
  rewrite app_cons_str. simpl. by rewrite IH.
Qed.

Lemma rstrip_idemp s : rstrip (rstrip s) = rstrip s.
Proof.
  induction s as [|a s IH]; [done|]. simpl.
  destruct (rstrip s) as [|b r] eqn:E.
  - destruct (is_space a) eqn:Ha; [done|]. simpl. by rewrite Ha.
  - rewrite rstrip_cons_nonempty; [by rewrite IH|]. by rewrite IH.
Qed.

Lemma lstrip_idemp s : lstrip (lstrip s) = lstrip s.
Proof.
  induction s as [|a s IH]; [done|]. simpl.
  destruct (is_space a) eqn:Ha; [done|]. simpl. by rewrite Ha.
Qed.

(** The first character of an [rstrip] is the first character of its
    argument, so [lstrip] after [rstrip] of an [lstrip] does nothing. *)
Lemma lstrip_rstrip_fixed s : lstrip s = s → lstrip (rstrip s) = rstrip s.
Proof.
  destruct s as [|a s]; [done|]. simpl.
  destruct (is_space a) eqn:Ha.
  - intros Hs. pose proof (lstrip_length s) as Hl. rewrite Hs in Hl. simpl in Hl. lia.
  - intros _. destruct (rstrip s); simpl; by rewrite Ha.
Qed.

Lemma strip_idemp s : strip (strip s) = strip s.
Proof.
  unfold strip. rewrite lstrip_rstrip_fixed by apply lstrip_idemp.
  apply rstrip_idemp.
Qed.

(** The two halves of [strip] commute. *)
Lemma rstrip_empty_lstrip s : rstrip s = "" → lstrip s = "".
Proof.
  induction s as [|a s IH]; [done|]. simpl.
  destruct (rstrip s); [|done]. destruct (is_space a); [auto|done].
Qed.

Lemma lstrip_rstrip_comm s : lstrip (rstrip s) = rstrip (lstrip s).
Proof.
  induction s as [|a s IH]; [done|]. destruct (is_space a) eqn:Ha.
  - rewrite (lstrip_space _ _ Ha). simpl. rewrite Ha.
    destruct (rstrip s) as [|b r] eqn:E.
    + by rewrite (rstrip_empty_lstrip s E).
    + by rewrite <- IH, (lstrip_space _ _ Ha).
  - rewrite (lstrip_nonspace _ _ Ha), (rstrip_cons_nonspace _ _ Ha).
    by apply lstrip_nonspace.
Qed.

Lemma strip_rstrip s : strip (rstrip s) = strip s.
Proof. unfold strip. by rewrite lstrip_rstrip_comm, rstrip_idemp. Qed.

Lemma trimmed_strip s : trimmed s = true ↔ strip s = s.
Proof. unfold trimmed. by rewrite bool_decide_eq_true. Qed.

Lemma trimmed_strip_idem s : trimmed (strip s) = true.
Proof. apply trimmed_strip, strip_idemp. Qed.

(** ** Strings over a class of characters *)

Fixpoint str_forall (P : ascii → bool) (s : string) : bool :=
  match s with
  | EmptyString => true
  | String a s' => P a && str_forall P s'
  end.

Definition is_digit (c : ascii) : bool :=
  let n := N_of_ascii c in ((48 <=? n) && (n <=? 57))%N.

Definition all_digits (s : string) : bool := str_forall is_digit s.

Definition no_space (s : string) : bool := str_forall (λ c, negb (is_space c)) s.

Lemma str_forall_app P s t :
  str_forall P (s +:+ t) = str_forall P s && str_forall P t.
Proof.
  induction s as [|a s IH]; [done|].
  rewrite app_cons_str. simpl. by rewrite IH, andb_assoc.
Qed.

Lemma str_forall_impl (P Q : ascii → bool) s :
  (∀ c, P c = true → Q c = true) → str_forall P s = true → str_forall Q s = true.
Proof.
  intros HPQ. induction s as [|a s IH]; [done|]. simpl.
  intros [Ha Hs]%andb_prop. by rewrite (HPQ _ Ha), (IH Hs).
Qed.

Lemma str_forall_has_char P c s :
  P c = false → str_forall P s = true → has_char c s = false.
Proof.
  intros Hc. induction s as [|a s IH]; [done|]. simpl.
  intros [Ha Hs]%andb_prop. rewrite (IH Hs), orb_false_r.
  apply bool_decide_eq_false_2. intros ->. congruence.
Qed.

Lemma no_space_lstrip s : no_space s = true → lstrip s = s.
Proof.
  destruct s as [|a s]; [done|]. unfold no_space. simpl.
  intros [Ha _]%andb_prop. by destruct (is_space a).
Qed.

Lemma no_space_rstrip s : no_space s = true → rstrip s = s.
Proof.
  unfold no_space. induction s as [|a s IH]; [done|]. simpl.
  intros [Ha Hs]%andb_prop. rewrite (IH Hs).
  destruct (is_space a); [done|]. by destruct s.
Qed.

Lemma no_space_strip s : no_space s = true → strip s = s.
Proof.
  intros Hs. unfold strip. by rewrite (no_space_lstrip s Hs), no_space_rstrip.
Qed.

(** ** Characters that a string does not hold

    [strip] and the two splits give parts of the string, so a character
    that the string does not hold is in none of them; the parts of [split]
    do not hold the separator either. *)

Lemma has_char_lstrip c s : has_char c s = false → has_char c (lstrip s) = false.
Proof.
  induction s as [|a s IH]; [done|]. simpl.
  intros [Ha Hs]%orb_false_elim. destruct (is_space a); [by apply IH|].
  simpl. by rewrite Ha, Hs.
Qed.

Lemma has_char_rstrip c s : has_char c s = false → has_char c (rstrip s) = false.
Proof.
  induction s as [|a s IH]; [done|]. simpl.
  intros [Ha Hs]%orb_false_elim. specialize (IH Hs).
  destruct (rstrip s) as [|b r]; [destruct (is_space a)|]; simpl in *;
    by rewrite ?Ha, ?IH.
Qed.

Lemma has_char_strip c s : has_char c s = false → has_char c (strip s) = false.
Proof. intros. by apply has_char_rstrip, has_char_lstrip. Qed.

Lemma split_parts sep c s :
  has_char c s = false → Forall (λ p, has_char c p = false) (split sep s).
Proof.
  induction s as [|a s IH]; simpl; [by repeat constructor|].
  intros [Ha Hs]%orb_false_elim. specialize (IH Hs).
  destruct (bool_decide (a = sep)); [by constructor|].
  destruct IH as [|p ps Hp Hps]; repeat constructor; simpl; by rewrite ?Ha.
Qed.

Lemma split_parts_no_sep sep s :
  Forall (λ p, has_char sep p = false) (split sep s).
Proof.
  induction s as [|a s IH]; simpl; [by repeat constructor|].
  case_bool_decide as Ha; [by constructor|].
  destruct IH as [|p ps Hp Hps]; repeat constructor; simpl;
    by rewrite ?(bool_decide_eq_false_2 _ Ha).
Qed.

Lemma split1_parts sep c s :
  has_char c s = false → Forall (λ p, has_char c p = false) (split1 sep s).
Proof.
  induction s as [|a s IH]; simpl; [by repeat constructor|].
  intros [Ha Hs]%orb_false_elim. specialize (IH Hs).
  destruct (bool_decide (a = sep)); [by repeat constructor|].
  destruct IH as [|p ps Hp Hps]; repeat constructor; simpl; by rewrite ?Ha.
Qed.

(** ** Decimal digits *)

Lemma pretty_N_char_digit x : is_digit (pretty_N_char x) = true.
Proof. unfold pretty_N_char. by repeat case_match. Qed.

Lemma pretty_N_go_digits x s :
  all_digits s = true → all_digits (pretty_N_go x s) = true.
Proof.
  revert s. induction (N.lt_wf_0 x) as [x _ IH]; intros s Hs.
  destruct (decide (0 < x)%N) as [Hx|Hx].
  - rewrite pretty_N_go_step by done. apply IH; [by apply N.div_lt|].
    unfold all_digits. simpl. by rewrite pretty_N_char_digit.
  - assert (x = 0%N) as -> by lia. by rewrite pretty_N_go_0.
Qed.

Lemma str_of_nat_digits n : all_digits (str_of_nat n) = true.
Proof.
  unfold str_of_nat, pretty, pretty_nat, pretty, pretty_N.
  case_decide; [done|]. by apply pretty_N_go_digits.
Qed.

Lemma str_of_nat_no_char c n : is_digit c = false → has_char c (str_of_nat n) = false.
Proof. intros. eapply str_forall_has_char; [done|apply str_of_nat_digits]. Qed.

#[export] Hint Resolve has_char_app_false str_of_nat_no_char : py.
