(* ===== verification/PyValue.v ===== *)
(** Python objects as the synchroniser sees them, and the library objects
    among them.

    An item of either side is a [dict] with string keys: [gmap string value].
    The values are the objects the code reads, writes or compares: [None],
    integers, strings, [uuid.UUID], aware [datetime], lists and nested
    dicts.  A UUID is its 128-bit integer ([UUID.int], on which Python
    defines its equality and hash); an aware datetime is its instant in
    microseconds since the epoch.

    The functions of [uuid], [datetime] and [GCalSide] that the converter
    calls are not defined in the repository's sources: they are the
    interfaces [UuidLib] and [DateTimeLib] below, with the laws the
    converter relies on. *)

From stdpp Require Import base tactics option list strings gmap pretty.
From S2P Require Import Prelude PyString.

(** ** Values *)

Definition uuid : Type := N.
Definition datetime : Type := Z.

#[warnings="-register-all"]
Inductive value : Type :=
| VNone
| VInt (n : Z)
| VStr (s : string)
| VUuid (u : uuid)
| VTime (t : datetime)
| VList (l : list value)
| VDict (d : gmap string value).

Abbreviation item := (gmap string value).

Fixpoint value_eq_dec (v w : value) : Decision (v = w).
Proof.
  refine
    match v, w with
    | VNone, VNone => left _
    | VInt n, VInt n' => cast_if (decide (n = n'))
    | VStr s, VStr s' => cast_if (decide (s = s'))
    | VUuid u, VUuid u' => cast_if (decide (u = u'))
    | VTime t, VTime t' => cast_if (decide (t = t'))
    | VList l, VList l' =>
        cast_if (@decide (l = l') (@list_eq_dec _ value_eq_dec l l'))
    | VDict d, VDict d' =>
        cast_if (@decide (d = d') (@gmap_eq_dec _ _ _ _ value_eq_dec d d'))
    | _, _ => right _
    end; clear value_eq_dec; abstract congruence.
Defined.

#[export] Instance value_eqdec : EqDecision value := value_eq_dec.

#[export] Instance VStr_inj : Inj (=) (=) VStr.
Proof. by intros ? ? [= ->]. Qed.

(** The hashable values: what may be a key of a [dict] or a [bidict]. *)
Inductive hkey : Type :=
| HNone
| HInt (n : Z)
| HStr (s : string)
| HUuid (u : uuid)
| HTime (t : datetime).

#[export] Instance hkey_eq_dec : EqDecision hkey.
Proof. solve_decision. Defined.

Definition hkey_encode (k : hkey) : unit + Z + string + N + Z :=
  match k with
  | HNone => inl (inl (inl (inl tt)))
  | HInt n => inl (inl (inl (inr n)))
  | HStr s => inl (inl (inr s))
  | HUuid u => inl (inr u)
  | HTime t => inr t
  end.

Definition hkey_decode (x : unit + Z + string + N + Z) : hkey :=
  match x with
  | inl (inl (inl (inl _))) => HNone
  | inl (inl (inl (inr n))) => HInt n
  | inl (inl (inr s)) => HStr s
  | inl (inr u) => HUuid u
  | inr t => HTime t
  end.

#[export] Instance hkey_countable : Countable hkey.
Proof. apply (inj_countable' hkey_encode hkey_decode). by intros []. Defined.

Definition of_hkey (k : hkey) : value :=
  match k with
  | HNone => VNone
  | HInt n => VInt n
  | HStr s => VStr s
  | HUuid u => VUuid u
  | HTime t => VTime t
  end.

(** [hash(v)]: a list or a dict is unhashable. *)
Definition to_hkey (v : value) : result hkey :=
  match v with
  | VNone => Ok HNone
  | VInt n => Ok (HInt n)
  | VStr s => Ok (HStr s)
  | VUuid u => Ok (HUuid u)
  | VTime t => Ok (HTime t)
  | VList _ | VDict _ => Err TypeError
  end.

(** ** Operations on values *)

(** [k in d.keys()] *)
Definition has_key {V} (d : gmap string V) (k : string) : bool :=
  bool_decide (is_Some (d !! k)).

(** [v[k]] for a string [k]: only a dict can be subscripted by a string. *)
Definition subscript (v : value) (k : string) : result value :=
  match v with
  | VDict d => getitem d k
  | _ => Err TypeError
  end.

(** [isinstance(v, dict)] *)
Definition is_dict (v : value) : bool :=
  match v with VDict _ => true | _ => false end.

(** The items of a dict, as [dict.update(v)] reads them from a [v] that is
    one. *)
Definition dict_items (v : value) : gmap string value :=
  match v with VDict d => d | _ => ∅ end.

(** [v.split(...)]: only a [str] has the method. *)
Definition as_str (v : value) : result string :=
  match v with
  | VStr s => Ok s
  | _ => Err AttributeError
  end.

(** The characters of a string, as a [for] loop over it visits them. *)
Fixpoint chars (s : string) : list value :=
  match s with
  | EmptyString => []
  | String a s' => VStr (String a EmptyString) :: chars s'
  end.

Definition microseconds_per_day : Z := 86400000000%Z.

(** [datetime.min] and [datetime.max], the first microsecond of year 1 and
    the last of year 9999, counted from the epoch. *)
Definition datetime_min : datetime := (-62135596800000000)%Z.
Definition datetime_max : datetime := 253402300799999999%Z.

(** The instants a [datetime] holds. *)
Definition datetime_ok (t : datetime) : bool :=
  (datetime_min <=? t)%Z && (t <=? datetime_max)%Z.

(** [v + timedelta(days=n)]: [OverflowError] when the sum is outside the
    range of [datetime]. *)
Definition add_days (v : value) (n : Z) : result value :=
  match v with
  | VTime t =>
      let t' := (t + n * microseconds_per_day)%Z in
      if datetime_ok t' then Ok (VTime t') else Err OverflowError
  | _ => Err TypeError
  end.

(** ** Library interfaces *)

Definition uuid_ok (u : uuid) : bool := (u <? 2 ^ 128)%N.

(** [uuid.UUID]: [uuid_str u] is [str(u)]; [uuid_parse s] is [UUID(s)],
    [None] when it raises [ValueError]. *)
Class UuidLib : Type := {
  uuid_str : uuid → string;
  uuid_parse : string → option uuid;
  uuid_parse_str u : uuid_ok u = true → uuid_parse (uuid_str u) = Some u;
  uuid_parse_ok s u : uuid_parse s = Some u → uuid_ok u = true;
  uuid_str_no_nl u : has_char nl (uuid_str u) = false;
  uuid_str_trimmed u : strip (uuid_str u) = uuid_str u;
}.

(** [datetime] and the two static methods of [GCalSide]:
    [datetime_str t] is [str(t)], [format_datetime] and [parse_datetime]
    are [GCalSide.format_datetime] and [GCalSide.parse_datetime], applied
    to any object.  [rfc3339 t] names the string the first returns on a
    datetime; the second reads it back. *)
Class DateTimeLib : Type := {
  datetime_str : datetime → string;
  rfc3339 : datetime → string;
  format_datetime : value → result string;
  parse_datetime : value → result datetime;
  format_datetime_time t : format_datetime (VTime t) = Ok (rfc3339 t);
  parse_format_datetime t : parse_datetime (VStr (rfc3339 t)) = Ok t;
}.

(** What the interpreter does with a container and the model of values
    does not determine: [repr_container v] is the string that [str]
    returns on a list or a dict [v] (its [repr]), and [dict_keys d] are the
    keys of a dict in the order in which a [for] loop visits them, which is
    the order of their insertion.  Nothing is assumed of the first; of the
    second, that the keys are those of the dict, each once. *)
Class ContainerLib : Type := {
  repr_container : value → string;
  dict_keys : gmap string value → list string;
  dict_keys_perm d : dict_keys d ≡ₚ (map_to_list d).*1;
}.

Section py_str.
Context `{UuidLib, DateTimeLib, ContainerLib}.

(** [str(v)], which is also ['{}'.format(v)]: it raises on no value. *)
Definition py_str (v : value) : result string :=
  match v with
  | VNone => Ok "None"
  | VInt n => Ok (pretty n)
  | VStr s => Ok s
  | VUuid u => Ok (uuid_str u)
  | VTime t => Ok (datetime_str t)
  | VList _ | VDict _ => Ok (repr_container v)
  end.

(** The elements a [for] loop over [v] visits: the elements of a list, the
    characters of a string, the keys of a dict. *)
Definition py_iter (v : value) : result (list value) :=
  match v with
  | VList l => Ok l
  | VStr s => Ok (chars s)
  | VDict d => Ok (VStr <$> dict_keys d)
  | VNone | VInt _ | VUuid _ | VTime _ => Err TypeError
  end.

(** The string by which an exception names a hashable key. *)
Definition hkey_str (k : hkey) : string :=
  match k with
  | HNone => "None"
  | HInt n => pretty n
  | HStr s => s
  | HUuid u => uuid_str u
  | HTime t => datetime_str t
  end.

End py_str.

(** ** Lemmas *)

Lemma has_key_true {V} (d : gmap string V) k :
  has_key d k = true ↔ is_Some (d !! k).
Proof. unfold has_key. apply bool_decide_eq_true. Qed.

Lemma has_key_false {V} (d : gmap string V) k :
  has_key d k = false ↔ d !! k = None.
Proof. unfold has_key. rewrite bool_decide_eq_false. symmetry. apply eq_None_not_Some. Qed.

Lemma has_key_Some {V} (d : gmap string V) k v : d !! k = Some v → has_key d k = true.
Proof. intros. apply has_key_true. eauto. Qed.

Lemma has_key_None {V} (d : gmap string V) k : d !! k = None → has_key d k = false.
Proof. apply has_key_false. Qed.

Lemma has_key_dom {V} (d : gmap string V) k : has_key d k = true ↔ k ∈ dom d.
Proof. by rewrite has_key_true, elem_of_dom. Qed.

Lemma has_key_insert {V} (d : gmap string V) k v : has_key (<[k:=v]> d) k = true.
Proof. apply has_key_true. rewrite lookup_insert_eq. eauto. Qed.

Lemma has_key_insert_ne {V} (d : gmap string V) k k' v :
  k ≠ k' → has_key (<[k:=v]> d) k' = has_key d k'.
Proof. intros. unfold has_key. by rewrite lookup_insert_ne. Qed.

Lemma to_hkey_of_hkey k : to_hkey (of_hkey k) = Ok k.
Proof. by destruct k. Qed.

Lemma to_hkey_Ok v k : to_hkey v = Ok k → v = of_hkey k.
Proof. destruct v; intros; by simplify_eq/=. Qed.

Lemma to_hkey_Err v e :
  to_hkey v = Err e → e = TypeError ∧ ((∃ l, v = VList l) ∨ (∃ d, v = VDict d)).
Proof. destruct v; intros; simplify_eq/=; eauto. Qed.

Lemma subscript_dict d k : subscript (VDict d) k = getitem d k.
Proof. done. Qed.

Lemma py_str_total `{UuidLib, DateTimeLib, ContainerLib} v :
  ∃ s, py_str v = Ok s.
Proof. destruct v; simpl; eauto. Qed.

Lemma datetime_ok_spec t :
  datetime_ok t = true ↔ (datetime_min ≤ t ≤ datetime_max)%Z.
Proof. unfold datetime_ok. rewrite andb_true_iff, !Z.leb_le. tauto. Qed.

Lemma add_days_time t n :
  datetime_ok (t + n * microseconds_per_day)%Z = true →
  add_days (VTime t) n = Ok (VTime (t + n * microseconds_per_day)%Z).
Proof. unfold add_days. by intros ->. Qed.

Lemma add_days_overflow t n :
  datetime_ok (t + n * microseconds_per_day)%Z = false →
  add_days (VTime t) n = Err OverflowError.
Proof. unfold add_days. by intros ->. Qed.

(** A day can be added to a datetime exactly when it ends a day or more
    before [datetime.max]. *)
Lemma add_days_Ok_iff t :
  datetime_ok t = true →
  is_ok (add_days (VTime t) 1) = true
  ↔ (t ≤ datetime_max - microseconds_per_day)%Z.
Proof.
  intros [Hlo Hhi]%datetime_ok_spec. unfold add_days. cbn zeta.
  destruct (datetime_ok _) eqn:Ht; cbn [is_ok].
  - apply datetime_ok_spec in Ht. split; [intros _; lia|done].
  - split; [done|]. intros Hle.
    assert (datetime_ok (t + 1 * microseconds_per_day)%Z = true) as Hok;
      [|congruence].
    apply datetime_ok_spec. unfold microseconds_per_day in *. lia.
Qed.

#[export] Hint Rewrite @has_key_insert : py.
#[export] Hint Rewrite @has_key_insert_ne using done : py.
#[export] Hint Rewrite to_hkey_of_hkey subscript_dict : py.
#[export] Hint Rewrite add_days_time using done : py.
#[export] Hint Rewrite @format_datetime_time @parse_format_datetime : py.
#[export] Hint Resolve has_key_Some has_key_None : py.
