(* ===== verification/Codecs.v ===== *)
(** Concrete instances of the library interfaces of [PyValue], on which
    the converter can be run:

    - [hex_uuid_lib]: a UUID printed in the canonical form of [str(UUID)]
      (32 lower-case hexadecimal digits in groups 8-4-4-4-12) and parsed as
      [UUID(s)] parses a string of hexadecimal digits and hyphens;
    - [epoch_datetime_lib]: a datetime formatted as its signed decimal
      count of microseconds, a stand-in for the RFC 3339 text of
      [GCalSide.format_datetime];
    - [elided_container_lib]: a list or a dict printed without its
      contents, and the keys of a dict in the order of the map.

    They satisfy the laws of their interfaces, which shows the laws
    consistent; the theorems of the other files hold for every instance. *)

From stdpp Require Import base tactics option list strings gmap pretty.
From Stdlib Require Import Ascii DecimalString DecimalZ.
From S2P Require Import Prelude PyString PyValue.

(** ** Hexadecimal *)

Definition hex_char (d : N) : ascii :=
  match d with
  | 0 => "0" | 1 => "1" | 2 => "2" | 3 => "3" | 4 => "4" | 5 => "5"
  | 6 => "6" | 7 => "7" | 8 => "8" | 9 => "9" | 10 => "a" | 11 => "b"
  | 12 => "c" | 13 => "d" | 14 => "e" | _ => "f"
  end%char%N.

Definition hex_val (c : ascii) : option N :=
  let n := N_of_ascii c in
  if ((48 <=? n) && (n <=? 57))%N then Some (n - 48)%N
  else if ((97 <=? n) && (n <=? 102))%N then Some (n - 87)%N
  else if ((65 <=? n) && (n <=? 70))%N then Some (n - 55)%N
  else None.

Definition is_hex (c : ascii) : bool := bool_decide (is_Some (hex_val c)).

(** The low [n] hexadecimal digits of [u], most significant first. *)
Fixpoint hex_digits (n : nat) (u : N) : string :=
  match n with
  | 0 => ""
  | S n' => hex_digits n' (u `div` 16)%N +:+ String (hex_char (u `mod` 16)%N) ""
  end.

Fixpoint parse_hex (acc : N) (s : string) : option N :=
  match s with
  | EmptyString => Some acc
  | String c s' =>
      match hex_val c with
      | Some d => parse_hex (acc * 16 + d)%N s'
      | None => None
      end
  end.

Fixpoint remove_char (c : ascii) (s : string) : string :=
  match s with
  | EmptyString => EmptyString
  | String a s' =>
      if bool_decide (a = c) then remove_char c s' else String a (remove_char c s')
  end.

(** A hyphen before the characters of index 8, 12, 16 and 20. *)
Fixpoint hyphenate (i : nat) (s : string) : string :=
  match s with
  | EmptyString => EmptyString
  | String c s' =>
      let r := String c (hyphenate (S i) s') in
      if bool_decide (i ∈ [8; 12; 16; 20]) then String "-" r else r
  end.

Definition canonical_uuid_str (u : uuid) : string :=
  hyphenate 0 (hex_digits 32 u).

Definition hex_uuid_parse (s : string) : option uuid :=
  let h := remove_char "-" s in
  if bool_decide (String.length h = 32) then parse_hex 0 h else None.

(** ** Decimal microseconds *)

Definition epoch_str (t : datetime) : string :=
  NilZero.string_of_int (Z.to_int t).

Definition epoch_format (v : value) : result string :=
  match v with
  | VTime t => Ok (epoch_str t)
  | _ => Err AttributeError
  end.

Definition epoch_parse (v : value) : result datetime :=
  match v with
  | VStr s =>
      match NilZero.int_of_string s with
      | Some d => Ok (Z.of_int d)
      | None => Err ValueError
      end
  | _ => Err TypeError
  end.

(** ** Lemmas on hexadecimal *)

Lemma hex_val_char d : (d < 16)%N → hex_val (hex_char d) = Some d.
Proof.
  intros Hd.
  assert (d = 0 ∨ d = 1 ∨ d = 2 ∨ d = 3 ∨ d = 4 ∨ d = 5 ∨ d = 6 ∨ d = 7
          ∨ d = 8 ∨ d = 9 ∨ d = 10 ∨ d = 11 ∨ d = 12 ∨ d = 13 ∨ d = 14
          ∨ d = 15)%N as Hcases by lia.
  repeat (destruct Hcases as [->|Hcases]; [done|]). by subst d.
Qed.

Lemma is_hex_char d : is_hex (hex_char d) = true.
Proof.
  unfold is_hex. apply bool_decide_eq_true_2.
  unfold hex_char. repeat case_match; by eexists.
Qed.

Lemma hex_val_bound c d : hex_val c = Some d → (d < 16)%N.
Proof.
  unfold hex_val. intros Hv. repeat case_match; simplify_eq;
    repeat match goal with
    | H : _ && _ = true |- _ => apply andb_prop in H as [?%N.leb_le ?%N.leb_le]
    end; lia.
Qed.

Lemma hex_digits_length n u : String.length (hex_digits n u) = n.
Proof.
  revert u. induction n as [|n IH]; intros u; [done|]. simpl.
  rewrite length_app_str, IH. simpl. lia.
Qed.

Lemma hex_digits_hex n u : str_forall is_hex (hex_digits n u) = true.
Proof.
  revert u. induction n as [|n IH]; intros u; [done|]. simpl.
  rewrite str_forall_app, IH. simpl. by rewrite is_hex_char.
Qed.

Lemma parse_hex_app acc s t :
  parse_hex acc (s +:+ t) = parse_hex acc s ≫= λ a, parse_hex a t.
Proof.
  revert acc. induction s as [|c s IH]; intros acc; [done|].
  rewrite app_cons_str. simpl. destruct (hex_val c); [apply IH|done].
Qed.

Lemma parse_hex_digits n u acc :
  parse_hex acc (hex_digits n u) = Some (acc * 16 ^ N.of_nat n + u `mod` 16 ^ N.of_nat n)%N.
Proof.
  revert u acc. induction n as [|n IH]; intros u acc.
  - simpl. f_equal. rewrite N.mod_1_r. lia.
  - simpl hex_digits. rewrite parse_hex_app, IH. simpl.
    rewrite hex_val_char by (apply N.mod_lt; lia). f_equal.
    rewrite Nat2N.inj_succ, N.pow_succ_r'.
    rewrite N.Div0.mod_mul_r. lia.
Qed.

Lemma parse_hex_bound s acc r :
  parse_hex acc s = Some r → (r < (acc + 1) * 16 ^ N.of_nat (String.length s))%N.
Proof.
  revert acc. induction s as [|c s IH]; intros acc; simpl.
  - intros [= ->]. lia.
  - destruct (hex_val c) as [d|] eqn:Hd; [|done]. intros Hr%IH.
    apply hex_val_bound in Hd.
    rewrite Nat2N.inj_succ, N.pow_succ_r'. nia.
Qed.

Lemma remove_char_fixed P c s :
  P c = false → str_forall P s = true → remove_char c s = s.
Proof.
  intros Hc. induction s as [|a s IH]; [done|]. simpl.
  intros [Ha Hs]%andb_prop. rewrite (IH Hs).
  rewrite bool_decide_eq_false_2; [done|]. intros ->. congruence.
Qed.

Lemma remove_char_hyphenate i s :
  has_char "-" s = false → remove_char "-" (hyphenate i s) = s.
Proof.
  revert i. induction s as [|a s IH]; intros i; [done|]. simpl.
  intros [Ha Hs]%orb_false_elim.
  destruct (bool_decide (i ∈ [8; 12; 16; 20])); simpl; by rewrite Ha, (IH _ Hs).
Qed.

Lemma hyphenate_forall P i s :
  P "-"%char = true → str_forall P s = true → str_forall P (hyphenate i s) = true.
Proof.
  intros Hd. revert i. induction s as [|a s IH]; intros i; [done|]. simpl.
  intros [Ha Hs]%andb_prop.
  destruct (bool_decide (i ∈ [8; 12; 16; 20])); simpl; by rewrite ?Hd, Ha, (IH _ Hs).
Qed.

Lemma canonical_uuid_str_chars P u :
  P "-"%char = true → (∀ c, is_hex c = true → P c = true) →
  str_forall P (canonical_uuid_str u) = true.
Proof.
  intros Hd HP. apply hyphenate_forall; [done|].
  eapply str_forall_impl; [exact HP|apply hex_digits_hex].
Qed.

Lemma is_hex_cases c :
  is_hex c = true → is_space c = false ∧ c ≠ nl ∧ c ≠ "-"%char.
Proof. by destruct c as [[] [] [] [] [] [] [] []]. Qed.

(** ** The instances *)

Lemma hex_uuid_parse_str u :
  uuid_ok u = true → hex_uuid_parse (canonical_uuid_str u) = Some u.
Proof.
  intros Hu%N.ltb_lt. unfold hex_uuid_parse, canonical_uuid_str.
  rewrite remove_char_hyphenate.
  - rewrite hex_digits_length, bool_decide_eq_true_2, parse_hex_digits by done.
    f_equal. rewrite N.mod_small; [lia|]. exact Hu.
  - eapply (str_forall_has_char is_hex); [done|apply hex_digits_hex].
Qed.

Lemma hex_uuid_parse_ok s u : hex_uuid_parse s = Some u → uuid_ok u = true.
Proof.
  unfold hex_uuid_parse. case_bool_decide as Hlen; [|done].
  intros Hr%parse_hex_bound. rewrite Hlen in Hr. by apply N.ltb_lt.
Qed.

Lemma canonical_uuid_str_no_nl u : has_char nl (canonical_uuid_str u) = false.
Proof.
  apply (str_forall_has_char (λ c, bool_decide (c ≠ nl))); [done|].
  apply canonical_uuid_str_chars; [done|].
  intros c (_ & ? & _)%is_hex_cases. by apply bool_decide_eq_true_2.
Qed.

Lemma canonical_uuid_str_trimmed u :
  strip (canonical_uuid_str u) = canonical_uuid_str u.
Proof.
  apply no_space_strip, canonical_uuid_str_chars; [done|].
  by intros c (-> & _)%is_hex_cases.
Qed.

#[export] Instance hex_uuid_lib : UuidLib := {|
  uuid_str := canonical_uuid_str;
  uuid_parse := hex_uuid_parse;
  uuid_parse_str := hex_uuid_parse_str;
  uuid_parse_ok := hex_uuid_parse_ok;
  uuid_str_no_nl := canonical_uuid_str_no_nl;
  uuid_str_trimmed := canonical_uuid_str_trimmed;
|}.

Lemma epoch_parse_format t : epoch_parse (VStr (epoch_str t)) = Ok t.
Proof.
  unfold epoch_parse, epoch_str.
  rewrite NilZero.isi.
  - by rewrite DecimalZ.of_to.
  - intros Hnil. pose proof (f_equal Z.of_int Hnil) as Ht.
    rewrite DecimalZ.of_to in Ht. by subst t.
  - intros Hnil. pose proof (f_equal Z.of_int Hnil) as Ht.
    rewrite DecimalZ.of_to in Ht. by subst t.
Qed.

#[export] Instance epoch_datetime_lib : DateTimeLib := {|
  datetime_str := epoch_str;
  rfc3339 := epoch_str;
  format_datetime := epoch_format;
  parse_datetime := epoch_parse;
  format_datetime_time t := eq_refl;
  parse_format_datetime := epoch_parse_format;
|}.

(** A printing of containers that elides their contents, and the keys of a
    dict in the order of the map. *)
#[export] Instance elided_container_lib : ContainerLib := {|
  repr_container v := match v with VList _ => "[...]" | _ => "{...}" end;
  dict_keys d := (map_to_list d).*1;
  dict_keys_perm d := reflexivity _;
|}.
