(* ===== verification/Converter.v ===== *)
(** The item converter: the static methods of [TWGCalAggregator]
    ([src/taskw_gcal_sync/TWGCalAggregator.py], lines 118-267).

    - [convert_tw_to_gcal] builds a calendar event from a task,
    - [_parse_gcal_item_desc] reads annotations, status and uuid back from
      an event's description,
    - [convert_gcal_to_tw] builds a task from an event,
    - [compare_tw_gcal_items] reports the keys and values in which a task
      and an event, seen as a task, differ.

    Every function is a [result]: the [Err] cases are the exceptions the
    Python raises ([AssertionError] of the [assert], [KeyError] of a
    subscription, [TypeError] and [AttributeError] of an operation on the
    wrong kind of object).  Logging calls are left out. *)

From stdpp Require Import base tactics option list strings gmap.
From S2P Require Import Prelude PyString PyValue.

#[local] Open Scope result_scope.

(** ** Constants of the code *)

Definition meta_title : string := "IMPORTED FROM TASKWARRIOR".

Definition required_tw_keys : list string := ["description"; "status"; "uuid"].

Definition meta_keys : list string := ["status"; "uuid"].

Definition valid_statuses : list string :=
  ["pending"; "completed"; "deleted"; "waiting"; "recurring"].

Definition default_status : string := "pending".

(** The value of ['dateTime'] wrapped as the event's [start] or [end]. *)
Definition date_time_dict (s : string) : value :=
  VDict {[ "dateTime" := VStr s ]}.

Section converter.
Context `{UuidLib, DateTimeLib, ContainerLib}.

(** ** Task to event *)

(** ['\n* Annotation {}: {}'.format(i+1, a)] *)
Definition annotation_line (i : nat) (s : string) : string :=
  String nl "* Annotation " +:+ str_of_nat (S i) +:+ ": " +:+ s.

(** The loop of lines 157-159, from index [i] on. *)
Fixpoint add_annotations (desc : string) (i : nat) (anns : list value)
    : result string :=
  match anns with
  | [] => Ok desc
  | a :: rest =>
      s <- py_str a ;;
      add_annotations (desc +:+ annotation_line i s) (S i) rest
  end.

(** ['\n* {}: {}'.format(k, tw_item[k])] *)
Definition meta_line (k s : string) : string :=
  String nl "* " +:+ k +:+ ": " +:+ s.

(** One iteration of the loop of lines 162-163. *)
Definition add_meta (tw_item : item) (desc k : string) : result string :=
  v <- getitem tw_item k ;;
  s <- py_str v ;;
  Ok (desc +:+ meta_line k s).

(** The text of [gcal_item['description']], lines 153-163. *)
Definition gcal_description (tw_item : item) : result string :=
  let desc := meta_title +:+ String nl "" in
  desc <- (if has_key tw_item "annotations" then
             anns <- getitem tw_item "annotations" ;;
             l <- py_iter anns ;;
             add_annotations desc 0 l
           else Ok desc) ;;
  let desc := desc +:+ String nl "" in
  foldlM (add_meta tw_item) desc meta_keys.

Definition convert_tw_to_gcal (tw_item : item) : result item :=
  assert_ (forallb (has_key tw_item) required_tw_keys) ;;
  summary <- getitem tw_item "description" ;;
  let gcal_item : item := {[ "summary" := summary ]} in
  desc <- gcal_description tw_item ;;
  let gcal_item := <["description" := VStr desc]> gcal_item in
  entry <- getitem tw_item "entry" ;;
  entry_dt <- format_datetime entry ;;
  let gcal_item := <["start" := date_time_dict entry_dt]> gcal_item in
  if has_key tw_item "due" then
    due <- getitem tw_item "due" ;;
    due_dt <- format_datetime due ;;
    Ok (<["end" := date_time_dict due_dt]> gcal_item)
  else
    entry <- getitem tw_item "entry" ;;
    next_day <- add_days entry 1 ;;
    end_dt <- format_datetime next_day ;;
    Ok (<["end" := date_time_dict end_dt]> gcal_item).

(** ** Event description to task fields *)

(** The lines of a description: the non-empty lines, each stripped, without
    the first (line 238). *)
Definition desc_lines (gcal_desc : string) : list string :=
  tail (strip <$> filter (λ l, l ≠ "") (split nl gcal_desc)).

(** The test of line 244 on one line; [Some] of the annotation's text when
    it holds. *)
Definition annotation_of_line (l : string) : option string :=
  match split1 colon l with
  | [p0; p1] =>
      if startswith "* annotation" (lower p0) then Some (strip p1) else None
  | _ => None
  end.

(** The loop of lines 241-247, from index [i] on: the annotations read, and
    the value the loop variable [i] has when the loop is left (the index of
    the line that broke it, else the last index, else the initial 0). *)
Fixpoint scan_annotations (lines : list string) (i : nat) : list string * nat :=
  match lines with
  | [] => ([], Nat.pred i)
  | l :: rest =>
      match annotation_of_line l with
      | Some a =>
          let '(anns, j) := scan_annotations rest (S i) in (a :: anns, j)
      | None => ([], i)
      end
  end.

(** One iteration of the loop of lines 253-265 on the pair (status, uuid). *)
Definition scan_meta_line (st : string * option uuid) (l : string)
    : string * option uuid :=
  match split1 colon l with
  | [p0; p1] =>
      let start := lower p0 in
      if startswith "* status" start then (lower (strip p1), st.2)
      else if startswith "* uuid" start then
        match uuid_parse (strip p1) with
        | Some u => (st.1, Some u)
        | None => st
        end
      else st
  | _ => st
  end.

Definition _parse_gcal_item_desc (gcal_item : item)
    : result (list string * string * option uuid) :=
  if negb (has_key gcal_item "description") then Ok ([], default_status, None)
  else
    gcal_desc <- getitem gcal_item "description" ;;
    gcal_desc <- as_str gcal_desc ;;
    let lines := desc_lines gcal_desc in
    let '(annotations, i) := scan_annotations lines 0 in
    if bool_decide (Z.of_nat i = Z.of_nat (length lines) - 1)%Z
    then Ok (annotations, default_status, None)
    else
      let '(status, uuid) :=
        foldl scan_meta_line (default_status, None) (drop i lines) in
      Ok (annotations, status, uuid).

(** ** Event to task *)

Definition convert_gcal_to_tw (gcal_item : item) : result item :=
  parsed <- _parse_gcal_item_desc gcal_item ;;
  let '(annotations, status, uuid) := parsed in
  let tw_item : item := {[ "annotations" := VList (VStr <$> annotations) ]} in
  let tw_item :=
    if bool_decide (status ∈ valid_statuses)
    then <["status" := VStr status]> tw_item else tw_item in
  let tw_item :=
    match uuid with
    | Some u => <["uuid" := VUuid u]> tw_item
    | None => tw_item
    end in
  summary <- getitem gcal_item "summary" ;;
  let tw_item := <["description" := summary]> tw_item in
  start <- getitem gcal_item "start" ;;
  start_dt <- subscript start "dateTime" ;;
  entry <- parse_datetime start_dt ;;
  let tw_item := <["entry" := VTime entry]> tw_item in
  end_ <- getitem gcal_item "end" ;;
  end_dt <- subscript end_ "dateTime" ;;
  due <- parse_datetime end_dt ;;
  Ok (<["due" := VTime due]> tw_item).

(** ** Comparison *)

(** [set(a) ^ set(b)] *)
Definition key_sym_diff (a b : item) : gset string :=
  (dom a ∖ dom b) ∪ (dom b ∖ dom a).

(** [{k: (a[k], b[k]) for k in set(a) & set(b) if a[k] != b[k]}] *)
Definition changed_values (a b : item) : gmap string (value * value) :=
  merge (λ x y,
    match x, y with
    | Some v, Some w => if decide (v = w) then None else Some (v, w)
    | _, _ => None
    end) a b.

Definition compare_tw_gcal_items (tw_item gcal_item : item)
    : result (gset string * gmap string (value * value)) :=
  tw_item_out <- convert_gcal_to_tw gcal_item ;;
  let diff_keys := key_sym_diff tw_item tw_item_out in
  let changes := changed_values tw_item tw_item_out in
  Ok (diff_keys, changes).

End converter.
