(* ===== verification/RoundTrip.v ===== *)
(** The round trip task -> event -> task of the converter
    ([convert_tw_to_gcal] then [convert_gcal_to_tw],
    [src/taskw_gcal_sync/TWGCalAggregator.py], lines 135-267).

    A task is read through a [task_view]: the six fields the converter
    looks at.  [event_of] is the event [convert_tw_to_gcal] builds from a
    view and [task_of] the task [convert_gcal_to_tw] reads back from that
    event.  The description parser recovers annotations, status and uuid
    when the view is [clean]: no annotation holds a line break or has
    white space at an end, the status is one of the five task states and
    the uuid is a 128-bit number.  When only the white space is in the way
    (the view is [printable]), the annotations come back stripped
    ([stripped]). *)

From stdpp Require Import base tactics option list strings gmap.
From Stdlib Require Import Ascii.
From S2P Require Import Prelude PyString PyValue Codecs Converter.

#[local] Open Scope result_scope.

(** ** Views of a task *)

Record task_view : Type := TaskView {
  tv_description : value;
  tv_status : string;
  tv_uuid : uuid;
  tv_entry : datetime;
  tv_due : option datetime;
  tv_annotations : option (list string);
}.

Definition views (t : item) (v : task_view) : Prop :=
  t !! "description" = Some (tv_description v)
  ∧ t !! "status" = Some (VStr (tv_status v))
  ∧ t !! "uuid" = Some (VUuid (tv_uuid v))
  ∧ t !! "entry" = Some (VTime (tv_entry v))
  ∧ t !! "due" = VTime <$> tv_due v
  ∧ t !! "annotations" = (λ l, VList (VStr <$> l)) <$> tv_annotations v.

Definition clean_annotation (a : string) : bool :=
  negb (has_char nl a) && trimmed a.

(** The end of the event is a [datetime]: the task has a due date, or the
    day after its entry is within the range of [datetime]. *)
Definition end_fits (v : task_view) : bool :=
  match tv_due v with
  | Some _ => true
  | None => datetime_ok (tv_entry v + 1 * microseconds_per_day)%Z
  end.

Definition clean (v : task_view) : bool :=
  bool_decide (tv_status v ∈ valid_statuses)
  && uuid_ok (tv_uuid v)
  && forallb clean_annotation (default [] (tv_annotations v))
  && end_fits v.

(** A view that the converter writes and the parser reads back: as
    [clean], but an annotation may have white space at its ends. *)
Definition printable (v : task_view) : bool :=
  bool_decide (tv_status v ∈ valid_statuses)
  && uuid_ok (tv_uuid v)
  && forallb (λ a, negb (has_char nl a)) (default [] (tv_annotations v))
  && end_fits v.

(** The view with every annotation stripped. *)
Definition stripped (v : task_view) : task_view :=
  TaskView (tv_description v) (tv_status v) (tv_uuid v) (tv_entry v)
    (tv_due v) ((λ l : list string, strip <$> l) <$> tv_annotations v).

(** The end of the event: the due date, else a day after the entry. *)
Definition view_end (v : task_view) : datetime :=
  default (tv_entry v + 1 * microseconds_per_day)%Z (tv_due v).

(** ** The texts the converter writes *)

Definition annotation_text (i : nat) (a : string) : string :=
  "* Annotation " +:+ str_of_nat (S i) +:+ ": " +:+ a.

Definition meta_text (k s : string) : string := "* " +:+ k +:+ ": " +:+ s.

#[global] Arguments annotation_text : simpl never.
#[global] Arguments meta_text : simpl never.

Fixpoint annotation_block (i : nat) (anns : list string) : string :=
  match anns with
  | [] => ""
  | a :: rest => String nl (annotation_text i a) +:+ annotation_block (S i) rest
  end.

Fixpoint annotation_texts (i : nat) (anns : list string) : list string :=
  match anns with
  | [] => []
  | a :: rest => annotation_text i a :: annotation_texts (S i) rest
  end.

Section roundtrip.
Context `{UuidLib, DateTimeLib, ContainerLib}.

Definition description_text (v : task_view) : string :=
  meta_title +:+ String nl (
    annotation_block 0 (default [] (tv_annotations v)) +:+ String nl (
      String nl (meta_text "status" (tv_status v)) +:+
      String nl (meta_text "uuid" (uuid_str (tv_uuid v))))).

Definition event_of (v : task_view) : item :=
  <["end" := date_time_dict (rfc3339 (view_end v))]>
  (<["start" := date_time_dict (rfc3339 (tv_entry v))]>
  (<["description" := VStr (description_text v)]>
  {[ "summary" := tv_description v ]})).

Definition task_of (v : task_view) : item :=
  <["due" := VTime (view_end v)]>
  (<["entry" := VTime (tv_entry v)]>
  (<["description" := tv_description v]>
  (<["uuid" := VUuid (tv_uuid v)]>
  (<["status" := VStr (tv_status v)]>
  {[ "annotations" := VList (VStr <$> default [] (tv_annotations v)) ]})))).

(** ** Task to event *)

Lemma add_annotations_strs desc i anns :
  add_annotations desc i (VStr <$> anns) = Ok (desc +:+ annotation_block i anns).
Proof.
  revert desc i. induction anns as [|a anns IH]; intros desc i; simpl.
  - by rewrite app_nil_r_str.
  - rewrite IH. by rewrite app_assoc_str.
Qed.

Lemma add_meta_str t desc k s :
  t !! k = Some (VStr s) → add_meta t desc k = Ok (desc +:+ String nl (meta_text k s)).
Proof. intros Hk. unfold add_meta. by rewrite (getitem_Some _ _ _ Hk). Qed.

Lemma add_meta_uuid t desc k u :
  t !! k = Some (VUuid u) →
  add_meta t desc k = Ok (desc +:+ String nl (meta_text k (uuid_str u))).
Proof. intros Hk. unfold add_meta. by rewrite (getitem_Some _ _ _ Hk). Qed.

Lemma views_required_keys t v :
  views t v → forallb (has_key t) required_tw_keys = true.
Proof.
  intros (Hd & Hs & Hu & _). simpl.
  by rewrite (has_key_Some _ _ _ Hd), (has_key_Some _ _ _ Hs), (has_key_Some _ _ _ Hu).
Qed.

(** The description built by lines 153-163. *)
Lemma views_description t v :
  views t v → gcal_description t = Ok (description_text v).
Proof.
  intros (_ & Hs & Hu & _ & _ & Ha). unfold gcal_description, description_text.
  destruct (tv_annotations v) as [anns|]; simpl in *.
  - rewrite (has_key_Some _ _ _ Ha), (getitem_Some _ _ _ Ha). simpl.
    rewrite add_annotations_strs. simpl.
    rewrite (add_meta_str _ _ _ _ Hs). simpl.
    rewrite (add_meta_uuid _ _ _ _ Hu).
    by rewrite ?app_assoc_str.
  - rewrite (has_key_None _ _ Ha). simpl.
    rewrite (add_meta_str _ _ _ _ Hs). simpl.
    rewrite (add_meta_uuid _ _ _ _ Hu).
    by rewrite ?app_assoc_str.
Qed.

(** The conversion of a task seen by a view, on both outcomes: the event of
    the view, or [OverflowError] when the task has no due date and its
    entry is in the last day of [datetime]. *)
Lemma convert_tw_to_gcal_outcome t v :
  views t v →
  convert_tw_to_gcal t
  = if end_fits v then Ok (event_of v) else Err OverflowError.
Proof.
  intros Hv. pose proof Hv as (Hd & _ & _ & He & Hdue & _).
  unfold convert_tw_to_gcal.
  rewrite (views_required_keys _ _ Hv). simpl.
  rewrite (getitem_Some _ _ _ Hd). simpl.
  rewrite (views_description _ _ Hv). simpl.
  rewrite (getitem_Some _ _ _ He). simpl.
  rewrite format_datetime_time. simpl.
  unfold event_of, view_end, end_fits.
  destruct (tv_due v) as [due|]; simpl in *.
  - rewrite (has_key_Some _ _ _ Hdue), (getitem_Some _ _ _ Hdue). simpl.
    by rewrite format_datetime_time.
  - rewrite (has_key_None _ _ Hdue). cbn [bind add_days].
    destruct (datetime_ok _); [|done]. cbn [bind].
    by rewrite format_datetime_time.
Qed.

Lemma convert_tw_to_gcal_views t v :
  views t v → end_fits v = true → convert_tw_to_gcal t = Ok (event_of v).
Proof. intros Hv Hf. by rewrite (convert_tw_to_gcal_outcome t v Hv), Hf. Qed.

Lemma end_fits_stripped v : end_fits (stripped v) = end_fits v.
Proof. done. Qed.

(** ** Reading one line back *)

(** A line [<prefix>: <text>] written by the converter, stripped and split
    at its first colon, gives back the prefix and a second part that strips
    to the text. *)
Lemma field_line_parts c p s :
  is_space c = false → has_char colon (String c p) = false →
  ∃ r, split1 colon (strip (String c p +:+ ": " +:+ s)) = [String c p; r]
       ∧ strip r = strip s.
Proof.
  intros Hc Hp. exists (rstrip (String " " s)). split.
  - unfold strip.
    rewrite app_cons_str, (lstrip_nonspace _ _ Hc), <- app_cons_str.
    change (": " +:+ s) with (String colon (String " " s)).
    rewrite rstrip_app by by apply rstrip_cons_ne.
    rewrite rstrip_cons_nonspace by done. by apply split1_sep.
  - by rewrite strip_rstrip, strip_space.
Qed.

Lemma annotation_prefix_no_colon i :
  has_char colon ("* Annotation " +:+ str_of_nat (S i)) = false.
Proof. apply has_char_app_false; [done|by apply str_of_nat_no_char]. Qed.

Lemma annotation_of_line_text i a :
  annotation_of_line (strip (annotation_text i a)) = Some (strip a).
Proof.
  unfold annotation_text.
  rewrite <- (app_assoc_str "* Annotation " (str_of_nat (S i))).
  destruct (field_line_parts "*" (" Annotation " +:+ str_of_nat (S i)) a)
    as (r & Hsplit & Hr); [done|apply annotation_prefix_no_colon|].
  unfold annotation_of_line.
  change ("* Annotation " +:+ str_of_nat (S i))
    with (String "*" (" Annotation " +:+ str_of_nat (S i))).
  rewrite Hsplit.
  change (String "*" (" Annotation " +:+ str_of_nat (S i)))
    with ("* Annotation " +:+ str_of_nat (S i)).
  rewrite lower_app, startswith_app_l by done. by rewrite Hr.
Qed.

Lemma status_line_parts st :
  ∃ r, split1 colon (strip (meta_text "status" st)) = ["* status"; r]
       ∧ strip r = strip st.
Proof. by apply (field_line_parts "*" " status"). Qed.

Lemma uuid_line_parts us :
  ∃ r, split1 colon (strip (meta_text "uuid" us)) = ["* uuid"; r]
       ∧ strip r = strip us.
Proof. by apply (field_line_parts "*" " uuid"). Qed.

Lemma annotation_of_line_status st :
  annotation_of_line (strip (meta_text "status" st)) = None.
Proof.
  destruct (status_line_parts st) as (r & Hsplit & _).
  unfold annotation_of_line. by rewrite Hsplit.
Qed.

Lemma scan_meta_line_status s0 u0 st :
  scan_meta_line (s0, u0) (strip (meta_text "status" st))
  = (lower (strip st), u0).
Proof.
  destruct (status_line_parts st) as (r & Hsplit & Hr).
  unfold scan_meta_line. by rewrite Hsplit, Hr.
Qed.

Lemma scan_meta_line_uuid s0 u0 u :
  uuid_ok u = true →
  scan_meta_line (s0, u0) (strip (meta_text "uuid" (uuid_str u))) = (s0, Some u).
Proof.
  intros Hu. destruct (uuid_line_parts (uuid_str u)) as (r & Hsplit & Hr).
  unfold scan_meta_line. rewrite Hsplit, Hr, uuid_str_trimmed. simpl.
  by rewrite (uuid_parse_str u Hu).
Qed.

(** ** Splitting the description into lines *)

Lemma annotation_text_no_nl i a :
  has_char nl a = false → has_char nl (annotation_text i a) = false.
Proof.
  intros Ha. unfold annotation_text.
  repeat apply has_char_app_false; try done. by apply str_of_nat_no_char.
Qed.

Lemma annotation_text_nonempty i a : annotation_text i a ≠ "".
Proof. done. Qed.

Lemma meta_text_no_nl k s :
  has_char nl k = false → has_char nl s = false → has_char nl (meta_text k s) = false.
Proof. intros Hk Hs. unfold meta_text. by repeat apply has_char_app_false. Qed.

Lemma split_annotation_block i anns T ts :
  Forall (λ a, has_char nl a = false) anns →
  split nl T = "" :: ts →
  split nl (annotation_block i anns +:+ T) = "" :: annotation_texts i anns ++ ts.
Proof.
  intros Hanns HT. revert i.
  induction Hanns as [|a anns Ha _ IH]; intros i;
    cbn [annotation_block annotation_texts]; [done|].
  rewrite app_assoc_str, app_cons_str, split_sep.
  rewrite split_app by by apply annotation_text_no_nl.
  by rewrite IH, app_nil_r_str.
Qed.

Lemma split_description_text v :
  Forall (λ a, has_char nl a = false) (default [] (tv_annotations v)) →
  has_char nl (tv_status v) = false →
  split nl (description_text v) =
    meta_title :: "" :: annotation_texts 0 (default [] (tv_annotations v))
      ++ [""; meta_text "status" (tv_status v);
          meta_text "uuid" (uuid_str (tv_uuid v))].
Proof.
  intros Hanns Hst. unfold description_text.
  rewrite split_line by done. f_equal.
  apply split_annotation_block; [done|].
  rewrite split_sep, app_cons_str, split_sep. do 2 f_equal.
  rewrite split_line by by apply meta_text_no_nl.
  rewrite split_no_sep; [done|].
  apply meta_text_no_nl; [done|apply uuid_str_no_nl].
Qed.

Lemma Forall_annotation_texts_nonempty i anns :
  Forall (λ l, l ≠ "") (annotation_texts i anns).
Proof. revert i. induction anns; intros i; simpl; by constructor. Qed.

Lemma desc_lines_description_text v :
  Forall (λ a, has_char nl a = false) (default [] (tv_annotations v)) →
  has_char nl (tv_status v) = false →
  desc_lines (description_text v) =
    (strip <$> annotation_texts 0 (default [] (tv_annotations v)))
      ++ [strip (meta_text "status" (tv_status v));
          strip (meta_text "uuid" (uuid_str (tv_uuid v)))].
Proof.
  intros Hanns Hst. unfold desc_lines.
  rewrite split_description_text by done.
  rewrite filter_cons_True by done. rewrite filter_cons_False by naive_solver.
  rewrite filter_app, (filter_Forall_id _ _ (Forall_annotation_texts_nonempty _ _)).
  rewrite filter_cons_False by naive_solver.
  rewrite !filter_cons_True by done. simpl.
  by rewrite fmap_app.
Qed.

(** ** Scanning the lines *)

Lemma scan_annotations_texts anns i j l rest :
  annotation_of_line l = None →
  scan_annotations ((strip <$> annotation_texts i anns) ++ l :: rest) j
  = (strip <$> anns, j + length anns).
Proof.
  intros Hl. revert i j.
  induction anns as [|a anns IH]; intros i j; simpl.
  - rewrite Hl. f_equal. lia.
  - rewrite annotation_of_line_text, IH. f_equal. lia.
Qed.

Lemma annotation_texts_length i anns :
  length (annotation_texts i anns) = length anns.
Proof. revert i. induction anns; intros i; simpl; by f_equal. Qed.

(** ** Clean views *)

Lemma valid_status_facts st :
  st ∈ valid_statuses → strip st = st ∧ lower st = st ∧ has_char nl st = false.
Proof.
  unfold valid_statuses. intros Hst.
  repeat (apply elem_of_cons in Hst as [->|Hst]; [done|]).
  by apply elem_of_nil in Hst.
Qed.

Lemma clean_facts v :
  clean v = true →
  tv_status v ∈ valid_statuses ∧ uuid_ok (tv_uuid v) = true
  ∧ Forall (λ a, has_char nl a = false) (default [] (tv_annotations v))
  ∧ Forall (λ a, strip a = a) (default [] (tv_annotations v)).
Proof.
  unfold clean.
  intros [[[Hst%bool_decide_eq_true Hu]%andb_prop Ha]%andb_prop _]%andb_prop.
  apply forallb_Forall_true in Ha. repeat split; try done.
  - eapply Forall_impl; [exact Ha|]. unfold clean_annotation.
    intros a [Hnl _]%andb_prop. by apply negb_true_iff.
  - eapply Forall_impl; [exact Ha|]. unfold clean_annotation.
    intros a [_ Htr]%andb_prop. by apply trimmed_strip.
Qed.

Lemma printable_facts v :
  printable v = true →
  tv_status v ∈ valid_statuses ∧ uuid_ok (tv_uuid v) = true
  ∧ Forall (λ a, has_char nl a = false) (default [] (tv_annotations v)).
Proof.
  unfold printable.
  intros [[[Hst%bool_decide_eq_true Hu]%andb_prop Ha]%andb_prop _]%andb_prop.
  apply forallb_Forall_true in Ha. repeat split; try done.
  eapply Forall_impl; [exact Ha|]. intros a. apply negb_true_iff.
Qed.

Lemma clean_end_fits v : clean v = true → end_fits v = true.
Proof. unfold clean. by intros [_ ?]%andb_prop. Qed.

Lemma printable_end_fits v : printable v = true → end_fits v = true.
Proof. unfold printable. by intros [_ ?]%andb_prop. Qed.

(** A clean view is printable, and stripping does not change it. *)
Lemma clean_printable v :
  clean v = true → printable v = true ∧ stripped v = v.
Proof.
  intros Hv. pose proof Hv as (Hst & Hu & Hnl & Htr)%clean_facts. split.
  - unfold printable.
    rewrite bool_decide_eq_true_2, Hu, (clean_end_fits v Hv), andb_true_r by done.
    simpl.
    apply forallb_Forall_true. eapply Forall_impl; [exact Hnl|].
    intros a. apply negb_true_iff.
  - unfold stripped. destruct v as [d st u e due [anns|]]; simpl in *; [|done].
    do 2 f_equal. rewrite <- (list_fmap_id anns) at 2.
    by apply Forall_fmap_ext.
Qed.

(** ** The parser on a description written by the converter *)

Lemma parse_description_text_strip g v :
  printable v = true →
  g !! "description" = Some (VStr (description_text v)) →
  _parse_gcal_item_desc g
  = Ok (strip <$> default [] (tv_annotations v), tv_status v,
        Some (tv_uuid v)).
Proof.
  intros (Hst & Hu & Hnl)%printable_facts Hg.
  destruct (valid_status_facts _ Hst) as (Hst1 & Hst2 & Hst3).
  unfold _parse_gcal_item_desc.
  rewrite (has_key_Some _ _ _ Hg), (getitem_Some _ _ _ Hg).
  cbn [negb bind as_str].
  rewrite desc_lines_description_text by done.
  rewrite scan_annotations_texts by apply annotation_of_line_status.
  rewrite bool_decide_eq_false_2.
  2:{ rewrite length_app, length_fmap, annotation_texts_length. simpl. lia. }
  rewrite drop_app_length'.
  2:{ by rewrite length_fmap, annotation_texts_length. }
  cbn [foldl]. rewrite scan_meta_line_status, scan_meta_line_uuid by done.
  by rewrite Hst1, Hst2.
Qed.

Lemma parse_description_text g v :
  clean v = true →
  g !! "description" = Some (VStr (description_text v)) →
  _parse_gcal_item_desc g
  = Ok (default [] (tv_annotations v), tv_status v, Some (tv_uuid v)).
Proof.
  intros Hv Hg. pose proof Hv as (_ & _ & _ & Htr)%clean_facts.
  destruct (clean_printable v Hv) as [Hp _].
  rewrite (parse_description_text_strip g v Hp Hg). do 3 f_equal.
  rewrite <- (list_fmap_id (default [] (tv_annotations v))) at 2.
  by apply Forall_fmap_ext.
Qed.

(** ** Event to task, on an event written by the converter *)

Lemma event_of_lookups v :
  event_of v !! "description" = Some (VStr (description_text v))
  ∧ event_of v !! "summary" = Some (tv_description v)
  ∧ event_of v !! "start" = Some (date_time_dict (rfc3339 (tv_entry v)))
  ∧ event_of v !! "end" = Some (date_time_dict (rfc3339 (view_end v))).
Proof. unfold event_of. by simplify_map_eq. Qed.

Lemma convert_gcal_to_tw_event_of v :
  clean v = true → convert_gcal_to_tw (event_of v) = Ok (task_of v).
Proof.
  intros Hv. destruct (event_of_lookups v) as (Hd & Hs & Hb & He).
  unfold convert_gcal_to_tw.
  rewrite (parse_description_text _ _ Hv Hd). cbn [bind].
  apply clean_facts in Hv as (Hst & _).
  rewrite (bool_decide_eq_true_2 _ Hst).
  rewrite (getitem_Some _ _ _ Hs), (getitem_Some _ _ _ Hb), (getitem_Some _ _ _ He).
  unfold date_time_dict. cbn [bind subscript].
  rewrite !getitem_singleton. cbn [bind].
  by rewrite !parse_format_datetime.
Qed.

Lemma convert_gcal_to_tw_event_of_strip v :
  printable v = true →
  convert_gcal_to_tw (event_of v) = Ok (task_of (stripped v)).
Proof.
  intros Hv. destruct (event_of_lookups v) as (Hd & Hs & Hb & He).
  unfold convert_gcal_to_tw.
  rewrite (parse_description_text_strip _ _ Hv Hd). cbn [bind].
  apply printable_facts in Hv as (Hst & _).
  rewrite (bool_decide_eq_true_2 _ Hst).
  rewrite (getitem_Some _ _ _ Hs), (getitem_Some _ _ _ Hb), (getitem_Some _ _ _ He).
  unfold date_time_dict. cbn [bind subscript].
  rewrite !getitem_singleton. cbn [bind].
  rewrite !parse_format_datetime. cbn [bind].
  unfold task_of, stripped, view_end. simpl. by destruct (tv_annotations v).
Qed.

Lemma fmap_strip_fixed (l : list string) :
  strip <$> l = l ↔ forallb trimmed l = true.
Proof.
  induction l as [|a l IH]; [done|]. rewrite fmap_cons. cbn [forallb].
  rewrite andb_true_iff, trimmed_strip, <- IH. split.
  - by intros [= Ha Hl].
  - intros [Ha Hl]. by rewrite Ha, Hl.
Qed.

(** The task read back is the task written exactly when no annotation has
    white space at an end. *)
Lemma task_of_stripped v :
  task_of (stripped v) = task_of v
  ↔ forallb trimmed (default [] (tv_annotations v)) = true.
Proof.
  rewrite <- fmap_strip_fixed. split.
  - intros Heq. apply (f_equal (λ m, m !! "annotations")) in Heq.
    unfold task_of, stripped in Heq. simplify_map_eq.
    by destruct (tv_annotations v) as [anns|]; simpl in *.
  - intros Heq. unfold task_of, stripped, view_end. simpl.
    destruct (tv_annotations v) as [anns|]; simpl in *; [|done].
    by rewrite Heq.
Qed.

(** C1.  Round trip task -> event -> task: for a task whose fields are
    seen by a clean view (valid status, 128-bit uuid, annotations without
    line breaks or surrounding white space), converting it to an event with
    [convert_tw_to_gcal] and back with [convert_gcal_to_tw] succeeds and
    returns exactly description, status, uuid, entry and annotations of the
    task, with [due] the task's due date or, without one, the day after its
    entry. *)
Theorem tw_gcal_tw_roundtrip t v :
  views t v → clean v = true →
  (g <- convert_tw_to_gcal t ;; convert_gcal_to_tw g) = Ok (task_of v).
Proof.
  intros Ht Hv.
  rewrite (convert_tw_to_gcal_views _ _ Ht (clean_end_fits v Hv)). cbn [bind].
  by apply convert_gcal_to_tw_event_of.
Qed.

(** C28.  The round trip does not keep white space: for a task with a
    valid status, a 128-bit uuid and annotations without line breaks,
    [convert_tw_to_gcal] followed by [convert_gcal_to_tw] succeeds and
    returns the task's description, status, uuid, entry and due date (the
    day after the entry without one), with every annotation stripped of the
    white space at its ends; so the task comes back with the annotations it
    had exactly when none of them starts or ends with white space. *)
Theorem tw_gcal_tw_roundtrip_strip t v :
  views t v → printable v = true →
  (g <- convert_tw_to_gcal t ;; convert_gcal_to_tw g)
    = Ok (task_of (stripped v))
  ∧ (task_of (stripped v) = task_of v
     ↔ forallb trimmed (default [] (tv_annotations v)) = true).
Proof.
  intros Ht Hv. split; [|apply task_of_stripped].
  rewrite (convert_tw_to_gcal_views _ _ Ht (printable_end_fits v Hv)).
  cbn [bind]. by apply convert_gcal_to_tw_event_of_strip.
Qed.

End roundtrip.

(** ** Witnesses *)

Definition milk_view : task_view := {|
  tv_description := VStr "Buy milk";
  tv_status := "pending";
  tv_uuid := 0x12345678123456781234567812345678%N;
  tv_entry := 1000000%Z;
  tv_due := None;
  tv_annotations := Some ["two litres"; "skimmed: yes"];
|}.

Definition milk_task : item :=
  <["tags" := VList [VStr "remindme"]]>
  (<["id" := VInt 3]>
  (<["annotations" := VList [VStr "two litres"; VStr "skimmed: yes"]]>
  (<["entry" := VTime 1000000%Z]>
  (<["uuid" := VUuid 0x12345678123456781234567812345678%N]>
  (<["status" := VStr "pending"]>
  {[ "description" := VStr "Buy milk" ]}))))).

Lemma milk_task_views : views milk_task milk_view.
Proof. unfold views, milk_task, milk_view. by simplify_map_eq. Qed.

Lemma tw_gcal_tw_roundtrip_witness :
  (g <- convert_tw_to_gcal milk_task ;; convert_gcal_to_tw g)
  = Ok (task_of milk_view).
Proof. exact (tw_gcal_tw_roundtrip milk_task milk_view milk_task_views eq_refl). Defined.

(** A task with white space around an annotation. *)
Definition padded_view : task_view := {|
  tv_description := VStr "Buy milk";
  tv_status := "pending";
  tv_uuid := 0x12345678123456781234567812345678%N;
  tv_entry := 1000000%Z;
  tv_due := Some 5000000%Z;
  tv_annotations := Some ["  two litres "; "skimmed: yes"];
|}.

Definition padded_task : item :=
  <["annotations" := VList [VStr "  two litres "; VStr "skimmed: yes"]]>
  (<["due" := VTime 5000000%Z]>
  (<["entry" := VTime 1000000%Z]>
  (<["uuid" := VUuid 0x12345678123456781234567812345678%N]>
  (<["status" := VStr "pending"]>
  {[ "description" := VStr "Buy milk" ]})))).

Lemma padded_task_views : views padded_task padded_view.
Proof. unfold views, padded_task, padded_view. by simplify_map_eq. Qed.

Lemma tw_gcal_tw_roundtrip_strip_witness :
  (g <- convert_tw_to_gcal padded_task ;; convert_gcal_to_tw g)
    = Ok (task_of (stripped padded_view))
  ∧ (task_of (stripped padded_view) = task_of padded_view
     ↔ forallb trimmed (default [] (tv_annotations padded_view)) = true).
Proof.
  exact (tw_gcal_tw_roundtrip_strip padded_task padded_view
    padded_task_views eq_refl).
Defined.
