(* ===== verification/ConverterSpec.v ===== *)
(** Properties of the item converter of [Converter], beyond the round trip
    of [RoundTrip]:

    - what [convert_tw_to_gcal] writes and when it raises,
    - what [convert_gcal_to_tw] builds from the three values that
      [_parse_gcal_item_desc] reads ([built_task]), on events with and
      without a description and with a status the code does not know,
    - the early return of the parser,
    - what [compare_tw_gcal_items] reports on a round trip. *)

From stdpp Require Import base tactics option list strings gmap.
From S2P Require Import Prelude PyString PyValue Codecs Converter RoundTrip.

#[local] Open Scope result_scope.

(** ** The task built from the parsed values *)

(** Lines 195-201: the status is kept only when it is a valid one. *)
Definition with_status (st : string) (t : item) : item :=
  if bool_decide (st ∈ valid_statuses) then <["status" := VStr st]> t else t.

(** Lines 204-205 *)
Definition with_uuid (u : option uuid) (t : item) : item :=
  match u with Some u => <["uuid" := VUuid u]> t | None => t end.

Definition built_task (anns : list string) (st : string) (u : option uuid)
    (summary : value) (entry due : datetime) : item :=
  <["due" := VTime due]>
  (<["entry" := VTime entry]>
  (<["description" := summary]>
  (with_uuid u (with_status st {[ "annotations" := VList (VStr <$> anns) ]})))).

(** The keys a round trip can keep: those [convert_gcal_to_tw] writes. *)
Definition converted_keys : gset string :=
  {[ "annotations"; "status"; "uuid"; "description"; "entry"; "due" ]}.

Section converter_spec.
Context `{UuidLib, DateTimeLib, ContainerLib}.
Implicit Types (t g : item) (v : task_view).

(** [parse_datetime(g[k]['dateTime'])] *)
Definition event_time (g : item) (k : string) : result datetime :=
  d <- getitem g k ;;
  dt <- subscript d "dateTime" ;;
  parse_datetime dt.

(** ** Event to task *)

Lemma convert_gcal_to_tw_unfold g :
  convert_gcal_to_tw g =
    (parsed <- _parse_gcal_item_desc g ;;
     summary <- getitem g "summary" ;;
     entry <- event_time g "start" ;;
     due <- event_time g "end" ;;
     Ok (built_task parsed.1.1 parsed.1.2 parsed.2 summary entry due)).
Proof.
  unfold convert_gcal_to_tw, event_time, built_task, with_status, with_uuid.
  destruct (_parse_gcal_item_desc g) as [[[anns st] u]|]; [|done]. cbn [bind].
  destruct (getitem g "summary"); [|done]. cbn [bind].
  destruct (getitem g "start") as [d|]; [|done]. cbn [bind].
  destruct (subscript d _) as [dt|]; [|done]. cbn [bind].
  destruct (parse_datetime dt); [|done]. cbn [bind].
  destruct (getitem g "end") as [d'|]; [|done]. cbn [bind].
  destruct (subscript d' _) as [dt'|]; [|done]. cbn [bind].
  by destruct (parse_datetime dt').
Qed.

Lemma convert_gcal_to_tw_built g anns st u summary entry due :
  _parse_gcal_item_desc g = Ok (anns, st, u) →
  g !! "summary" = Some summary →
  event_time g "start" = Ok entry → event_time g "end" = Ok due →
  convert_gcal_to_tw g = Ok (built_task anns st u summary entry due).
Proof.
  intros Hp Hs Hb He.
  by rewrite convert_gcal_to_tw_unfold, Hp, (getitem_Some _ _ _ Hs), Hb, He.
Qed.

Lemma convert_gcal_to_tw_Ok_inv g t :
  convert_gcal_to_tw g = Ok t →
  ∃ anns st u summary entry due,
    _parse_gcal_item_desc g = Ok (anns, st, u)
    ∧ g !! "summary" = Some summary
    ∧ event_time g "start" = Ok entry ∧ event_time g "end" = Ok due
    ∧ t = built_task anns st u summary entry due.
Proof.
  rewrite convert_gcal_to_tw_unfold. intros Ht. inv_result.
  destruct x as [[anns st] u]. eauto 12.
Qed.

(** ** The keys of a built task *)

Lemma built_task_lookups anns st u summary entry due :
  let t := built_task anns st u summary entry due in
  t !! "annotations" = Some (VList (VStr <$> anns))
  ∧ t !! "status" = (if bool_decide (st ∈ valid_statuses)
                     then Some (VStr st) else None)
  ∧ t !! "uuid" = VUuid <$> u
  ∧ t !! "description" = Some summary
  ∧ t !! "entry" = Some (VTime entry)
  ∧ t !! "due" = Some (VTime due).
Proof.
  unfold built_task, with_status, with_uuid.
  destruct u; case_bool_decide; by simplify_map_eq.
Qed.

Lemma built_task_dom anns st u summary entry due :
  dom (built_task anns st u summary entry due) ⊆ converted_keys.
Proof.
  unfold built_task, with_status, with_uuid, converted_keys.
  destruct u; case_bool_decide; set_solver.
Qed.

(** ** The task a view gives back *)

Lemma task_of_dom v : dom (task_of v) = converted_keys.
Proof. unfold task_of, converted_keys. set_solver. Qed.

Lemma views_lookup_task_of t v k x y :
  views t v → t !! k = Some x → task_of v !! k = Some y → x = y.
Proof.
  intros (Hd & Hs & Hu & He & Hdue & Ha) Hx. unfold task_of, view_end.
  repeat (rewrite lookup_insert_Some; intros [[<- <-]|[? Hy]]; [|revert Hy]);
    try congruence.
  - destruct (tv_due v); simpl in *; congruence.
  - rewrite lookup_singleton_Some. intros [<- <-].
    destruct (tv_annotations v); simpl in *; congruence.
Qed.

Lemma views_missing t v k :
  views t v → k ∈ converted_keys →
  k ∉ dom t ↔ (k = "due" ∧ tv_due v = None)
             ∨ (k = "annotations" ∧ tv_annotations v = None).
Proof.
  intros (Hd & Hs & Hu & He & Hdue & Ha) Hk. rewrite not_elem_of_dom.
  unfold converted_keys in Hk.
  repeat (apply elem_of_union in Hk as [Hk| ->%elem_of_singleton]);
    [apply elem_of_singleton in Hk as ->|..].
  - rewrite Ha. destruct (tv_annotations v); naive_solver.
  - rewrite Hs. naive_solver.
  - rewrite Hu. naive_solver.
  - rewrite Hd. naive_solver.
  - rewrite He. naive_solver.
  - rewrite Hdue. destruct (tv_due v); naive_solver.
Qed.

(** What the comparison reports, key by key. *)
Lemma key_sym_diff_elem (a b : item) k :
  k ∈ key_sym_diff a b ↔
  (is_Some (a !! k) ∧ b !! k = None) ∨ (a !! k = None ∧ is_Some (b !! k)).
Proof.
  unfold key_sym_diff.
  rewrite elem_of_union, !elem_of_difference, !elem_of_dom, !eq_None_not_Some.
  tauto.
Qed.

Lemma changed_values_lookup (a b : item) (k : string) (x y : value) :
  changed_values a b !! k = Some (x, y) ↔
  a !! k = Some x ∧ b !! k = Some y ∧ x ≠ y.
Proof.
  unfold changed_values. rewrite lookup_merge.
  destruct (a !! k) as [x'|], (b !! k) as [y'|]; simpl;
    [|naive_solver..].
  case_decide; naive_solver.
Qed.

Lemma changed_values_views t v : views t v → changed_values t (task_of v) = ∅.
Proof.
  intros Hv. apply map_eq. intros k. unfold changed_values.
  rewrite lookup_merge, lookup_empty.
  destruct (t !! k) as [x|] eqn:Hx, (task_of v !! k) as [y|] eqn:Hy; try done.
  simpl. by rewrite (views_lookup_task_of _ _ _ _ _ Hv Hx Hy), decide_True.
Qed.

(** ** The parser's first loop *)

Lemma scan_annotations_all ls i :
  Forall (λ x, is_Some (annotation_of_line x)) ls →
  scan_annotations ls i = (omap annotation_of_line ls, Nat.pred (i + length ls)).
Proof.
  intros Hls. revert i. induction Hls as [|l ls [a Ha] _ IH]; intros i; simpl.
  - by rewrite Nat.add_0_r.
  - by rewrite Ha, IH, Nat.add_succ_r.
Qed.

Lemma scan_annotations_break ls l rest i :
  Forall (λ x, is_Some (annotation_of_line x)) ls →
  annotation_of_line l = None →
  scan_annotations (ls ++ l :: rest) i
  = (omap annotation_of_line ls, i + length ls).
Proof.
  intros Hls Hl. revert i. induction Hls as [|l' ls [a Ha] _ IH]; intros i; simpl.
  - by rewrite Hl, Nat.add_0_r.
  - by rewrite Ha, IH, Nat.add_succ_r.
Qed.

(** ** What the parser returns

    The annotations it reads are clean (no line break, no white space at
    either end) and the uuid it reads is one [uuid.UUID] accepts, whatever
    the description. *)

Lemma Forall_tail {A} (P : A → Prop) (l : list A) : Forall P l → Forall P (tail l).
Proof. by destruct 1. Qed.

Lemma desc_lines_no_nl d : Forall (λ l, has_char nl l = false) (desc_lines d).
Proof.
  unfold desc_lines. apply Forall_tail. rewrite Forall_fmap.
  apply Forall_forall. intros l [_ Hl]%list_elem_of_filter. simpl.
  apply has_char_strip.
  by apply (proj1 (Forall_forall _ _) (split_parts_no_sep nl d)).
Qed.

Lemma annotation_of_line_clean l a :
  has_char nl l = false → annotation_of_line l = Some a →
  clean_annotation a = true.
Proof.
  unfold annotation_of_line. intros Hl.
  pose proof (split1_parts colon nl l Hl) as Hp.
  destruct (split1 colon l) as [|p0 [|p1 [|]]]; try done.
  destruct (startswith _ _); [|done]. intros [= <-].
  apply Forall_cons in Hp as [_ [Hp1 _]%Forall_cons].
  unfold clean_annotation.
  by rewrite (has_char_strip _ _ Hp1), trimmed_strip_idem.
Qed.

Lemma scan_annotations_clean ls i :
  Forall (λ l, has_char nl l = false) ls →
  forallb clean_annotation (scan_annotations ls i).1 = true.
Proof.
  intros Hls. revert i. induction Hls as [|l ls Hl _ IH]; intros i; [done|].
  simpl. destruct (annotation_of_line l) as [a|] eqn:Ha; [|done].
  specialize (IH (S i)). destruct (scan_annotations ls (S i)) as [anns j].
  simpl in *. by rewrite (annotation_of_line_clean _ _ Hl Ha).
Qed.

Lemma scan_meta_line_uuid_ok st l :
  (∀ u, st.2 = Some u → uuid_ok u = true) →
  ∀ u, (scan_meta_line st l).2 = Some u → uuid_ok u = true.
Proof.
  intros Hst u. unfold scan_meta_line.
  repeat case_match; simpl; eauto. intros [= <-]. by eapply uuid_parse_ok.
Qed.

Lemma foldl_scan_meta_line_uuid_ok ls st :
  (∀ u, st.2 = Some u → uuid_ok u = true) →
  ∀ u, (foldl scan_meta_line st ls).2 = Some u → uuid_ok u = true.
Proof.
  revert st. induction ls as [|l ls IH]; intros st Hst; simpl; [done|].
  by apply IH, scan_meta_line_uuid_ok.
Qed.

Lemma parse_str_run g d :
  g !! "description" = Some (VStr d) →
  _parse_gcal_item_desc g =
    let lines := desc_lines d in
    let scanned := scan_annotations lines 0 in
    if bool_decide (Z.of_nat scanned.2 = Z.of_nat (length lines) - 1)%Z
    then Ok (scanned.1, default_status, None)
    else
      let meta := foldl scan_meta_line (default_status, None)
                    (drop scanned.2 lines) in
      Ok (scanned.1, meta.1, meta.2).
Proof.
  intros Hd. unfold _parse_gcal_item_desc.
  rewrite (has_key_Some _ _ _ Hd), (getitem_Some _ _ _ Hd).
  cbn [negb bind as_str]. destruct (scan_annotations _ 0) as [anns i].
  cbn [fst snd]. destruct (bool_decide _); [done|].
  by destruct (foldl _ _ _).
Qed.

Lemma parse_clean g anns st u :
  _parse_gcal_item_desc g = Ok (anns, st, u) →
  forallb clean_annotation anns = true
  ∧ (∀ u', u = Some u' → uuid_ok u' = true).
Proof.
  destruct (g !! "description") as [v|] eqn:Hd.
  2:{ unfold _parse_gcal_item_desc. rewrite (has_key_None _ _ Hd).
      by intros [= <- <- <-]. }
  destruct v as [| | d | | | |];
    try (unfold _parse_gcal_item_desc;
         by rewrite (has_key_Some _ _ _ Hd), (getitem_Some _ _ _ Hd)).
  rewrite (parse_str_run _ _ Hd). cbn zeta.
  pose proof (scan_annotations_clean (desc_lines d) 0 (desc_lines_no_nl d)).
  destruct (bool_decide _); intros [= <- <- <-]; (split; [done|]); [done|].
  by apply foldl_scan_meta_line_uuid_ok.
Qed.

(** ** Properties *)

(** C4. Comparison on a round trip: comparing a task seen by a clean view
    with the event converted from it reports no changed value, and reports
    as differing keys exactly the keys of the task that the converter does
    not write, plus [due] and [annotations] when the task has none. *)
Theorem compare_tw_gcal_items_roundtrip t v :
  views t v → clean v = true →
  (g <- convert_tw_to_gcal t ;; compare_tw_gcal_items t g)
    = Ok (key_sym_diff t (task_of v), ∅)
  ∧ ∀ k, k ∈ key_sym_diff t (task_of v) ↔
      (k ∈ dom t ∧ k ∉ converted_keys)
      ∨ (k = "due" ∧ tv_due v = None)
      ∨ (k = "annotations" ∧ tv_annotations v = None).
Proof.
  intros Ht Hv. split.
  - rewrite (convert_tw_to_gcal_views _ _ Ht (clean_end_fits v Hv)).
    cbn [bind]. unfold compare_tw_gcal_items.
    rewrite (convert_gcal_to_tw_event_of _ Hv). cbn [bind].
    by rewrite changed_values_views.
  - intros k. unfold key_sym_diff. rewrite task_of_dom.
    pose proof (views_missing t v k Ht). set_solver.
Qed.

(** C20. The comparison is sound and complete: when the event converts to
    a task, [compare_tw_gcal_items] returns, as differing keys, exactly
    the keys that one of the two tasks has and the other has not, and, as
    changed values, exactly the pairs of values under the keys that both
    have with different values; so it reports nothing exactly when the
    task and the task converted from the event are the same. *)
Theorem compare_tw_gcal_items_complete t g out :
  convert_gcal_to_tw g = Ok out →
  ∃ keys changes, compare_tw_gcal_items t g = Ok (keys, changes)
    ∧ (∀ k, k ∈ keys ↔
         (is_Some (t !! k) ∧ out !! k = None)
         ∨ (t !! k = None ∧ is_Some (out !! k)))
    ∧ (∀ (k : string) (x y : value), changes !! k = Some (x, y) ↔
         t !! k = Some x ∧ out !! k = Some y ∧ x ≠ y)
    ∧ (keys = ∅ ∧ changes = ∅ ↔ t = out).
Proof.
  intros Hout. exists (key_sym_diff t out), (changed_values t out).
  unfold compare_tw_gcal_items. rewrite Hout. cbn [bind].
  pose proof (key_sym_diff_elem t out) as Hkeys.
  pose proof (changed_values_lookup t out) as Hch.
  split_and!; [done..|].
  split; [intros [Hk Hc]|intros ->].
  - apply map_eq. intros k.
    assert (k ∉ key_sym_diff t out) as Hn by (rewrite Hk; set_solver).
    rewrite Hkeys in Hn.
    destruct (t !! k) as [x|] eqn:Hx, (out !! k) as [y|] eqn:Hy;
      [|exfalso; naive_solver..|done].
    destruct (decide (x = y)) as [->|Hne]; [done|].
    assert (changed_values t out !! k = Some (x, y)) as Hs by by apply Hch.
    by rewrite Hc in Hs.
  - split; [apply set_eq|apply map_eq]; intros k.
    + rewrite Hkeys. split; [|set_solver].
      intros [[[? ?] ?]|[? [? ?]]]; congruence.
    + rewrite lookup_empty. apply eq_None_not_Some. intros [[x y] Hs].
      apply Hch in Hs. naive_solver.
Qed.

(** C5. The event of a task, on both outcomes: for a task seen by a view,
    [convert_tw_to_gcal] returns an event with the four keys [summary],
    [description], [start] and [end]: the task's description, the text with
    the numbered annotations and the status and uuid lines, the entry date
    and the due date (the day after the entry when there is none), the
    dates in RFC 3339 form under [dateTime]; unless the task has no due
    date and the day after its entry is past [datetime.max], when the
    conversion raises [OverflowError]. *)
Theorem convert_tw_to_gcal_event t v :
  views t v →
  if end_fits v then
    ∃ g, convert_tw_to_gcal t = Ok g
      ∧ dom g = {[ "summary"; "description"; "start"; "end" ]}
      ∧ g !! "summary" = Some (tv_description v)
      ∧ g !! "description" = Some (VStr (description_text v))
      ∧ g !! "start" = Some (date_time_dict (rfc3339 (tv_entry v)))
      ∧ g !! "end" = Some (date_time_dict (rfc3339 (view_end v)))
  else convert_tw_to_gcal t = Err OverflowError.
Proof.
  intros Ht. rewrite (convert_tw_to_gcal_outcome t v Ht).
  destruct (end_fits v); [|done]. exists (event_of v).
  destruct (event_of_lookups v) as (? & ? & ? & ?).
  split_and!; [done| |done..].
  unfold event_of. set_solver.
Qed.

(** [convert_tw_to_gcal] asserts the required keys: a task without
    [description], [status] or [uuid] raises [AssertionError]. *)
Lemma convert_tw_to_gcal_missing_key t k :
  k ∈ required_tw_keys → t !! k = None →
  convert_tw_to_gcal t = Err AssertionError.
Proof.
  intros Hk Ht. unfold convert_tw_to_gcal.
  enough (forallb (has_key t) required_tw_keys = false) as -> by done.
  apply not_true_is_false. rewrite forallb_Forall_true, Forall_forall.
  intros Hall. specialize (Hall k Hk). by rewrite (has_key_None _ _ Ht) in Hall.
Qed.

(** [entry] is read without being asserted: a task with the required
    keys and a description text, but no [entry], raises [KeyError] on
    ['entry']. *)
Lemma convert_tw_to_gcal_no_entry t desc :
  forallb (has_key t) required_tw_keys = true →
  gcal_description t = Ok desc → t !! "entry" = None →
  convert_tw_to_gcal t = Err (KeyError "entry").
Proof.
  intros Hall Hd He. unfold convert_tw_to_gcal. rewrite Hall. cbn [assert_ bind].
  simpl in Hall. apply andb_prop in Hall as [[x Hx]%has_key_true _].
  by rewrite (getitem_Some _ _ _ Hx), Hd, (getitem_None _ _ He).
Qed.

(** C12. What [convert_tw_to_gcal] requires of a task, in the order of its
    checks.  The three keys of the assertion come first: a task without
    [description], [status] or [uuid] raises [AssertionError], whatever
    else it holds.  [entry] is not among them and is read all the same: a
    task with the three keys and a description text, but no [entry],
    raises [KeyError] on ['entry']. *)
Theorem convert_tw_to_gcal_requires t :
  (∀ k, k ∈ required_tw_keys → t !! k = None →
     convert_tw_to_gcal t = Err AssertionError)
  ∧ (forallb (has_key t) required_tw_keys = true →
     is_ok (gcal_description t) = true → t !! "entry" = None →
     convert_tw_to_gcal t = Err (KeyError "entry")).
Proof.
  split; [apply convert_tw_to_gcal_missing_key|].
  intros Hall [desc Hd]%is_ok_Ok. by apply (convert_tw_to_gcal_no_entry t desc).
Qed.

(** C14. An event without description: [convert_gcal_to_tw] returns a task
    with no annotations, status ["pending"] and no [uuid] key, with the
    event's summary as description and its start and end as [entry] and
    [due]. *)
Theorem convert_gcal_to_tw_no_description g summary entry due :
  g !! "description" = None → g !! "summary" = Some summary →
  event_time g "start" = Ok entry → event_time g "end" = Ok due →
  convert_gcal_to_tw g =
    Ok (<["due" := VTime due]> (<["entry" := VTime entry]>
       (<["description" := summary]> (<["status" := VStr "pending"]>
       {[ "annotations" := VList [] ]})))).
Proof.
  intros Hd Hs Hb He.
  rewrite (convert_gcal_to_tw_built g [] default_status None summary entry due);
    [done| |done..].
  unfold _parse_gcal_item_desc. by rewrite (has_key_None _ _ Hd).
Qed.

(** C15. A status the code does not know is dropped: when the description
    of an event gives a status outside the five valid ones, the task that
    [convert_gcal_to_tw] returns has no [status] key at all. *)
Theorem convert_gcal_to_tw_invalid_status g anns st u t :
  _parse_gcal_item_desc g = Ok (anns, st, u) → st ∉ valid_statuses →
  convert_gcal_to_tw g = Ok t → t !! "status" = None.
Proof.
  intros Hp Hst (anns' & st' & u' & s & b & e & Hp' & _ & _ & _ & ->)
    %convert_gcal_to_tw_Ok_inv.
  rewrite Hp in Hp'. injection Hp' as <- <- <-.
  destruct (built_task_lookups anns st u s b e) as (_ & -> & _).
  by rewrite bool_decide_eq_false_2.
Qed.

(** C16. The early return of the parser: when the lines of a description
    after its header are annotation lines followed by exactly one more
    line, [_parse_gcal_item_desc] returns after its first loop, with the
    default status and no uuid, whatever the last line says. *)
Theorem parse_single_trailing_line g d ls l :
  g !! "description" = Some (VStr d) →
  desc_lines d = ls ++ [l] →
  Forall (λ x, is_Some (annotation_of_line x)) ls →
  _parse_gcal_item_desc g
  = Ok (omap annotation_of_line (ls ++ [l]), default_status, None).
Proof.
  intros Hd Hls Hall. unfold _parse_gcal_item_desc.
  rewrite (has_key_Some _ _ _ Hd), (getitem_Some _ _ _ Hd). cbn [negb bind as_str].
  rewrite Hls, length_app. simpl length.
  destruct (annotation_of_line l) as [a|] eqn:Hl.
  - rewrite scan_annotations_all, length_app
      by (apply Forall_app; eauto using Forall_cons, Forall_nil).
    simpl. rewrite bool_decide_eq_true_2 by lia. done.
  - rewrite (scan_annotations_break ls l []) by done.
    rewrite bool_decide_eq_true_2 by lia.
    by rewrite omap_app; simpl; rewrite Hl, app_nil_r.
Qed.

Lemma convert_tw_to_gcal_Ok_entry t g :
  convert_tw_to_gcal t = Ok g → is_Some (t !! "entry").
Proof. unfold convert_tw_to_gcal. intros Hg. inv_result. eauto. Qed.

(** The view of a task built from parsed values that has a status and a
    uuid. *)
Lemma built_task_views anns st u summary entry due :
  st ∈ valid_statuses →
  let v := TaskView summary st u entry (Some due) (Some anns) in
  built_task anns st (Some u) summary entry due = task_of v
  ∧ views (task_of v) v.
Proof.
  intros Hst v. unfold built_task, with_status, with_uuid, task_of, view_end.
  rewrite bool_decide_eq_true_2 by done. split; [done|].
  unfold views. by simplify_map_eq.
Qed.

(** C24. The calendar direction of the round trip: a task that
    [convert_gcal_to_tw] returns with a status and a uuid converts to an
    event with the four keys the converter writes and the summary of the
    first event, and that event converts back to the same task; so
    converting back and forth never grows the description. *)
Theorem gcal_tw_gcal_roundtrip e t :
  convert_gcal_to_tw e = Ok t →
  is_Some (t !! "status") → is_Some (t !! "uuid") →
  ∃ g, convert_tw_to_gcal t = Ok g
    ∧ dom g = {[ "summary"; "description"; "start"; "end" ]}
    ∧ g !! "summary" = e !! "summary"
    ∧ convert_gcal_to_tw g = Ok t.
Proof.
  intros (anns & st & u & s & b & d & Hp & Hs & _ & _ & ->)
    %convert_gcal_to_tw_Ok_inv.
  destruct (built_task_lookups anns st u s b d) as (_ & -> & -> & _).
  case_bool_decide as Hst; [|by intros []]. intros _ [u0 Hu].
  destruct u as [u'|]; [|done]. apply parse_clean in Hp as [Ha Hu'].
  destruct (built_task_views anns st u' s b d Hst) as [-> Hv].
  set (v := TaskView s st u' b (Some d) (Some anns)) in *.
  assert (clean v = true) as Hc.
  { unfold clean. simpl. by rewrite bool_decide_eq_true_2, (Hu' u'), Ha. }
  exists (event_of v). destruct (event_of_lookups v) as (_ & Hsum & _).
  split_and!; [by apply convert_tw_to_gcal_views| |by rewrite Hsum, Hs
    |by apply convert_gcal_to_tw_event_of].
  unfold event_of. set_solver.
Qed.

(** [entry] is never a differing key of a round trip: whenever
    [convert_tw_to_gcal] and then [convert_gcal_to_tw] return, the task has
    an [entry] and so has the task converted back. *)
Lemma roundtrip_entry_common t g out :
  convert_tw_to_gcal t = Ok g → convert_gcal_to_tw g = Ok out →
  "entry" ∉ key_sym_diff t out.
Proof.
  intros Ht%convert_tw_to_gcal_Ok_entry
    (anns & st & u & s & b & d & _ & _ & _ & _ & ->)%convert_gcal_to_tw_Ok_inv.
  destruct (built_task_lookups anns st u s b d) as (_ & _ & _ & _ & He & _).
  apply elem_of_dom in Ht. apply elem_of_dom_2 in He.
  unfold key_sym_diff. set_solver.
Qed.

(** An event whose [start] has no [dateTime], as an all-day event with a
    [date] has: [convert_gcal_to_tw] raises [KeyError] on ['dateTime']. *)
Lemma convert_gcal_to_tw_date_only g summary d :
  is_ok (_parse_gcal_item_desc g) = true →
  g !! "summary" = Some summary →
  g !! "start" = Some (VDict d) → d !! "dateTime" = None →
  convert_gcal_to_tw g = Err (KeyError "dateTime").
Proof.
  intros [p Hp]%is_ok_Ok Hs Hb Hd. rewrite convert_gcal_to_tw_unfold, Hp.
  unfold event_time at 1.
  by rewrite (getitem_Some _ _ _ Hs), (getitem_Some _ _ _ Hb); simpl;
    rewrite (getitem_None _ _ Hd).
Qed.

(** C27. The parser is total on descriptions that are strings, and what
    it returns is well formed: the annotations have no line break and no
    white space at either end, and the uuid, if any, is one [uuid.UUID]
    accepts. *)
Theorem parse_str_description g d :
  g !! "description" = Some (VStr d) →
  ∃ anns st u, _parse_gcal_item_desc g = Ok (anns, st, u)
    ∧ forallb clean_annotation anns = true
    ∧ (∀ u', u = Some u' → uuid_ok u' = true).
Proof.
  intros Hd.
  destruct (_parse_gcal_item_desc g) as [[[anns st] u]|e] eqn:Hp.
  - exists anns, st, u. split; [done|]. by eapply parse_clean.
  - rewrite (parse_str_run _ _ Hd) in Hp. cbn zeta in Hp.
    by destruct (bool_decide _).
Qed.

(** A description that is not a string has no [split]: the parser raises
    [AttributeError]. *)
Lemma parse_not_str g (x : value) :
  g !! "description" = Some x → (∀ d, x ≠ VStr d) →
  _parse_gcal_item_desc g = Err AttributeError.
Proof.
  intros Hd Hx. unfold _parse_gcal_item_desc.
  rewrite (has_key_Some _ _ _ Hd), (getitem_Some _ _ _ Hd). cbn [negb bind].
  destruct x; try done. by destruct (Hx s).
Qed.

End converter_spec.

(** ** Witnesses, with the codecs of [Codecs] *)

(** A task with the required keys only. *)
Definition undated_task : item :=
  <["uuid" := VUuid 7%N]> (<["status" := VStr "pending"]>
  {[ "description" := VStr "Call back" ]}).

(** An event with no description. *)
Definition bare_event : item :=
  <["summary" := VStr "Dentist"]>
  (<["start" := date_time_dict "5"]>
  (<["end" := date_time_dict "9"]>
  {[ "htmlLink" := VStr "https://calendar.example/event/x" ]})).

(** An event whose description gives a status the code does not know. *)
Definition bogus_event : item :=
  <["description" := VStr (meta_title +:+ String nl (String nl
      ("* status: bogus" +:+ String nl
       "* uuid: 12345678-1234-5678-1234-567812345678")))]> bare_event.

(** An all-day event: [start] holds a [date]. *)
Definition all_day_event : item :=
  <["start" := VDict {[ "date" := VStr "2019-03-01" ]}]> bare_event.

(** An event whose description is the header and a status line. *)
Definition lone_status_event : item :=
  <["description" :=
      VStr (meta_title +:+ String nl "* status: completed")]> bare_event.

Lemma compare_tw_gcal_items_roundtrip_witness :
  (g <- convert_tw_to_gcal milk_task ;; compare_tw_gcal_items milk_task g)
    = Ok (key_sym_diff milk_task (task_of milk_view), ∅)
  ∧ ∀ k, k ∈ key_sym_diff milk_task (task_of milk_view) ↔
      (k ∈ dom milk_task ∧ k ∉ converted_keys)
      ∨ (k = "due" ∧ tv_due milk_view = None)
      ∨ (k = "annotations" ∧ tv_annotations milk_view = None).
Proof.
  exact (compare_tw_gcal_items_roundtrip milk_task milk_view
    milk_task_views eq_refl).
Defined.

Lemma compare_tw_gcal_items_complete_witness :
  ∃ keys changes,
    compare_tw_gcal_items milk_task (event_of milk_view) = Ok (keys, changes)
    ∧ (∀ k, k ∈ keys ↔
         (is_Some (milk_task !! k) ∧ task_of milk_view !! k = None)
         ∨ (milk_task !! k = None ∧ is_Some (task_of milk_view !! k)))
    ∧ (∀ (k : string) (x y : value), changes !! k = Some (x, y) ↔
         milk_task !! k = Some x ∧ task_of milk_view !! k = Some y ∧ x ≠ y)
    ∧ (keys = ∅ ∧ changes = ∅ ↔ milk_task = task_of milk_view).
Proof.
  exact (compare_tw_gcal_items_complete milk_task (event_of milk_view)
    (task_of milk_view) (convert_gcal_to_tw_event_of milk_view eq_refl)).
Defined.

(** A task entered in the last second of year 9999, with no due date. *)
Definition doomsday_view : task_view := {|
  tv_description := VStr "Last call";
  tv_status := "pending";
  tv_uuid := 9%N;
  tv_entry := 253402300799000000%Z;
  tv_due := None;
  tv_annotations := None;
|}.

Definition doomsday_task : item :=
  <["entry" := VTime 253402300799000000%Z]>
  (<["uuid" := VUuid 9%N]> (<["status" := VStr "pending"]>
  {[ "description" := VStr "Last call" ]})).

Lemma doomsday_task_views : views doomsday_task doomsday_view.
Proof. unfold views, doomsday_task, doomsday_view. by simplify_map_eq. Qed.

Lemma convert_tw_to_gcal_event_witness :
  (∃ g, convert_tw_to_gcal milk_task = Ok g
    ∧ dom g = {[ "summary"; "description"; "start"; "end" ]}
    ∧ g !! "summary" = Some (tv_description milk_view)
    ∧ g !! "description" = Some (VStr (description_text milk_view))
    ∧ g !! "start" = Some (date_time_dict (rfc3339 (tv_entry milk_view)))
    ∧ g !! "end" = Some (date_time_dict (rfc3339 (view_end milk_view))))
  ∧ convert_tw_to_gcal doomsday_task = Err OverflowError.
Proof.
  split.
  - exact (convert_tw_to_gcal_event milk_task milk_view milk_task_views).
  - exact (convert_tw_to_gcal_event doomsday_task doomsday_view
      doomsday_task_views).
Defined.

Lemma convert_tw_to_gcal_missing_key_witness :
  convert_tw_to_gcal {[ "description" := VStr "Call back" ]}
  = Err AssertionError.
Proof.
  apply (convert_tw_to_gcal_missing_key _ "status");
    [right; left|reflexivity].
Defined.

Lemma convert_tw_to_gcal_no_entry_witness :
  convert_tw_to_gcal undated_task = Err (KeyError "entry").
Proof.
  apply (convert_tw_to_gcal_no_entry undated_task
    (from_ok "" (gcal_description undated_task)));
    [reflexivity|apply from_ok_Ok; by vm_compute|reflexivity].
Defined.

Lemma convert_tw_to_gcal_requires_witness :
  convert_tw_to_gcal {[ "description" := VStr "Call back" ]}
    = Err AssertionError
  ∧ convert_tw_to_gcal undated_task = Err (KeyError "entry").
Proof.
  split.
  - apply (proj1 (convert_tw_to_gcal_requires _) "status");
      [right; left|reflexivity].
  - apply (proj2 (convert_tw_to_gcal_requires undated_task));
      [reflexivity|by vm_compute|reflexivity].
Defined.

Lemma convert_gcal_to_tw_no_description_witness :
  convert_gcal_to_tw bare_event =
    Ok (<["due" := VTime 9%Z]> (<["entry" := VTime 5%Z]>
       (<["description" := VStr "Dentist"]> (<["status" := VStr "pending"]>
       {[ "annotations" := VList [] ]})))).
Proof.
  apply (convert_gcal_to_tw_no_description bare_event (VStr "Dentist") 5%Z 9%Z);
    by vm_compute.
Defined.

Lemma convert_gcal_to_tw_invalid_status_witness :
  from_ok ∅ (convert_gcal_to_tw bogus_event) !! "status" = None.
Proof.
  apply (convert_gcal_to_tw_invalid_status bogus_event [] "bogus"
    (Some 0x12345678123456781234567812345678%N));
    [by vm_compute|apply (proj1 (bool_decide_eq_false _)); by vm_compute|].
  apply from_ok_Ok. by vm_compute.
Defined.

Lemma gcal_tw_gcal_roundtrip_witness :
  ∃ g, convert_tw_to_gcal (task_of milk_view) = Ok g
    ∧ dom g = {[ "summary"; "description"; "start"; "end" ]}
    ∧ g !! "summary" = event_of milk_view !! "summary"
    ∧ convert_gcal_to_tw g = Ok (task_of milk_view).
Proof.
  apply (gcal_tw_gcal_roundtrip (event_of milk_view) (task_of milk_view));
    [exact (convert_gcal_to_tw_event_of milk_view eq_refl)
    |eexists; by vm_compute..].
Defined.

Lemma roundtrip_entry_common_witness :
  "entry" ∉ key_sym_diff milk_task (task_of milk_view).
Proof.
  exact (roundtrip_entry_common milk_task (event_of milk_view)
    (task_of milk_view) (convert_tw_to_gcal_views _ _ milk_task_views eq_refl)
    (convert_gcal_to_tw_event_of milk_view eq_refl)).
Defined.

Lemma convert_gcal_to_tw_date_only_witness :
  convert_gcal_to_tw all_day_event = Err (KeyError "dateTime").
Proof.
  apply (convert_gcal_to_tw_date_only all_day_event (VStr "Dentist")
    {[ "date" := VStr "2019-03-01" ]}); by vm_compute.
Defined.

Lemma parse_str_description_witness :
  ∃ anns st u, _parse_gcal_item_desc lone_status_event = Ok (anns, st, u)
    ∧ forallb clean_annotation anns = true
    ∧ (∀ u', u = Some u' → uuid_ok u' = true).
Proof.
  exact (parse_str_description lone_status_event
    (meta_title +:+ String nl "* status: completed") eq_refl).
Defined.

Lemma parse_not_str_witness :
  _parse_gcal_item_desc {[ "description" := VNone ]} = Err AttributeError.
Proof.
  apply (parse_not_str {[ "description" := VNone ]} VNone);
    [reflexivity|by intros d].
Defined.

Lemma parse_single_trailing_line_witness :
  _parse_gcal_item_desc lone_status_event
  = Ok (omap annotation_of_line ([] ++ ["* status: completed"]),
        default_status, None).
Proof.
  apply (parse_single_trailing_line lone_status_event
    (meta_title +:+ String nl "* status: completed"));
    [reflexivity|by vm_compute|apply Forall_nil_2].
Defined.
