(* ===== verification/ParserSpec.v ===== *)
(** The description parser against a reference.

    [_parse_gcal_item_desc] of [Converter]
    ([src/taskw_gcal_sync/TWGCalAggregator.py], lines 225-267) reads the
    lines of a description with two loops that share an index.
    [parse_reference] says what it computes without loops or indices: the
    annotations are those of the longest prefix of annotation lines; the
    status and the uuid are those of the last status line and of the last
    readable uuid line of what follows, unless exactly one line follows,
    which the code never reads.

    The file proves that the two agree on every event. *)

From stdpp Require Import base tactics option list strings gmap.
From S2P Require Import Prelude PyString PyValue Codecs Converter RoundTrip.
From S2P Require Import ConverterSpec.

#[local] Open Scope result_scope.

Section parser_spec.
Context `{UuidLib, DateTimeLib, ContainerLib}.
Implicit Types (l : string) (ls lines : list string) (g : item).

(** ** The reference *)

Definition is_annotation (l : string) : bool :=
  bool_decide (is_Some (annotation_of_line l)).

(** The status a line gives, if it is a status line. *)
Definition status_of_line (l : string) : option string :=
  match split1 colon l with
  | [p0; p1] =>
      if startswith "* status" (lower p0) then Some (lower (strip p1)) else None
  | _ => None
  end.

(** The uuid a line gives, if it is a uuid line that [uuid.UUID] reads. *)
Definition uuid_of_line (l : string) : option uuid :=
  match split1 colon l with
  | [p0; p1] =>
      if startswith "* uuid" (lower p0) then uuid_parse (strip p1) else None
  | _ => None
  end.

Definition parse_lines (lines : list string)
    : list string * string * option uuid :=
  let annotations := omap annotation_of_line (take_while is_annotation lines) in
  let rest := drop_while is_annotation lines in
  if bool_decide (length rest = 1) then (annotations, default_status, None)
  else (annotations,
        default default_status (last (omap status_of_line rest)),
        last (omap uuid_of_line rest)).

Definition parse_reference (gcal_item : item)
    : result (list string * string * option uuid) :=
  match gcal_item !! "description" with
  | None => Ok ([], default_status, None)
  | Some (VStr d) => Ok (parse_lines (desc_lines d))
  | Some _ => Err AttributeError
  end.

(** ** The second loop *)

Lemma scan_meta_line_spec st l :
  scan_meta_line st l
  = (default st.1 (status_of_line l), from_option Some st.2 (uuid_of_line l)).
Proof.
  unfold scan_meta_line, status_of_line, uuid_of_line. destruct st as [s u].
  destruct (split1 colon l) as [|p0 [|p1 [|]]]; try done.
  destruct (startswith "* status" _) eqn:Hs,
    (startswith "* uuid" _) eqn:Hu; simpl; try done.
  - by destruct (startswith_comparable _ _ _ Hs Hu).
  - by destruct (uuid_parse _).
Qed.

Lemma foldl_scan_meta_line_spec ls st :
  foldl scan_meta_line st ls
  = (default st.1 (last (omap status_of_line ls)),
     from_option Some st.2 (last (omap uuid_of_line ls))).
Proof.
  revert st. induction ls as [|l ls IH]; intros [s u]; [done|].
  cbn [foldl]. rewrite IH, scan_meta_line_spec, !last_omap_cons. cbn [fst snd].
  by destruct (last (omap status_of_line ls)), (last (omap uuid_of_line ls)),
    (status_of_line l), (uuid_of_line l).
Qed.

(** ** The first loop *)

Lemma is_annotation_Forall ls :
  Forall (λ x, is_annotation x = true) ls →
  Forall (λ x, is_Some (annotation_of_line x)) ls.
Proof.
  intros Hls. eapply Forall_impl; [exact Hls|].
  intros l Hl. by apply bool_decide_eq_true in Hl.
Qed.

Lemma is_annotation_false l :
  is_annotation l = false → annotation_of_line l = None.
Proof.
  intros Hl%bool_decide_eq_false. by apply eq_None_not_Some.
Qed.

(** The annotations are those of the longest prefix of annotation lines;
    the index is that of the line after it, or the last index when every
    line is an annotation. *)
Lemma scan_annotations_spec ls :
  scan_annotations ls 0
  = (omap annotation_of_line (take_while is_annotation ls),
     match drop_while is_annotation ls with
     | [] => Nat.pred (length ls)
     | _ :: _ => length (take_while is_annotation ls)
     end).
Proof.
  pose proof (is_annotation_Forall _ (take_while_Forall is_annotation ls)) as Hp.
  pose proof (take_while_length is_annotation ls) as Hlen.
  rewrite <-(take_drop_while is_annotation ls) at 1.
  destruct (drop_while is_annotation ls) as [|x rest] eqn:Hrest.
  - rewrite app_nil_r, scan_annotations_all by done. simpl in *.
    by rewrite Hlen, Nat.add_0_r.
  - rewrite scan_annotations_break;
      eauto using is_annotation_false, drop_while_head.
Qed.

Lemma desc_lines_length d : length (desc_lines d) ≤ String.length d.
Proof.
  unfold desc_lines.
  pose proof (split_length_le nl d).
  pose proof (length_filter (λ l, l ≠ "") (split nl d)).
  set (ls := filter _ _) in *.
  assert (length (strip <$> ls) = length ls) as Hl by apply length_fmap.
  destruct (strip <$> ls); simpl in *; lia.
Qed.

(** ** The parser on lines *)

Lemma parse_lines_annotations lines :
  (parse_lines lines).1.1
  = omap annotation_of_line (take_while is_annotation lines).
Proof. unfold parse_lines. by case_bool_decide. Qed.

Lemma parse_str_reference g d :
  g !! "description" = Some (VStr d) →
  _parse_gcal_item_desc g = Ok (parse_lines (desc_lines d)).
Proof.
  intros Hd. rewrite (parse_str_run _ _ Hd). cbn zeta.
  unfold parse_lines. rewrite scan_annotations_spec. cbn [fst snd].
  pose proof (take_while_length is_annotation (desc_lines d)) as Hlen.
  pose proof (drop_take_while is_annotation (desc_lines d)) as Hdrop.
  destruct (drop_while is_annotation (desc_lines d)) as [|x [|y rest]] eqn:Hr;
    simpl in Hlen.
  - destruct (desc_lines d) as [|l ls] eqn:Hls; simpl.
    + done.
    + by rewrite bool_decide_eq_true_2 by lia.
  - rewrite bool_decide_eq_true_2 by lia. done.
  - rewrite bool_decide_eq_false_2 by lia.
    rewrite bool_decide_eq_false_2 by (simpl; lia).
    rewrite Hdrop, foldl_scan_meta_line_spec. cbn [fst snd].
    by destruct (last (omap uuid_of_line _)).
Qed.

(** ** Properties *)

(** C35. The parser computes the reference: on every event,
    [_parse_gcal_item_desc] returns what [parse_reference] does, so its
    annotations are those of the longest prefix of annotation lines and its
    status and uuid those of the last status line and the last readable
    uuid line after that prefix, except that a single line after the
    prefix is not read; an event without description gives the defaults
    and a description that is no [str] raises [AttributeError]. *)
Theorem parse_gcal_item_desc_reference g :
  _parse_gcal_item_desc g = parse_reference g.
Proof.
  unfold parse_reference.
  destruct (g !! "description") as [v|] eqn:Hd.
  2:{ unfold _parse_gcal_item_desc. by rewrite (has_key_None _ _ Hd). }
  destruct v; try by apply parse_str_reference.
  all: unfold _parse_gcal_item_desc;
    by rewrite (has_key_Some _ _ _ Hd), (getitem_Some _ _ _ Hd).
Qed.

(** Sizes of what the parser returns: on a description [d] it returns at
    most as many annotations as [d] has lines after the first, which are at
    most as many as [d] has characters; the index its first loop leaves is
    at most the number of annotations and, when there is a line, the index
    of one; and a uuid it returns is one that [UUID] accepted. *)
Lemma parse_gcal_item_desc_bounds g d anns st u :
  g !! "description" = Some (VStr d) →
  _parse_gcal_item_desc g = Ok (anns, st, u) →
  let lines := desc_lines d in
  let i := (scan_annotations lines 0).2 in
  length anns ≤ length lines ∧ length lines ≤ String.length d
  ∧ i ≤ length anns ∧ (lines ≠ [] → i < length lines)
  ∧ ∀ u', u = Some u' → (u' < 2 ^ 128)%N.
Proof.
  intros Hd Hp lines i. subst lines i.
  destruct (parse_clean _ _ _ _ Hp) as [_ Hu].
  rewrite (parse_str_reference _ _ Hd) in Hp. injection Hp as Hp.
  pose proof (desc_lines_length d) as Hd_len.
  remember (desc_lines d) as lines eqn:Hlines. clear Hlines.
  assert (anns = omap annotation_of_line (take_while is_annotation lines))
    as -> by by rewrite <-(parse_lines_annotations lines), Hp.
  pose proof (take_while_length is_annotation lines) as Hlen.
  rewrite scan_annotations_spec. cbn [snd].
  rewrite length_omap_Forall
    by apply is_annotation_Forall, take_while_Forall.
  split_and!; [lia|done| | |].
  - destruct (drop_while _ _); simpl in *; lia.
  - intros Hne. destruct lines; [done|].
    destruct (drop_while _ _); simpl in *; lia.
  - intros u' Hu'. apply N.ltb_lt. by apply Hu.
Qed.

End parser_spec.

(** ** Witnesses *)

Lemma parse_gcal_item_desc_bounds_witness :
  let lines := desc_lines (description_text milk_view) in
  let i := (scan_annotations lines 0).2 in
  length ["two litres"; "skimmed: yes"] ≤ length lines
  ∧ length lines ≤ String.length (description_text milk_view)
  ∧ i ≤ length ["two litres"; "skimmed: yes"]
  ∧ (lines ≠ [] → i < length lines)
  ∧ ∀ u', Some (tv_uuid milk_view) = Some u' → (u' < 2 ^ 128)%N.
Proof.
  exact (parse_gcal_item_desc_bounds (event_of milk_view)
    (description_text milk_view) _ "pending" _
    (proj1 (event_of_lookups milk_view))
    (parse_description_text _ milk_view eq_refl
      (proj1 (event_of_lookups milk_view)))).
Defined.
