(* ===== verification/RoundTripLines.v ===== *)
(** The round trip of a task whose annotations hold line breaks.

    [convert_tw_to_gcal] of [Converter]
    ([src/taskw_gcal_sync/TWGCalAggregator.py], lines 147-223) writes each
    annotation after a bullet, on a line of the description, and the
    status and the uuid on the last two lines.  An annotation with a line
    break takes more than one line, and a line of it may look like any
    line of a description.  [_parse_gcal_item_desc] (lines 225-267) reads
    the annotations up to the first line that is not a bullet of an
    annotation, and the status and the uuid from the last lines that give
    one.

    The theorem of the file says what comes back for every list of
    annotations: the status, the uuid and the other fields of the task,
    whatever the annotations hold, and the annotations read off the lines
    before the first that is no bullet ([kept_annotations]), which begin
    with the annotations before the first that has a line break. *)

From stdpp Require Import base tactics option list strings gmap.
From S2P Require Import Prelude PyString PyValue Codecs Converter RoundTrip.
From S2P Require Import ConverterSpec ParserSpec.

#[local] Open Scope result_scope.

Section roundtrip_lines.
Context `{UuidLib, DateTimeLib, ContainerLib}.
Implicit Types (v : task_view) (anns : list string) (i : nat).

(** The lines the annotations take in the description, from bullet [i]
    on, as [desc_lines] gives them. *)
Definition annotation_lines_from i anns : list string :=
  strip <$> filter (λ l, l ≠ "") (annotation_texts i anns ≫= split nl).

Definition annotation_lines v : list string :=
  annotation_lines_from 0 (default [] (tv_annotations v)).

(** The annotations the parser reads off these lines. *)
Definition kept_annotations v : list string :=
  omap annotation_of_line (take_while is_annotation (annotation_lines v)).

(** The task with the annotations that come back. *)
Definition task_kept v : item :=
  <["annotations" := VList (VStr <$> kept_annotations v)]> (task_of v).

(** The annotations before the first that holds a line break. *)
Definition unbroken anns : list string :=
  take_while (λ a, negb (has_char nl a)) anns.

(** ** The lines of the description *)

Lemma split_annotation_block_any i anns T ts :
  split nl T = "" :: ts →
  split nl (annotation_block i anns +:+ T)
  = "" :: (annotation_texts i anns ≫= split nl) ++ ts.
Proof.
  intros HT. revert i.
  induction anns as [|a anns IH]; intros i;
    cbn [annotation_block annotation_texts]; [done|].
  rewrite app_assoc_str, app_cons_str, split_sep, bind_cons.
  by rewrite (split_app_empty_head _ _ _ _ (IH _)), <- app_assoc.
Qed.

Lemma split_description_text_any v :
  has_char nl (tv_status v) = false →
  split nl (description_text v) =
    meta_title :: "" ::
      (annotation_texts 0 (default [] (tv_annotations v)) ≫= split nl)
      ++ [""; meta_text "status" (tv_status v);
          meta_text "uuid" (uuid_str (tv_uuid v))].
Proof.
  intros Hst. unfold description_text.
  rewrite split_line by done. f_equal.
  apply split_annotation_block_any.
  rewrite split_sep, app_cons_str, split_sep. do 2 f_equal.
  rewrite split_line by by apply meta_text_no_nl.
  rewrite split_no_sep; [done|].
  apply meta_text_no_nl; [done|apply uuid_str_no_nl].
Qed.

Lemma desc_lines_description_text_any v :
  has_char nl (tv_status v) = false →
  desc_lines (description_text v) =
    annotation_lines v
      ++ [strip (meta_text "status" (tv_status v));
          strip (meta_text "uuid" (uuid_str (tv_uuid v)))].
Proof.
  intros Hst. unfold desc_lines, annotation_lines, annotation_lines_from.
  rewrite split_description_text_any by done.
  rewrite filter_cons_True by done. rewrite filter_cons_False by naive_solver.
  rewrite filter_app, filter_cons_False by naive_solver.
  rewrite !filter_cons_True by done. simpl.
  by rewrite fmap_app.
Qed.

(** ** The last two lines *)

Lemma status_of_line_status st :
  status_of_line (strip (meta_text "status" st)) = Some (lower (strip st)).
Proof.
  unfold status_of_line.
  destruct (status_line_parts st) as (r & -> & <-). done.
Qed.

Lemma status_of_line_uuid us :
  status_of_line (strip (meta_text "uuid" us)) = None.
Proof.
  unfold status_of_line. by destruct (uuid_line_parts us) as (r & -> & _).
Qed.

Lemma uuid_of_line_uuid u :
  uuid_ok u = true →
  uuid_of_line (strip (meta_text "uuid" (uuid_str u))) = Some u.
Proof.
  intros Hu. pose proof (scan_meta_line_uuid "" None u Hu) as Hl.
  rewrite scan_meta_line_spec in Hl. simpl in Hl.
  by destruct (uuid_of_line _); simplify_eq.
Qed.

Lemma is_annotation_status st :
  is_annotation (strip (meta_text "status" st)) = false.
Proof.
  unfold is_annotation. rewrite annotation_of_line_status.
  apply bool_decide_eq_false_2. by intros [? ?].
Qed.

(** The parser on lines that end with a status line and a uuid line: the
    annotations of the lines before, and that status and that uuid,
    whatever the lines before hold. *)
Lemma parse_lines_meta_last ls S U st u :
  is_annotation S = false →
  status_of_line S = Some st → status_of_line U = None →
  uuid_of_line U = Some u →
  parse_lines (ls ++ [S; U])
  = (omap annotation_of_line (take_while is_annotation ls), st, Some u).
Proof.
  intros HS Hst HU Hu. unfold parse_lines.
  rewrite take_while_app_stop, drop_while_app_stop by done.
  rewrite bool_decide_eq_false_2 by (rewrite length_app; simpl; lia).
  change (?l ++ [S; U]) with (l ++ [S] ++ [U]). rewrite !app_assoc.
  rewrite (last_omap_snoc _ _ _ _ Hu), (last_omap_snoc_None _ _ _ HU).
  by rewrite (last_omap_snoc _ _ _ _ Hst).
Qed.

(** ** The parser and the converter on a written description *)

Lemma parse_description_text_any g v :
  tv_status v ∈ valid_statuses → uuid_ok (tv_uuid v) = true →
  g !! "description" = Some (VStr (description_text v)) →
  _parse_gcal_item_desc g
  = Ok (kept_annotations v, tv_status v, Some (tv_uuid v)).
Proof.
  intros Hst Hu Hg.
  destruct (valid_status_facts _ Hst) as (Hst1 & Hst2 & Hst3).
  rewrite (parse_str_reference _ _ Hg), desc_lines_description_text_any by done.
  rewrite (parse_lines_meta_last _ _ _ (tv_status v) (tv_uuid v));
    auto using is_annotation_status, status_of_line_uuid, uuid_of_line_uuid.
  by rewrite status_of_line_status, Hst1, Hst2.
Qed.

Lemma convert_gcal_to_tw_event_of_any v :
  tv_status v ∈ valid_statuses → uuid_ok (tv_uuid v) = true →
  convert_gcal_to_tw (event_of v) = Ok (task_kept v).
Proof.
  intros Hst Hu. destruct (event_of_lookups v) as (Hd & Hs & Hb & He).
  unfold convert_gcal_to_tw.
  rewrite (parse_description_text_any _ _ Hst Hu Hd). cbn [bind].
  rewrite (bool_decide_eq_true_2 _ Hst).
  rewrite (getitem_Some _ _ _ Hs), (getitem_Some _ _ _ Hb), (getitem_Some _ _ _ He).
  unfold date_time_dict. cbn [bind subscript].
  rewrite !getitem_singleton. cbn [bind].
  rewrite !parse_format_datetime. cbn [bind].
  unfold task_kept, task_of. by f_equal.
Qed.

(** ** The annotations that come back *)

(** An annotation without a line break takes one line, which the parser
    reads as that annotation, stripped. *)
Lemma annotation_lines_from_cons i a anns :
  has_char nl a = false →
  annotation_lines_from i (a :: anns)
  = strip (annotation_text i a) :: annotation_lines_from (S i) anns.
Proof.
  intros Ha. unfold annotation_lines_from. cbn [annotation_texts].
  rewrite bind_cons, split_no_sep by by apply annotation_text_no_nl.
  by rewrite filter_app, filter_cons_True, filter_nil, fmap_app.
Qed.

Lemma kept_from_cons i a anns :
  has_char nl a = false →
  omap annotation_of_line
    (take_while is_annotation (annotation_lines_from i (a :: anns)))
  = strip a :: omap annotation_of_line
      (take_while is_annotation (annotation_lines_from (S i) anns)).
Proof.
  intros Ha. rewrite annotation_lines_from_cons by done. cbn [take_while].
  unfold is_annotation at 1. rewrite annotation_of_line_text.
  rewrite bool_decide_eq_true_2 by done.
  change (omap ?f (?x :: ?l)) with
    (match f x with Some y => y :: omap f l | None => omap f l end).
  by rewrite annotation_of_line_text.
Qed.

Lemma kept_from_unbroken i anns :
  strip <$> unbroken anns `prefix_of`
  omap annotation_of_line
    (take_while is_annotation (annotation_lines_from i anns)).
Proof.
  revert i. induction anns as [|a anns IH]; intros i; [apply prefix_nil|].
  unfold unbroken. cbn [take_while].
  destruct (has_char nl a) eqn:Ha; [apply prefix_nil|]. cbn [negb fmap].
  rewrite kept_from_cons, fmap_cons by done. apply prefix_cons, IH.
Qed.

Lemma kept_from_all i anns :
  Forall (λ a, has_char nl a = false) anns →
  omap annotation_of_line
    (take_while is_annotation (annotation_lines_from i anns))
  = strip <$> anns.
Proof.
  intros Hanns. revert i.
  induction Hanns as [|a anns Ha _ IH]; intros i; [done|].
  by rewrite kept_from_cons, IH.
Qed.

(** ** Properties *)

(** C21. The round trip of any task that a view describes, with a valid
    status, a uuid of 128 bits and an end within the range of [datetime],
    whatever its annotations hold, line
    breaks and lines that look like a status or a uuid line included:
    converting to an event and back returns the task with its
    description, status, uuid, entry and due, and with the annotations
    [kept_annotations]; they begin with the annotations before the first
    that holds a line break, stripped, and they are all the annotations,
    stripped, when none holds one.  So no text of an annotation changes
    the status or the uuid that comes back. *)
Theorem tw_gcal_tw_roundtrip_lines t v :
  views t v → tv_status v ∈ valid_statuses → uuid_ok (tv_uuid v) = true →
  end_fits v = true →
  (g <- convert_tw_to_gcal t ;; convert_gcal_to_tw g) = Ok (task_kept v)
  ∧ (∀ k, k ≠ "annotations" → task_kept v !! k = task_of v !! k)
  ∧ strip <$> unbroken (default [] (tv_annotations v))
      `prefix_of` kept_annotations v
  ∧ (Forall (λ a, has_char nl a = false) (default [] (tv_annotations v)) →
     kept_annotations v = strip <$> default [] (tv_annotations v)).
Proof.
  intros Ht Hst Hu Hf. split_and!.
  - rewrite (convert_tw_to_gcal_views _ _ Ht Hf). cbn [bind].
    by apply convert_gcal_to_tw_event_of_any.
  - intros k Hk. unfold task_kept. by rewrite lookup_insert_ne.
  - apply kept_from_unbroken.
  - apply kept_from_all.
Qed.

End roundtrip_lines.

(** ** Witnesses *)

(** A task whose second annotation holds a line break and, after it, a
    line that reads as a status line. *)
Definition broken_annotation : string :=
  "two litres" +:+ String nl "* status: deleted".

Definition broken_view : task_view := {|
  tv_description := VStr "Buy milk";
  tv_status := "pending";
  tv_uuid := 0x12345678123456781234567812345678%N;
  tv_entry := 1000000%Z;
  tv_due := None;
  tv_annotations := Some ["skimmed"; broken_annotation; "fresh"];
|}.

Definition broken_task : item :=
  <["annotations" :=
      VList [VStr "skimmed"; VStr broken_annotation; VStr "fresh"]]>
  (<["entry" := VTime 1000000%Z]>
  (<["uuid" := VUuid 0x12345678123456781234567812345678%N]>
  (<["status" := VStr "pending"]>
  {[ "description" := VStr "Buy milk" ]}))).

Lemma broken_task_views : views broken_task broken_view.
Proof. unfold views, broken_task, broken_view. by simplify_map_eq. Qed.

(** The annotations that come back: the first, and the first line of the
    second. *)
Lemma broken_view_kept : kept_annotations broken_view = ["skimmed"; "two litres"].
Proof. by vm_compute. Qed.

Lemma tw_gcal_tw_roundtrip_lines_witness :
  (g <- convert_tw_to_gcal broken_task ;; convert_gcal_to_tw g)
    = Ok (task_kept broken_view)
  ∧ (∀ k, k ≠ "annotations" →
       task_kept broken_view !! k = task_of broken_view !! k)
  ∧ strip <$> unbroken (default [] (tv_annotations broken_view))
      `prefix_of` kept_annotations broken_view
  ∧ (Forall (λ a, has_char nl a = false)
       (default [] (tv_annotations broken_view)) →
     kept_annotations broken_view
     = strip <$> default [] (tv_annotations broken_view)).
Proof.
  apply (tw_gcal_tw_roundtrip_lines broken_task broken_view broken_task_views);
    [apply list_elem_of_here|reflexivity..].
Defined.
