(* ===== verification/Tests.v ===== *)
(** The tests of the converters,
    [src/tests/test_tw_gcal_conversions.py], run against the converters of
    [src/taskw_gcal_sync/TWGCalAggregator.py].

    A test is a [result unit]: [Ok tt] when it passes, [Err AssertionError]
    when an assertion of it fails, another exception when it ends in an
    error.  The sample file the tests load is not part of the sources, so
    a test is a function of its contents [conts], a mapping from names to
    items.  The test file imports [convert_gcal_to_tw] and
    [convert_tw_to_gcal] from a package [syncall] (line 5), which is not
    among the sources either: the tests are run against the static
    methods of these names of [TWGCalAggregator].  [assertDictEqual] and [assertSetEqual] compare with the
    equality of the model, which is Python's on the values the converters
    build.

    The theorems say what each test does on every sample file:
    [test_tw_gcal_n_back] passes on none, [test_gcal_tw_date_convert] ends
    in a [KeyError] on every event that has a date and no time, and
    [test_gcal_tw_n_back] passes exactly on the events with sixteen given
    keys whose description holds a status and a uuid. *)

From stdpp Require Import base tactics option list strings gmap.
From S2P Require Import Prelude PyString PyValue Codecs Converter RoundTrip.
From S2P Require Import ConverterSpec.

#[local] Open Scope result_scope.

(** ** The assertions of [unittest] *)

Definition assertDictEqual (d1 d2 : item) : result unit :=
  assert_ (bool_decide (d1 = d2)).

Definition assertSetEqual (set1 set2 : gset string) : result unit :=
  assert_ (bool_decide (set1 = set2)).

(** ** The sample items *)

(** The attributes [load_sample_items] sets on the test case. *)
Record sample_items : Type := SampleItems {
  gcal_item : item;
  tw_item_expected : item;
  tw_item : item;
  gcal_item_expected : item;
  gcal_item_w_date : item;
  tw_item_w_date_expected : item
}.

Definition load_sample_items (conts : gmap string item) : result sample_items :=
  gcal_item <- getitem conts "gcal_item" ;;
  tw_item_expected <- getitem conts "tw_item_expected" ;;
  tw_item <- getitem conts "tw_item" ;;
  gcal_item_expected <- getitem conts "gcal_item_expected" ;;
  gcal_item_w_date <- getitem conts "gcal_item_w_date" ;;
  tw_item_w_date_expected <- getitem conts "tw_item_w_date_expected" ;;
  Ok (SampleItems gcal_item tw_item_expected tw_item gcal_item_expected
        gcal_item_w_date tw_item_w_date_expected).

(** ** The tests *)

Definition test_tw_gcal_basic_convert (conts : gmap string item) : result unit :=
  self <- load_sample_items conts ;;
  gcal_item_out <- convert_tw_to_gcal (tw_item self) ;;
  assertDictEqual gcal_item_out (gcal_item_expected self).

Definition test_gcal_tw_basic_convert (conts : gmap string item) : result unit :=
  self <- load_sample_items conts ;;
  tw_item_out <- convert_gcal_to_tw (gcal_item self) ;;
  assertDictEqual tw_item_out (tw_item_expected self).

Definition test_gcal_tw_date_convert (conts : gmap string item) : result unit :=
  self <- load_sample_items conts ;;
  tw_item_out <- convert_gcal_to_tw (gcal_item_w_date self) ;;
  assertDictEqual tw_item_out (tw_item_w_date_expected self).

(** The keys [test_tw_gcal_n_back] expects on one side only. *)
Definition tw_n_back_keys : gset string :=
  {[ "entry"; "due"; "id"; "tags"; "urgency" ]}.

(** [{i: d[i] for i in intersection}]. *)
Definition restricted (intersection : gset string) (d : item) : item :=
  filter (λ kv, kv.1 ∈ intersection) d.

Definition test_tw_gcal_n_back (conts : gmap string item) : result unit :=
  self <- load_sample_items conts ;;
  g <- convert_tw_to_gcal (tw_item self) ;;
  tw_item_out <- convert_gcal_to_tw g ;;
  assertSetEqual (key_sym_diff (tw_item self) tw_item_out) tw_n_back_keys ;;
  let intersection := dom (tw_item self) ∩ dom tw_item_out in
  assertDictEqual (restricted intersection (tw_item self))
    (restricted intersection tw_item_out).

(** The keys [test_gcal_tw_n_back] expects on one side only: those the
    calendar gives an event. *)
Definition gcal_n_back_keys : gset string :=
  {[ "htmlLink"; "kind"; "etag"; "extendedProperties"; "creator"; "created";
     "organizer"; "sequence"; "status"; "reminders"; "iCalUID"; "id" ]}.

Definition test_gcal_tw_n_back (conts : gmap string item) : result unit :=
  self <- load_sample_items conts ;;
  t <- convert_gcal_to_tw (gcal_item self) ;;
  gcal_item_out <- convert_tw_to_gcal t ;;
  assertSetEqual (key_sym_diff (gcal_item self) gcal_item_out) gcal_n_back_keys.

(** The keys of an event [convert_tw_to_gcal] returns. *)
Definition event_keys : gset string :=
  {[ "summary"; "description"; "start"; "end" ]}.

(** ** Lemmas *)

Lemma assertDictEqual_Ok d1 d2 : assertDictEqual d1 d2 = Ok tt ↔ d1 = d2.
Proof. unfold assertDictEqual. by case_bool_decide. Qed.

Lemma assertSetEqual_Ok set1 set2 : assertSetEqual set1 set2 = Ok tt ↔ set1 = set2.
Proof. unfold assertSetEqual. by case_bool_decide. Qed.

Lemma assertSetEqual_ne set1 set2 :
  set1 ≠ set2 → assertSetEqual set1 set2 = Err AssertionError.
Proof. intros. unfold assertSetEqual. by rewrite bool_decide_eq_false_2. Qed.

(** What a sample file must hold for the tests to start. *)
Lemma load_sample_items_Ok conts self :
  load_sample_items conts = Ok self ↔
  conts !! "gcal_item" = Some (gcal_item self)
  ∧ conts !! "tw_item_expected" = Some (tw_item_expected self)
  ∧ conts !! "tw_item" = Some (tw_item self)
  ∧ conts !! "gcal_item_expected" = Some (gcal_item_expected self)
  ∧ conts !! "gcal_item_w_date" = Some (gcal_item_w_date self)
  ∧ conts !! "tw_item_w_date_expected" = Some (tw_item_w_date_expected self).
Proof.
  unfold load_sample_items, getitem. split.
  - intros Hl. inv_result.
    repeat match goal with
    | H : match ?x with _ => _ end = Ok _ |- _ => destruct x eqn:?; [|done]
    end.
    by simplify_eq.
  - intros (-> & -> & -> & -> & -> & ->). by destruct self.
Qed.

(** An event [convert_tw_to_gcal] returns has the four keys it writes. *)
Lemma convert_tw_to_gcal_dom t g :
  convert_tw_to_gcal t = Ok g → dom g = event_keys.
Proof.
  unfold convert_tw_to_gcal, event_keys. intros Hg. inv_result.
  destruct (has_key t "due"); inv_result;
    rewrite !dom_insert_L, dom_singleton_L; set_solver.
Qed.

(** [convert_tw_to_gcal] returns only on a task with a status and a
    uuid. *)
Lemma convert_tw_to_gcal_Ok_required t g :
  convert_tw_to_gcal t = Ok g → is_Some (t !! "status") ∧ is_Some (t !! "uuid").
Proof.
  unfold convert_tw_to_gcal. intros Hg. inv_result.
  match goal with H : assert_ _ = Ok ?x |- _ =>
    destruct x; apply assert_Ok in H; simpl in H;
    apply andb_prop in H as [_ [Hst [Hu _]%andb_prop]%andb_prop]
  end.
  by apply has_key_true in Hst, Hu.
Qed.

(** A task [convert_gcal_to_tw] returned with a status and a uuid
    converts to an event. *)
Lemma converted_task_converts e t :
  convert_gcal_to_tw e = Ok t →
  is_Some (t !! "status") → is_Some (t !! "uuid") →
  is_ok (convert_tw_to_gcal t) = true.
Proof.
  intros (anns & st & u & s & b & d & _ & _ & _ & _ & ->)
    %convert_gcal_to_tw_Ok_inv.
  destruct (built_task_lookups anns st u s b d) as (_ & -> & -> & _).
  case_bool_decide as Hst; [|by intros []]. intros _ [u0 Hu].
  destruct u as [u'|]; [|done].
  destruct (built_task_views anns st u' s b d Hst) as [-> Hv].
  by rewrite (convert_tw_to_gcal_views _ _ Hv).
Qed.

(** Keys on one side only, when the other side's keys are apart from
    them. *)
Lemma sym_diff_apart (X K A : gset string) :
  K ## A → (X ∖ K) ∪ (K ∖ X) = A ↔ X = K ∪ A.
Proof.
  intros Hdisj. split; intros Heq; [|subst X; set_solver].
  apply set_eq. intros x.
  assert (x ∈ (X ∖ K) ∪ (K ∖ X) ↔ x ∈ A) as Hx by (by rewrite Heq).
  apply elem_of_disjoint in Hdisj. specialize (Hdisj x). set_unfold.
  destruct (decide (x ∈ X)), (decide (x ∈ K)); tauto.
Qed.

(** [convert_gcal_to_tw] reads four fields of the event, no other. *)
Lemma convert_gcal_to_tw_same_fields (g g' : item) :
  (∀ k, k ∈ event_keys → g !! k = g' !! k) →
  convert_gcal_to_tw g = convert_gcal_to_tw g'.
Proof.
  intros Hk. rewrite !convert_gcal_to_tw_unfold.
  unfold _parse_gcal_item_desc, event_time, has_key, getitem.
  by rewrite (Hk "description"), (Hk "summary"), (Hk "start"), (Hk "end")
    by (unfold event_keys; set_solver).
Qed.

(** The sixteen keys: the keys of a converted event and the keys of the
    calendar are apart. *)
Lemma key_sym_diff_gcal_n_back (e g : item) :
  dom g = event_keys →
  key_sym_diff e g = gcal_n_back_keys
  ↔ dom e = event_keys ∪ gcal_n_back_keys.
Proof.
  intros Hg. unfold key_sym_diff. rewrite Hg. apply sym_diff_apart.
  apply disjoint_intersection_L. by vm_compute.
Qed.

(** ** Properties *)

(** C25. The test of the round trip of a task passes on no sample file.
    [test_tw_gcal_n_back] ends in the error of the loading or of one of the
    conversions, and when both conversions return its first assertion
    fails: it expects ['entry'] among the keys that only one of the two
    tasks has, while [convert_tw_to_gcal] reads the [entry] of the task and
    [convert_gcal_to_tw] writes one. *)
Theorem test_tw_gcal_n_back_never_passes conts :
  test_tw_gcal_n_back conts
  = (self <- load_sample_items conts ;;
     g <- convert_tw_to_gcal (tw_item self) ;;
     _ <- convert_gcal_to_tw g ;;
     Err AssertionError).
Proof.
  unfold test_tw_gcal_n_back.
  destruct (load_sample_items conts) as [self|]; [|done]. cbn [bind].
  destruct (convert_tw_to_gcal _) as [g|] eqn:Hg; [|done]. cbn [bind].
  destruct (convert_gcal_to_tw g) as [out|] eqn:Hout; [|done]. cbn [bind].
  rewrite assertSetEqual_ne; [done|]. intros Heq.
  apply (roundtrip_entry_common _ _ _ Hg Hout). rewrite Heq.
  unfold tw_n_back_keys. set_solver.
Qed.

(** C26. The test of an event with a date: on every sample file whose
    [gcal_item_w_date] has a [start] without [dateTime], as an all-day
    event has, [test_gcal_tw_date_convert] does not reach its assertion;
    it ends in the error of the parser or of the summary if there is one,
    and in [KeyError] on ['dateTime'] otherwise. *)
Theorem test_gcal_tw_date_convert_errors conts self d :
  load_sample_items conts = Ok self →
  gcal_item_w_date self !! "start" = Some (VDict d) →
  d !! "dateTime" = None →
  test_gcal_tw_date_convert conts
  = (_ <- _parse_gcal_item_desc (gcal_item_w_date self) ;;
     _ <- getitem (gcal_item_w_date self) "summary" ;;
     Err (KeyError "dateTime")).
Proof.
  intros Hl Hs Hd. unfold test_gcal_tw_date_convert. rewrite Hl. cbn [bind].
  rewrite convert_gcal_to_tw_unfold.
  destruct (_parse_gcal_item_desc _) as [p|]; [|done]. cbn [bind].
  destruct (getitem _ "summary") as [summary|]; [|done]. cbn [bind].
  unfold event_time at 1. rewrite (getitem_Some _ _ _ Hs). simpl.
  by rewrite (getitem_None _ _ Hd).
Qed.

(** C19. The samples on which the test of the round trip of an event
    passes: [test_gcal_tw_n_back] passes exactly when the sample file
    loads and its [gcal_item] converts to a task with a status and a uuid,
    which its description must hold, and has the four keys of a converted
    event and the twelve keys the calendar gives an event, no other.  On
    such events the event converted back differs from the first in the
    keys of the calendar only. *)
Theorem test_gcal_tw_n_back_passes conts :
  test_gcal_tw_n_back conts = Ok tt ↔
  ∃ self t, load_sample_items conts = Ok self
    ∧ convert_gcal_to_tw (gcal_item self) = Ok t
    ∧ is_Some (t !! "status") ∧ is_Some (t !! "uuid")
    ∧ dom (gcal_item self) = event_keys ∪ gcal_n_back_keys.
Proof.
  unfold test_gcal_tw_n_back. split.
  - intros (self & Hl & (t & Ht & (g & Hg & Heq)%bind_Ok_inv)%bind_Ok_inv)
      %bind_Ok_inv.
    apply assertSetEqual_Ok in Heq. exists self, t.
    destruct (convert_tw_to_gcal_Ok_required _ _ Hg). split_and!; try done.
    by apply (key_sym_diff_gcal_n_back _ g); [eapply convert_tw_to_gcal_dom|].
  - intros (self & t & -> & Ht & Hst & Hu & Hdom). cbn [bind].
    rewrite Ht. cbn [bind].
    pose proof (converted_task_converts _ _ Ht Hst Hu) as Hok.
    destruct (convert_tw_to_gcal t) as [g|] eqn:Hg; [|done]. cbn [bind].
    apply assertSetEqual_Ok.
    by apply key_sym_diff_gcal_n_back; [eapply convert_tw_to_gcal_dom|].
Qed.

(** The basic tests pass exactly when the converter returns the expected
    item. *)
Lemma test_tw_gcal_basic_convert_passes conts :
  test_tw_gcal_basic_convert conts = Ok tt ↔
  ∃ self, load_sample_items conts = Ok self
    ∧ convert_tw_to_gcal (tw_item self) = Ok (gcal_item_expected self).
Proof.
  unfold test_tw_gcal_basic_convert. split.
  - intros (self & Hl & (g & Hg & ->%assertDictEqual_Ok)%bind_Ok_inv)
      %bind_Ok_inv. eauto.
  - intros (self & -> & Hg). cbn [bind]. rewrite Hg. cbn [bind].
    by apply assertDictEqual_Ok.
Qed.

Lemma test_gcal_tw_basic_convert_passes conts :
  test_gcal_tw_basic_convert conts = Ok tt ↔
  ∃ self, load_sample_items conts = Ok self
    ∧ convert_gcal_to_tw (gcal_item self) = Ok (tw_item_expected self).
Proof.
  unfold test_gcal_tw_basic_convert. split.
  - intros (self & Hl & (g & Hg & ->%assertDictEqual_Ok)%bind_Ok_inv)
      %bind_Ok_inv. eauto.
  - intros (self & -> & Hg). cbn [bind]. rewrite Hg. cbn [bind].
    by apply assertDictEqual_Ok.
Qed.

(** ** Witnesses *)

(** A sample file: the task and the event of [RoundTrip], and the event
    with a date in place of its start. *)
Definition date_event : item :=
  <["start" := VDict {[ "date" := VStr "1970-01-12" ]}]> (event_of milk_view).

Definition sample : sample_items :=
  SampleItems (event_of milk_view) (task_of milk_view) milk_task
    (event_of milk_view) date_event (task_of milk_view).

Definition sample_conts : gmap string item :=
  <["gcal_item" := gcal_item sample]>
  (<["tw_item_expected" := tw_item_expected sample]>
  (<["tw_item" := tw_item sample]>
  (<["gcal_item_expected" := gcal_item_expected sample]>
  (<["gcal_item_w_date" := gcal_item_w_date sample]>
  {[ "tw_item_w_date_expected" := tw_item_w_date_expected sample ]})))).

(** The event of [RoundTrip] as the calendar returns it, with the keys the
    calendar gives an event. *)
Definition stored_event : item :=
  <["htmlLink" := VStr "https://calendar.example/event/0"]>
  (<["kind" := VStr "calendar#event"]>
  (<["etag" := VStr "3141592653589793"]>
  (<["extendedProperties" := VDict ∅]>
  (<["creator" := VDict {[ "email" := VStr "user@example.org" ]}]>
  (<["created" := VStr "1970-01-12T13:46:40Z"]>
  (<["organizer" := VDict {[ "email" := VStr "user@example.org" ]}]>
  (<["sequence" := VInt 0]>
  (<["status" := VStr "confirmed"]>
  (<["reminders" := VDict {[ "useDefault" := VInt 1 ]}]>
  (<["iCalUID" := VStr "0@calendar.example"]>
  (<["id" := VStr "0"]> (event_of milk_view)))))))))))).

Definition stored_sample : sample_items :=
  SampleItems stored_event (task_of milk_view) milk_task
    (event_of milk_view) date_event (task_of milk_view).

Definition stored_conts : gmap string item :=
  <["gcal_item" := gcal_item stored_sample]>
  (<["tw_item_expected" := tw_item_expected stored_sample]>
  (<["tw_item" := tw_item stored_sample]>
  (<["gcal_item_expected" := gcal_item_expected stored_sample]>
  (<["gcal_item_w_date" := gcal_item_w_date stored_sample]>
  {[ "tw_item_w_date_expected" := tw_item_w_date_expected stored_sample ]})))).

Lemma stored_conts_load : load_sample_items stored_conts = Ok stored_sample.
Proof. apply load_sample_items_Ok. unfold stored_conts. by simplify_map_eq. Qed.

Lemma stored_event_converts :
  convert_gcal_to_tw stored_event = Ok (task_of milk_view).
Proof.
  rewrite (convert_gcal_to_tw_same_fields _ (event_of milk_view)).
  - by apply convert_gcal_to_tw_event_of.
  - intros k Hk. unfold event_keys in Hk. set_unfold.
    destruct Hk as [[[-> | ->] | ->] | ->]; reflexivity.
Qed.

Lemma stored_event_dom : dom stored_event = event_keys ∪ gcal_n_back_keys.
Proof.
  unfold stored_event, event_of, event_keys, gcal_n_back_keys.
  rewrite !dom_insert_L, dom_singleton_L.
  apply set_eq. intros k. rewrite !elem_of_union, !elem_of_singleton. tauto.
Qed.

Lemma test_gcal_tw_n_back_passes_witness :
  test_gcal_tw_n_back stored_conts = Ok tt.
Proof.
  apply (proj2 (test_gcal_tw_n_back_passes stored_conts)).
  exists stored_sample, (task_of milk_view).
  split_and!; [apply stored_conts_load|apply stored_event_converts
    |by eexists|by eexists|apply stored_event_dom].
Defined.

Lemma sample_conts_load : load_sample_items sample_conts = Ok sample.
Proof. apply load_sample_items_Ok. unfold sample_conts. by simplify_map_eq. Qed.

Lemma test_gcal_tw_date_convert_errors_witness :
  test_gcal_tw_date_convert sample_conts
  = (_ <- _parse_gcal_item_desc date_event ;;
     _ <- getitem date_event "summary" ;;
     Err (KeyError "dateTime")).
Proof.
  apply (test_gcal_tw_date_convert_errors sample_conts sample
    {[ "date" := VStr "1970-01-12" ]} sample_conts_load);
    [unfold date_event|]; by simplify_map_eq.
Defined.
