(* ===== verification/Bidict.v ===== *)
(** The correspondence table: the [bidict] that
    [TWGCalAggregator.__init__] stores as [tw_gcal_ids]
    ([src/taskw_gcal_sync/TWGCalAggregator.py], lines 53-59) and that
    [register_items] reads and writes (lines 89-90, 104, 116).

    The [bidict] class comes from the library of the same name.  It is
    modelled as two maps, [fwd] from keys to values and [bwd] from values
    to keys; a bidict is well formed ([bidict_wf]) when the two are inverse
    of each other, which makes both injective.  [bidict_setitem] is
    [b[k] = v] under the library's default duplication policy: an existing
    key is overwritten, a value bound to another key raises.  [inverse] is
    the view [b.inverse]; a write through the view is a write on the
    swapped pair. *)

From stdpp Require Import base tactics option list strings gmap.
From S2P Require Import Prelude PyString PyValue.

Record bidict : Type := Bidict {
  fwd : gmap hkey hkey;
  bwd : gmap hkey hkey;
}.

Definition bidict_wf (b : bidict) : Prop :=
  ∀ k v, fwd b !! k = Some v ↔ bwd b !! v = Some k.

(** [bidict()] *)
Definition bidict_empty : bidict := Bidict ∅ ∅.

(** [b.inverse] *)
Definition inverse (b : bidict) : bidict := Bidict (bwd b) (fwd b).

(** [k in b.keys()] *)
Definition bidict_has_key (b : bidict) (k : hkey) : bool :=
  bool_decide (is_Some (fwd b !! k)).

(** [b[k]] *)
Definition bidict_getitem (b : bidict) (k : hkey) : option hkey := fwd b !! k.

(** [b[k] = v] *)
Definition bidict_setitem (k v : hkey) (b : bidict) : result bidict :=
  match fwd b !! k, bwd b !! v with
  | Some _, Some k' => if decide (k' = k) then Ok b else Err ValueDuplicationError
  | None, Some _ => Err ValueDuplicationError
  | Some v', None => Ok (Bidict (<[k:=v]> (fwd b)) (<[v:=k]> (delete v' (bwd b))))
  | None, None => Ok (Bidict (<[k:=v]> (fwd b)) (<[v:=k]> (bwd b)))
  end.

(** [del b[k]]: [KeyError] with the key when [k] is not bound. *)
Definition bidict_delitem `{UuidLib, DateTimeLib} (k : hkey) (b : bidict)
    : result bidict :=
  match fwd b !! k with
  | Some v => Ok (Bidict (delete k (fwd b)) (delete v (bwd b)))
  | None => Err (KeyError (hkey_str k))
  end.

(** ** Well-formedness *)

Lemma bidict_empty_wf : bidict_wf bidict_empty.
Proof. intros k v. simpl. by rewrite !lookup_empty. Qed.

Lemma inverse_wf b : bidict_wf b → bidict_wf (inverse b).
Proof. intros Hb k v. simpl. symmetry. apply Hb. Qed.

Lemma inverse_involutive b : inverse (inverse b) = b.
Proof. by destruct b. Qed.

Lemma bidict_wf_fwd_inj b k1 k2 v :
  bidict_wf b → fwd b !! k1 = Some v → fwd b !! k2 = Some v → k1 = k2.
Proof. intros Hb H1%Hb H2%Hb. congruence. Qed.

Lemma bidict_wf_bwd_inj b v1 v2 k :
  bidict_wf b → bwd b !! v1 = Some k → bwd b !! v2 = Some k → v1 = v2.
Proof. intros Hb H1%Hb H2%Hb. congruence. Qed.

(** Inserting a fresh pair keeps the two maps inverse. *)
Lemma insert_fresh_wf b k v :
  bidict_wf b → fwd b !! k = None → bwd b !! v = None →
  bidict_wf (Bidict (<[k:=v]> (fwd b)) (<[v:=k]> (bwd b))).
Proof.
  intros Hb Hk Hv k0 v0. simpl.
  destruct (decide (k = k0)) as [->|Hkne], (decide (v = v0)) as [->|Hvne];
    simplify_map_eq; try done.
  - split; [congruence|]. intros Hbw%Hb. congruence.
  - split; [|congruence]. intros Hfw%Hb. congruence.
Qed.

Lemma delete_pair_wf b k v :
  bidict_wf b → fwd b !! k = Some v →
  bidict_wf (Bidict (delete k (fwd b)) (delete v (bwd b))).
Proof.
  intros Hb Hk k0 v0. simpl.
  destruct (decide (k = k0)) as [->|Hkne], (decide (v = v0)) as [->|Hvne];
    simplify_map_eq; try done.
  - split; [done|]. intros Hbw%Hb. congruence.
  - split; [|done]. intros Hfw%Hb. apply Hb in Hk. congruence.
Qed.

Lemma bidict_setitem_wf k v b b' :
  bidict_wf b → bidict_setitem k v b = Ok b' → bidict_wf b'.
Proof.
  intros Hb. unfold bidict_setitem.
  destruct (fwd b !! k) as [v'|] eqn:Hk, (bwd b !! v) as [k'|] eqn:Hv.
  - case_decide; intros; by simplify_eq.
  - intros [= <-].
    pose proof (delete_pair_wf b k v' Hb Hk) as Hd.
    rewrite <- (insert_delete_eq (fwd b)).
    apply (insert_fresh_wf _ k v Hd); simpl.
    + apply lookup_delete_eq.
    + destruct (decide (v' = v)) as [->|]; [apply lookup_delete_eq|].
      by rewrite lookup_delete_ne.
  - done.
  - intros [= <-]. by apply insert_fresh_wf.
Qed.

Lemma bidict_delitem_wf `{UuidLib, DateTimeLib} k b b' :
  bidict_wf b → bidict_delitem k b = Ok b' → bidict_wf b'.
Proof.
  intros Hb. unfold bidict_delitem.
  destruct (fwd b !! k) as [v|] eqn:Hk; [|done].
  intros [= <-]. by apply delete_pair_wf.
Qed.

(** ** Behaviour of [b[k] = v] *)

Lemma bidict_setitem_fresh k v b :
  fwd b !! k = None → bwd b !! v = None →
  bidict_setitem k v b = Ok (Bidict (<[k:=v]> (fwd b)) (<[v:=k]> (bwd b))).
Proof. intros Hk Hv. unfold bidict_setitem. by rewrite Hk, Hv. Qed.

Lemma bidict_setitem_dup_value k v b k' :
  fwd b !! k = None → bwd b !! v = Some k' →
  bidict_setitem k v b = Err ValueDuplicationError.
Proof. intros Hk Hv. unfold bidict_setitem. by rewrite Hk, Hv. Qed.

Lemma bidict_setitem_lookup k v b b' :
  bidict_wf b → bidict_setitem k v b = Ok b' → fwd b' !! k = Some v.
Proof.
  intros Hb. unfold bidict_setitem.
  destruct (fwd b !! k) as [v'|] eqn:Hk, (bwd b !! v) as [k'|] eqn:Hv;
    try case_decide; intros; simplify_eq; simpl; try apply lookup_insert_eq.
  by apply Hb.
Qed.

(** A write never removes a key. *)
Lemma bidict_setitem_keys k v b b' k0 :
  bidict_setitem k v b = Ok b' →
  bidict_has_key b k0 = true → bidict_has_key b' k0 = true.
Proof.
  unfold bidict_setitem, bidict_has_key.
  destruct (fwd b !! k) as [v'|] eqn:Hk, (bwd b !! v) as [k'|] eqn:Hv;
    try case_decide; intros; simplify_eq; simpl; try done.
  all: apply bool_decide_eq_true; apply bool_decide_eq_true in H0.
  all: destruct (decide (k = k0)) as [->|]; simplify_map_eq; eauto.
Qed.

(** A write adds no key but its own. *)
Lemma bidict_setitem_keys_inv k v b b' k0 :
  bidict_setitem k v b = Ok b' →
  is_Some (fwd b' !! k0) → k0 = k ∨ is_Some (fwd b !! k0).
Proof.
  unfold bidict_setitem.
  destruct (fwd b !! k) as [v'|] eqn:Hk, (bwd b !! v) as [k'|] eqn:Hv;
    try case_decide; intros; simplify_eq; simpl in *; eauto.
  all: destruct (decide (k0 = k)) as [->|]; simplify_map_eq; eauto.
Qed.

(** Deleting removes its key and no other. *)
Lemma bidict_delitem_lookup `{UuidLib, DateTimeLib} k b b' k0 :
  bidict_delitem k b = Ok b' →
  fwd b' !! k0 = if decide (k0 = k) then None else fwd b !! k0.
Proof.
  unfold bidict_delitem. destruct (fwd b !! k) as [v|]; [|done].
  intros [= <-]. simpl. case_decide; by simplify_map_eq.
Qed.

Lemma bidict_setitem_has_key k v b b' :
  bidict_setitem k v b = Ok b' → bidict_has_key b' k = true.
Proof.
  unfold bidict_setitem, bidict_has_key.
  destruct (fwd b !! k) as [v'|] eqn:Hk, (bwd b !! v) as [k'|] eqn:Hv;
    try case_decide; intros; simplify_eq; simpl; apply bool_decide_eq_true;
    simplify_map_eq; eauto.
Qed.

Lemma bidict_has_key_true b k : bidict_has_key b k = true ↔ is_Some (fwd b !! k).
Proof. apply bool_decide_eq_true. Qed.

Lemma bidict_has_key_false b k : bidict_has_key b k = false ↔ fwd b !! k = None.
Proof.
  unfold bidict_has_key. rewrite bool_decide_eq_false. symmetry.
  apply eq_None_not_Some.
Qed.

#[export] Hint Resolve bidict_empty_wf inverse_wf bidict_setitem_wf
  bidict_delitem_wf : py.
