(* ===== verification/PrefsManager.v ===== *)
(** The preferences manager: class [PrefsManager], which the constructor
    of the aggregator instantiates
    ([src/taskw_gcal_sync/TWGCalAggregator.py], line 34) and reads and
    writes by key (lines 48 and 57-59).

    The class is not among the sources.  It is modelled from the
    specification: a key-value structure loaded from durable storage when
    the object is made and flushed to it when the process exits, on a
    normal and on an abnormal exit alike.  The one entry the program uses
    holds the correspondence table, so the values are [bidict]s.

    Storage is the contents of the structure: what a flush writes is what
    the next load reads.  The format of the file, the place of the
    directory and a failure of the file system are outside the model; the
    constructor of the class is taken to return. *)

From stdpp Require Import base tactics option list strings gmap.
From S2P Require Import Prelude PyString PyValue Bidict.

(** The durable key-value structure of the application. *)
Abbreviation storage := (gmap string bidict).

Record prefs_manager : Type := PrefsManager {
  prefs_dir_full : string;
  prefs_conts : storage
}.

(** [PrefsManager(appname)]: the structure is loaded from storage. *)
Definition prefs_manager_init (prefs_dir : string) (disk : storage)
    : prefs_manager :=
  PrefsManager prefs_dir disk.

(** [key in prefs_manager]. *)
Definition prefs_contains (key : string) (pm : prefs_manager) : bool :=
  bool_decide (is_Some (prefs_conts pm !! key)).

(** [prefs_manager[key]]. *)
Definition prefs_getitem (key : string) (pm : prefs_manager) : result bidict :=
  match prefs_conts pm !! key with
  | Some b => Ok b
  | None => Err (KeyError key)
  end.

(** [prefs_manager[key] = b]. *)
Definition prefs_setitem (key : string) (b : bidict) (pm : prefs_manager)
    : prefs_manager :=
  PrefsManager (prefs_dir_full pm) (<[key := b]> (prefs_conts pm)).

(** The flush at exit: the structure is written to storage. *)
Definition prefs_flush (pm : prefs_manager) : storage := prefs_conts pm.

(** ** Lemmas *)

(** A structure that nothing was written to flushes what it loaded. *)
Lemma prefs_flush_init prefs_dir disk :
  prefs_flush (prefs_manager_init prefs_dir disk) = disk.
Proof. done. Qed.

Lemma prefs_getitem_setitem key b pm :
  prefs_getitem key (prefs_setitem key b pm) = Ok b.
Proof. unfold prefs_getitem. simpl. by rewrite lookup_insert_eq. Qed.

Lemma prefs_contains_true key pm :
  prefs_contains key pm = true ↔ is_Some (prefs_conts pm !! key).
Proof. apply bool_decide_eq_true. Qed.
