(* ===== verification/EngineSpec.v ===== *)
(** The reconciliation engine of the specification: an abstract model.

    The module [spec] holds what the specification promises of the
    engine, apart from any code: the correspondence table as a set of
    entries (task identifier, calendar identifier) with its five
    operations (sections 3 and 4.2), and the registration protocol as a
    step relation on an abstract state, the table and the two stores
    (section 4.3).  The protocol is symmetric: a task is mirrored by an add
    on the calendar, an event by an add on the task store.  The
    identifiers, the conversions and the adds of the stores are the
    variables of the two sections, one for each direction.

    The theorems of the module are the promises of the specification
    proved of the model: the table stays a bijection, registration never
    removes an entry, leaves every item bound, and is idempotent.

    After the module, [table_of] is the abstraction function from the
    [bidict] of the code to the table of the specification, and the
    lemmas that follow are the data refinement: each operation of
    [Bidict] is the operation of the specification on the abstraction.
    One is not: a write on a bound key overwrites, where the specification
    fails; the guard of [register_items] keeps the code away from it.
    [Refinement] carries the abstraction to the aggregator. *)

From stdpp Require Import base tactics option list strings gmap.
From S2P Require Import Prelude PyString PyValue Bidict.

Module spec.

(** ** The correspondence table *)

Abbreviation table := (gset (hkey * hkey)).

Definition by_task (a : hkey) (T : table) : table := filter (λ p, p.1 = a) T.

Definition by_calendar (c : hkey) (T : table) : table :=
  filter (λ p, p.2 = c) T.

Definition lookup_by_task (a : hkey) (T : table) : option hkey :=
  snd <$> head (elements (by_task a T)).

Definition lookup_by_calendar (c : hkey) (T : table) : option hkey :=
  fst <$> head (elements (by_calendar c T)).

(** [None] is the [DuplicateMappingError] of the specification. *)
Definition insert (a c : hkey) (T : table) : option table :=
  if decide (by_task a T = ∅ ∧ by_calendar c T = ∅)
  then Some ({[ (a, c) ]} ∪ T) else None.

Definition remove_by_task (a : hkey) (T : table) : table :=
  filter (λ p, p.1 ≠ a) T.

Definition remove_by_calendar (c : hkey) (T : table) : table :=
  filter (λ p, p.2 ≠ c) T.

(** At most one entry for a task identifier and for a calendar
    identifier. *)
Definition bijective (T : table) : Prop :=
  ∀ a c a' c', (a, c) ∈ T → (a', c') ∈ T → (a = a' ↔ c = c').

Lemma by_task_empty a T : by_task a T = ∅ ↔ ∀ c, (a, c) ∉ T.
Proof.
  unfold by_task. split.
  - intros Hf c Hin. apply (not_elem_of_empty (C:=table) (a, c)).
    rewrite <- Hf. by apply elem_of_filter.
  - intros Hn. apply set_eq. intros [a' c']. rewrite elem_of_filter. simpl.
    split; [intros [-> Hin]; by destruct (Hn c')|set_solver].
Qed.

Lemma by_calendar_empty c T : by_calendar c T = ∅ ↔ ∀ a, (a, c) ∉ T.
Proof.
  unfold by_calendar. split.
  - intros Hf a Hin. apply (not_elem_of_empty (C:=table) (a, c)).
    rewrite <- Hf. by apply elem_of_filter.
  - intros Hn. apply set_eq. intros [a' c']. rewrite elem_of_filter. simpl.
    split; [intros [-> Hin]; by destruct (Hn a')|set_solver].
Qed.

Lemma insert_Some a c T T' :
  insert a c T = Some T'
  ↔ (∀ c', (a, c') ∉ T) ∧ (∀ a', (a', c) ∉ T) ∧ T' = {[ (a, c) ]} ∪ T.
Proof.
  unfold insert. rewrite <- by_task_empty, <- by_calendar_empty.
  case_decide; naive_solver.
Qed.

Lemma insert_None a c T :
  insert a c T = None ↔ (∃ c', (a, c') ∈ T) ∨ (∃ a', (a', c) ∈ T).
Proof.
  destruct (insert a c T) as [T'|] eqn:Hi.
  - apply insert_Some in Hi as (Ha & Hc & _). naive_solver.
  - split; [intros _|done]. unfold insert in Hi. case_decide as Hd; [done|].
    apply not_and_l in Hd as [Hd|Hd].
    + left. apply set_choose_L in Hd as [[a' c'] [Hp Hin]%elem_of_filter].
      simpl in Hp. subst. eauto.
    + right. apply set_choose_L in Hd as [[a' c'] [Hp Hin]%elem_of_filter].
      simpl in Hp. subst. eauto.
Qed.

Lemma empty_bijective : bijective ∅.
Proof. intros a c a' c' Hin. set_solver. Qed.

Lemma insert_bijective a c T T' :
  bijective T → insert a c T = Some T' → bijective T'.
Proof.
  intros HT (Ha & Hc & ->)%insert_Some a1 c1 a2 c2.
  rewrite !elem_of_union, !elem_of_singleton.
  intros [[= -> ->]|H1] [[= -> ->]|H2]; [done| | |by apply HT].
  - split; intros <-; [by destruct (Ha c2)|by destruct (Hc a2)].
  - split; intros ->; [by destruct (Ha c1)|by destruct (Hc a1)].
Qed.

Lemma remove_by_task_bijective a T : bijective T → bijective (remove_by_task a T).
Proof.
  intros HT a1 c1 a2 c2 [_ H1]%elem_of_filter [_ H2]%elem_of_filter.
  by apply HT.
Qed.

Lemma remove_by_calendar_bijective c T :
  bijective T → bijective (remove_by_calendar c T).
Proof.
  intros HT a1 c1 a2 c2 [_ H1]%elem_of_filter [_ H2]%elem_of_filter.
  by apply HT.
Qed.

(** On a bijection the lookups are the entries. *)
Lemma lookup_by_task_Some a c T :
  bijective T → lookup_by_task a T = Some c ↔ (a, c) ∈ T.
Proof.
  intros HT. unfold lookup_by_task.
  destruct (elements (by_task a T)) as [|[a' c'] l] eqn:He; simpl.
  - apply elements_empty_inv, leibniz_equiv in He.
    split; [done|]. intros Hin. by destruct (proj1 (by_task_empty a T) He c).
  - assert ((a', c') ∈ by_task a T) as [Hp Hin]%elem_of_filter.
    { apply elem_of_elements. rewrite He. left. }
    simpl in Hp. subst a'. split; [by intros [= <-]|].
    intros Hin'. f_equal. by apply (HT a c' a c).
Qed.

Lemma lookup_by_calendar_Some a c T :
  bijective T → lookup_by_calendar c T = Some a ↔ (a, c) ∈ T.
Proof.
  intros HT. unfold lookup_by_calendar.
  destruct (elements (by_calendar c T)) as [|[a' c'] l] eqn:He; simpl.
  - apply elements_empty_inv, leibniz_equiv in He.
    split; [done|]. intros Hin.
    by destruct (proj1 (by_calendar_empty c T) He a).
  - assert ((a', c') ∈ by_calendar c T) as [Hp Hin]%elem_of_filter.
    { apply elem_of_elements. rewrite He. left. }
    simpl in Hp. subst c'. split; [by intros [= <-]|].
    intros Hin'. f_equal. by apply (HT a' c a c).
Qed.

(** ** The registration protocol *)

(** The state of the engine: the table and the two stores. *)
Record state (TW G : Type) : Type := State {
  pairs : table;
  task_store : TW;
  calendar : G
}.
Arguments State {TW G} _ _ _.
Arguments pairs {TW G} _.
Arguments task_store {TW G} _.
Arguments calendar {TW G} _.

Section register_task.
Context {TW G : Type}.
Variables (task_id event_id : item → result hkey).
Variables (to_calendar : item → result item).
Variables (add_event : item → prog G item).
Implicit Types (st : state TW G).

(** One item of the task side: known, and skipped; or mirrored by an add
    on the calendar and bound to the identifier the calendar assigns. *)
Inductive register_task (t : item) : state TW G → state TW G → Prop :=
| task_known a c st :
    task_id t = Ok a → (a, c) ∈ pairs st → register_task t st st
| task_mirrored a e r g c T st :
    task_id t = Ok a → to_calendar t = Ok e →
    add_event e (calendar st) = (Ok r, g) → event_id r = Ok c →
    insert a c (pairs st) = Some T →
    register_task t st (State T (task_store st) g).

(** A task is bound when the table has an entry for its identifier. *)
Definition task_bound (t : item) st : Prop :=
  ∃ a c, task_id t = Ok a ∧ (a, c) ∈ pairs st.

Lemma register_task_grows t st st' :
  register_task t st st' → pairs st ⊆ pairs st'.
Proof.
  destruct 1 as [|? ? ? ? ? ? ? _ _ _ _ (_ & _ & ->)%insert_Some]; [done|].
  simpl. set_solver.
Qed.

Lemma register_task_bound t st st' :
  register_task t st st' → task_bound t st'.
Proof.
  destruct 1 as [a c|a ? ? ? c ? ? ? _ _ _ (_ & _ & ->)%insert_Some];
    exists a, c; split; try done. simpl. set_solver.
Qed.

Lemma register_task_bijective t st st' :
  bijective (pairs st) → register_task t st st' → bijective (pairs st').
Proof. intros HT. destruct 1; [done|]. simpl. by eapply insert_bijective. Qed.

Lemma register_task_store t st st' :
  register_task t st st' → task_store st' = task_store st.
Proof. by destruct 1. Qed.

Lemma task_bound_kept t t' st st' :
  register_task t' st st' → task_bound t st → task_bound t st'.
Proof.
  intros Hstep%register_task_grows (a & c & Ha & Hin). exists a, c. set_solver.
Qed.

(** The promises of the specification on a whole registration. *)
Lemma register_tasks_bijective l st st' :
  steps register_task l st st' → bijective (pairs st) → bijective (pairs st').
Proof.
  apply (steps_invariant register_task (λ st, bijective (pairs st))).
  intros t a b _. apply register_task_bijective.
Qed.

Lemma register_tasks_bound l st st' :
  steps register_task l st st' → Forall (λ t, task_bound t st') l.
Proof.
  induction 1 as [|t l a b c Ht Hl IH]; constructor; [|done].
  apply (steps_invariant register_task (task_bound t) l b c); [|done|].
  - intros t' ? ? _ Hb Hstep. by eapply task_bound_kept.
  - by eapply register_task_bound.
Qed.

Lemma register_tasks_idempotent l st st' :
  steps register_task l st st' → steps register_task l st' st'.
Proof.
  intros Hl%register_tasks_bound.
  apply (steps_skip register_task task_bound); [|done].
  intros t _ (a & c & Ha & Hin). by eapply task_known.
Qed.

End register_task.

(** One item of the calendar: the same, with an add on the task store. *)
Section register_event.
Context {TW G : Type}.
Variables (task_id event_id : item → result hkey).
Variables (to_task : item → result item).
Variables (add_task : item → prog TW item).

Inductive register_event (e : item) : state TW G → state TW G → Prop :=
| event_known a c st :
    event_id e = Ok c → (a, c) ∈ pairs st → register_event e st st
| event_mirrored c t r tw a T st :
    event_id e = Ok c → to_task e = Ok t →
    add_task t (task_store st) = (Ok r, tw) → task_id r = Ok a →
    insert a c (pairs st) = Some T →
    register_event e st (State T tw (calendar st)).

Lemma register_event_calendar e st st' :
  register_event e st st' → calendar st' = calendar st.
Proof. by destruct 1. Qed.

Lemma register_event_bijective e st st' :
  bijective (pairs st) → register_event e st st' → bijective (pairs st').
Proof. intros HT. destruct 1; [done|]. simpl. by eapply insert_bijective. Qed.

End register_event.

End spec.

(** ** The table of the code as the table of the specification *)

(** The abstraction function: the entries of the forward map. *)
Definition table_of (b : bidict) : spec.table := map_to_set pair (fwd b).

Lemma elem_of_table_of b k v : (k, v) ∈ table_of b ↔ fwd b !! k = Some v.
Proof. apply elem_of_map_to_set_pair. Qed.

Lemma table_of_empty : table_of bidict_empty = ∅.
Proof. apply map_to_set_empty. Qed.

Lemma table_of_bijective b : bidict_wf b → spec.bijective (table_of b).
Proof.
  intros Hb a c a' c'. rewrite !elem_of_table_of. intros H1 H2. split.
  - intros <-. congruence.
  - intros <-. by eapply bidict_wf_fwd_inj.
Qed.

(** [b[k]] and [b.inverse[v]] are the two lookups. *)
Lemma table_of_getitem b k :
  bidict_wf b → bidict_getitem b k = spec.lookup_by_task k (table_of b).
Proof.
  intros Hb. unfold bidict_getitem.
  destruct (fwd b !! k) as [v|] eqn:Hk.
  - symmetry. by apply spec.lookup_by_task_Some, elem_of_table_of;
      [apply table_of_bijective|].
  - destruct (spec.lookup_by_task k (table_of b)) as [v|] eqn:Hl; [|done].
    apply spec.lookup_by_task_Some, elem_of_table_of in Hl;
      [congruence|by apply table_of_bijective].
Qed.

Lemma table_of_getitem_inverse b v :
  bidict_wf b →
  bidict_getitem (inverse b) v = spec.lookup_by_calendar v (table_of b).
Proof.
  intros Hb. unfold bidict_getitem. simpl.
  destruct (bwd b !! v) as [k|] eqn:Hv.
  - symmetry. apply spec.lookup_by_calendar_Some; [by apply table_of_bijective|].
    by apply elem_of_table_of, Hb.
  - destruct (spec.lookup_by_calendar v (table_of b)) as [k|] eqn:Hl; [|done].
    apply spec.lookup_by_calendar_Some, elem_of_table_of, Hb in Hl;
      [congruence|by apply table_of_bijective].
Qed.

(** [b[k] = v] on a key that is not bound, as under the guard of
    [register_items], is the insertion of the specification: both return
    the table with the new entry, or both fail. *)
Lemma table_of_setitem b k v :
  bidict_wf b → fwd b !! k = None →
  match spec.insert k v (table_of b) with
  | Some T => ∃ b', bidict_setitem k v b = Ok b' ∧ table_of b' = T
  | None => bidict_setitem k v b = Err ValueDuplicationError
  end.
Proof.
  intros Hb Hk. destruct (spec.insert k v (table_of b)) as [T|] eqn:Hi.
  - apply spec.insert_Some in Hi as (_ & Hv & ->).
    assert (bwd b !! v = None) as Hv'.
    { apply eq_None_not_Some. intros [k' Hk']. apply Hb in Hk'.
      by apply (Hv k'), elem_of_table_of. }
    rewrite (bidict_setitem_fresh k v b Hk Hv'). eexists. split; [done|].
    unfold table_of. simpl. by rewrite map_to_set_insert_L.
  - apply spec.insert_None in Hi as [[v' Hin]|[k' Hin]];
      apply elem_of_table_of in Hin; [congruence|].
    apply Hb in Hin. by eapply bidict_setitem_dup_value.
Qed.

(** On a bound key [b[k] = v] overwrites, where the insertion of the
    specification fails. *)
Lemma table_of_setitem_bound b k v v' :
  fwd b !! k = Some v' → bwd b !! v = None →
  spec.insert k v (table_of b) = None
  ∧ ∃ b', bidict_setitem k v b = Ok b' ∧ fwd b' !! k = Some v.
Proof.
  intros Hk Hv. split.
  - apply spec.insert_None. left. exists v'. by apply elem_of_table_of.
  - unfold bidict_setitem. rewrite Hk, Hv. eexists. split; [done|].
    apply lookup_insert_eq.
Qed.

(** [del b[k]] removes the entry of the task. *)
Lemma table_of_delitem `{UuidLib, DateTimeLib} b k b' :
  bidict_delitem k b = Ok b' →
  table_of b' = spec.remove_by_task k (table_of b).
Proof.
  intros Hd. apply set_eq. intros [a c].
  unfold spec.remove_by_task. rewrite elem_of_filter, !elem_of_table_of.
  rewrite (bidict_delitem_lookup k b b' a Hd). simpl.
  case_decide; naive_solver.
Qed.
