(* ===== verification/Sides.v ===== *)
(** The two sides of the synchroniser.

    - [TaskWarriorSide] ([src/taskw_gcal_sync/TaskWarriorSide.py]) is
      modelled in full: its constructor, [get_items], [update_item] and
      [add_item], over the [taskw.TaskWarrior] client, which is the
      interface [TaskwClient].
    - [GCalSide] and the base class [GenericSide] are not among the
      sources: [SideAdapter] is the interface of a side, the operations the
      aggregator and the script call on it, each a [prog] on the side's own
      state; [GCalSideLib] adds the constructor of the calendar side, and
      [GenericSide] holds the methods that [TaskWarriorSide] inherits.

    A side object is a state; a method is a [prog] on it.  An exception
    leaves the state as the method had changed it so far.  The calls of
    [self.logger], an attribute that the base class sets, are left out,
    but for the expressions they evaluate, which can raise. *)

From stdpp Require Import base tactics option list strings gmap.
From S2P Require Import Prelude PyString PyValue.

#[local] Open Scope prog_scope.

(** ** Interfaces *)

(** A side as the aggregator uses it. *)
Class SideAdapter (S : Type) : Type := {
  side_start : prog S unit;
  side_add_item : item → prog S item;
  (** [get_all_items(order_by=..., use_ascending_order=...)] *)
  side_get_all_items : option string → bool → prog S (list item);
  side_delete_item : hkey → prog S unit;
}.

(** [GenericSide], the base class of the sides: the methods that
    [TaskWarriorSide] inherits from it. *)
Class GenericSide (S : Type) : Type := {
  base_start : prog S unit;
  base_get_all_items : option string → bool → prog S (list item);
  base_delete_item : hkey → prog S unit;
}.

(** [GCalSide]: its constructor, from its keyword arguments, and the
    adapter. *)
Class GCalSideLib (G : Type) : Type := {
  gcal_side_init : gmap string value → result G;
  gcal_side_adapter :: SideAdapter G;
}.

(** [taskw.TaskWarrior]: [filter_tasks(filter_dict={'tags': tags})] and
    [task_add(description=d, **fields)]. *)
Class TaskwClient (C : Type) : Type := {
  filter_tasks : value → prog C (list item);
  task_add : value → item → prog C item;
}.

(** ** TaskWarriorSide *)

Record tw_side (C : Type) : Type := TwSide {
  tw_config : gmap string value;
  tw : C;
}.
Arguments TwSide {C} _ _.
Arguments tw_config {C} _.
Arguments tw {C} _.

(** [isinstance(v, str)] *)
Definition is_str (v : value) : bool :=
  match v with VStr _ => true | _ => false end.

(** [len(v)] *)
Definition py_len (v : value) : result nat :=
  match v with
  | VStr s => Ok (String.length s)
  | VList l => Ok (length l)
  | VDict d => Ok (size d)
  | VNone | VInt _ | VUuid _ | VTime _ => Err TypeError
  end.

(** [v[0:n]].  A dict takes the slice for a key, which the interpreters
    of the time of the code reject as unhashable ([TypeError]); since
    Python 3.12 a slice is hashable and the lookup raises [KeyError]
    instead. *)
Definition py_slice_to (v : value) (n : nat) : result value :=
  match v with
  | VStr s => Ok (VStr (String.substring 0 n s))
  | VList l => Ok (VList (take n l))
  | VDict _ | VNone | VInt _ | VUuid _ | VTime _ => Err TypeError
  end.

Section taskwarrior_side.
Context {C : Type} `{TaskwClient C}.

(** The config of lines 10-13: the keyword arguments over the default
    empty [tags]. *)
Definition tw_side_config (kargs : gmap string value) : gmap string value :=
  kargs ∪ {[ "tags" := VStr "" ]}.

(** The constructor, given its keyword arguments and the client that
    [TaskWarrior(marshal=True)] returns (line 24).  The constructor of the
    base class (line 8) and that of the client are the libraries': they
    are taken to return, and the client they leave is the argument
    [client]. *)
Definition tw_side_init (kargs : gmap string value) (client : C)
    : result (tw_side C) :=
  let config := tw_side_config kargs in
  bind (getitem config "tags") (λ tags,
    if negb (is_str tags) then Err RuntimeError
    else Ok (TwSide config client)).

(** Running a client call on the side's client. *)
Definition on_client {A} (m : prog C A) : prog (tw_side C) A :=
  λ s, let '(r, c) := m (tw s) in (r, TwSide (tw_config s) c).

Definition get_items : prog (tw_side C) (list item) :=
  s <- pget ;;
  tags <- plift (getitem (tw_config s) "tags") ;;
  on_client (filter_tasks tags).

Definition update_item (it : item) : prog (tw_side C) unit :=
  praise NotImplementedError.

Definition add_item (it : item) : prog (tw_side C) item :=
  plift (assert_ (has_key it "description")) ;;
  d <- plift (getitem it "desscription") ;;
  n <- plift (py_len d) ;;
  let len_print := Nat.min 10 n in
  description <- plift (getitem it "description") ;;
  plift (py_slice_to description len_print) ;;
  let rest := delete "description" it in
  on_client (task_add description rest).

(** The task side as a side: [add_item] is the method of the class, the
    others are inherited. *)
#[export] Instance tw_side_adapter `{GenericSide (tw_side C)}
    : SideAdapter (tw_side C) := {|
  side_start := base_start;
  side_add_item := add_item;
  side_get_all_items := base_get_all_items;
  side_delete_item := base_delete_item;
|}.

End taskwarrior_side.

(** ** Lemmas *)

Section taskwarrior_side_lemmas.
Context {C : Type} `{TaskwClient C}.
Implicit Types (s : tw_side C) (it : item) (client : C).

Lemma tw_side_config_tags kargs :
  tw_side_config kargs !! "tags" = Some (default (VStr "") (kargs !! "tags")).
Proof.
  unfold tw_side_config. destruct (kargs !! "tags") as [v|] eqn:Hk; simpl.
  - by apply lookup_union_Some_l.
  - rewrite lookup_union_r by done. apply lookup_singleton_eq.
Qed.

Lemma tw_side_init_str kargs client :
  is_str (default (VStr "") (kargs !! "tags")) = true →
  tw_side_init kargs client = Ok (TwSide (tw_side_config kargs) client).
Proof.
  intros Hs. unfold tw_side_init.
  rewrite (getitem_Some _ _ _ (tw_side_config_tags kargs)). simpl. by rewrite Hs.
Qed.

Lemma tw_side_init_not_str kargs client :
  is_str (default (VStr "") (kargs !! "tags")) = false →
  tw_side_init kargs client = Err RuntimeError.
Proof.
  intros Hs. unfold tw_side_init.
  rewrite (getitem_Some _ _ _ (tw_side_config_tags kargs)). simpl. by rewrite Hs.
Qed.

Lemma add_item_no_description it s :
  it !! "description" = None → add_item it s = (Err AssertionError, s).
Proof.
  intros Hd. unfold add_item, pbind, plift. by rewrite (has_key_None _ _ Hd).
Qed.

Lemma on_client_run {A} (m : prog C A) s :
  on_client m s = ((m (tw s)).1, TwSide (tw_config s) (m (tw s)).2).
Proof. unfold on_client. by destruct (m (tw s)). Qed.

(** ** Properties *)

(** C17. The constructor of the task side accepts a single tag in string
    form only: it returns the side with the keyword arguments over the
    default empty [tags] when [tags] is a string, and raises [RuntimeError]
    when it is anything else, a list of tags included. *)
Theorem tw_side_init_tags kargs client :
  tw_side_init kargs client =
    if is_str (default (VStr "") (kargs !! "tags"))
    then Ok (TwSide (tw_side_config kargs) client)
    else Err RuntimeError.
Proof.
  destruct (is_str _) eqn:Hs;
    [by apply tw_side_init_str|by apply tw_side_init_not_str].
Qed.

(** [add_item] reads the misspelled key ['desscription']: an item with a
    [description] and without that key raises [KeyError] on it, and the
    client is not called. *)
Lemma add_item_key_error it s d :
  it !! "description" = Some d → it !! "desscription" = None →
  add_item it s = (Err (KeyError "desscription"), s).
Proof.
  intros Hd Hm. unfold add_item, pbind, plift.
  by rewrite (has_key_Some _ _ _ Hd), (getitem_None _ _ Hm).
Qed.

(** [add_item] on an item that has both keys: the client's [task_add] is
    called with the description and the item without it, and its result
    is returned; it raises [TypeError] before the call when the
    description cannot be sliced. *)
Lemma add_item_both_keys it s d m n :
  it !! "description" = Some d → it !! "desscription" = Some m →
  py_len m = Ok n →
  add_item it s =
    match py_slice_to d (Nat.min 10 n) with
    | Ok _ => on_client (task_add d (delete "description" it)) s
    | Err e => (Err e, s)
    end.
Proof.
  intros Hd Hm Hn. unfold add_item, pbind, plift.
  rewrite (has_key_Some _ _ _ Hd), (getitem_Some _ _ _ Hm). simpl.
  rewrite Hn, (getitem_Some _ _ _ Hd). simpl.
  by destruct (py_slice_to d _).
Qed.

(** C18. [add_item] on every item.  Without a [description] the assertion
    fails; with one, the length of the value under the misspelled key
    ['desscription'] is taken, so an item without that key raises
    [KeyError], and a value without a length there, or a description that
    cannot be sliced, raises [TypeError]; in each of these cases the
    client is not called.  Otherwise the client's [task_add] is called
    with the description and the item without it, and its result is
    returned.  An item as the docstring asks for, with a description and
    the fields of a task, is never added. *)
Theorem add_item_outcome it s :
  add_item it s =
    match it !! "description", it !! "desscription" with
    | None, _ => (Err AssertionError, s)
    | Some _, None => (Err (KeyError "desscription"), s)
    | Some d, Some m =>
        match py_len m with
        | Err e => (Err e, s)
        | Ok n =>
            match py_slice_to d (Nat.min 10 n) with
            | Ok _ => on_client (task_add d (delete "description" it)) s
            | Err e => (Err e, s)
            end
        end
    end.
Proof.
  destruct (it !! "description") as [d|] eqn:Hd;
    [|by apply add_item_no_description].
  destruct (it !! "desscription") as [m|] eqn:Hm;
    [|by eapply add_item_key_error].
  destruct (py_len m) as [n|e] eqn:Hn; [by eapply add_item_both_keys|].
  unfold add_item, pbind, plift.
  rewrite (has_key_Some _ _ _ Hd), (getitem_Some _ _ _ Hm). simpl.
  by rewrite Hn.
Qed.

Lemma tw_side_init_Ok_inv kargs client s :
  tw_side_init kargs client = Ok s →
  s = TwSide (tw_side_config kargs) client
  ∧ ∃ t, tw_side_config kargs !! "tags" = Some (VStr t).
Proof.
  unfold tw_side_init. rewrite (getitem_Some _ _ _ (tw_side_config_tags kargs)).
  simpl. rewrite tw_side_config_tags.
  destruct (default _ _) as [| |t| | | |]; try done. intros [= <-]. eauto.
Qed.

(** No method of the task side changes its config: after [get_items],
    [add_item] or [update_item], on either outcome, the config is the one
    the constructor built. *)
Lemma tw_side_methods_keep_config it s :
  tw_config (get_items s).2 = tw_config s
  ∧ tw_config (add_item it s).2 = tw_config s
  ∧ tw_config (update_item it s).2 = tw_config s.
Proof.
  split_and!; [| |done].
  - unfold get_items, pbind, pget, plift. simpl.
    destruct (getitem _ _); [|done]. by rewrite on_client_run.
  - unfold add_item, pbind, plift. simpl.
    repeat (match goal with |- context [match ?x with _ => _ end] =>
      destruct x; simpl; try done end).
    by rewrite on_client_run.
Qed.

(** [get_items] on a constructed side: the tag of the config is a string,
    and [get_items] is the client's [filter_tasks] for that tag; the
    subscription of the config cannot raise. *)
Lemma get_items_constructed kargs client s :
  tw_side_init kargs client = Ok s →
  ∃ t, tw_config s !! "tags" = Some (VStr t)
    ∧ get_items s = on_client (filter_tasks (VStr t)) s.
Proof.
  intros [-> [t Ht]]%tw_side_init_Ok_inv. exists t. split; [done|].
  unfold get_items, pbind, pget, plift. simpl.
  by rewrite (getitem_Some _ _ _ Ht).
Qed.

End taskwarrior_side_lemmas.

(** ** Witnesses *)

(** A client with no task, which stores nothing. *)
Definition null_client : TaskwClient unit := {|
  filter_tasks := λ _, pret [];
  task_add := λ d fields, pret (<["description" := d]> fields);
|}.

Lemma add_item_key_error_witness :
  add_item (H := null_client) {[ "description" := VStr "Buy milk" ]}
    (TwSide ∅ tt)
  = (Err (KeyError "desscription"), TwSide ∅ tt).
Proof.
  exact (add_item_key_error (H := null_client)
    {[ "description" := VStr "Buy milk" ]} (TwSide ∅ tt) (VStr "Buy milk")
    eq_refl eq_refl).
Defined.

Lemma get_items_constructed_witness :
  ∃ t, tw_config (TwSide (tw_side_config {[ "tags" := VStr "remindme" ]}) tt)
         !! "tags" = Some (VStr t)
    ∧ get_items (H := null_client)
        (TwSide (tw_side_config {[ "tags" := VStr "remindme" ]}) tt)
      = on_client (@filter_tasks unit null_client (VStr t))
          (TwSide (tw_side_config {[ "tags" := VStr "remindme" ]}) tt).
Proof.
  exact (get_items_constructed (H := null_client)
    {[ "tags" := VStr "remindme" ]} tt _ eq_refl).
Defined.

Lemma add_item_both_keys_witness :
  add_item (H := null_client)
    (<["desscription" := VStr "Buy"]> {[ "description" := VStr "Buy milk" ]})
    (TwSide ∅ tt)
  = match py_slice_to (VStr "Buy milk") (Nat.min 10 3) with
    | Ok _ =>
        on_client
          (@task_add unit null_client (VStr "Buy milk")
            (delete "description"
              (<["desscription" := VStr "Buy"]>
                {[ "description" := VStr "Buy milk" ]}))) (TwSide ∅ tt)
    | Err e => (Err e, TwSide ∅ tt)
    end.
Proof.
  exact (add_item_both_keys (H := null_client)
    (<["desscription" := VStr "Buy"]> {[ "description" := VStr "Buy milk" ]})
    (TwSide ∅ tt) (VStr "Buy milk") (VStr "Buy") 3 eq_refl eq_refl eq_refl).
Defined.
