(* ===== verification/Fakes.v ===== *)
(** In-memory sides, on which the aggregator can be run:

    - [fake_gcal]: a calendar as the list of its events; [add_item] stores
      the event under a fresh [id] and [htmlLink] and returns it;
    - [fake_taskw]: a task client as the list of its tasks; [task_add]
      stores the task under a fresh [id] and [uuid].

    They stand for the Google Calendar client and the [taskw] client, which
    are outside the sources.  No theorem depends on them: they are the
    concrete inputs of the witnesses. *)

From stdpp Require Import base tactics option list strings gmap pretty.
From S2P Require Import Prelude PyString PyValue Codecs Sides.

(** ** Calendar *)

Definition fake_gcal : Type := list item.

Definition fake_link (n : nat) : string := "https://calendar.example/event/" +:+ pretty n.

Definition fake_event (n : nat) (it : item) : item :=
  <["htmlLink" := VStr (fake_link n)]> (<["id" := VStr (pretty n)]> it).

Definition fake_gcal_add (it : item) : prog fake_gcal item :=
  λ g, let ev := fake_event (length g) it in (Ok ev, g ++ [ev]).

Definition fake_gcal_get_all (order_by : option string) (ascending : bool)
    : prog fake_gcal (list item) :=
  λ g, (Ok g, g).

(** Deleting by [htmlLink]. *)
Definition fake_gcal_delete (k : hkey) : prog fake_gcal unit :=
  λ g, (Ok tt, filter (λ ev, ev !! "htmlLink" ≠ Some (of_hkey k)) g).

#[export] Instance fake_gcal_adapter : SideAdapter fake_gcal := {|
  side_start := pret tt;
  side_add_item := fake_gcal_add;
  side_get_all_items := fake_gcal_get_all;
  side_delete_item := fake_gcal_delete;
|}.

#[export] Instance fake_gcal_lib : GCalSideLib fake_gcal := {|
  gcal_side_init := λ _, Ok [];
  gcal_side_adapter := fake_gcal_adapter;
|}.

(** ** Task client *)

Definition fake_taskw : Type := list item.

Definition fake_task (n : nat) (description : value) (fields : item) : item :=
  <["uuid" := VUuid (N.of_nat n)]>
  (<["id" := VInt (Z.of_nat n)]>
  (<["description" := description]> fields)).

Definition fake_task_add (description : value) (fields : item)
    : prog fake_taskw item :=
  λ c, let t := fake_task (length c) description fields in (Ok t, c ++ [t]).

(** Tasks whose [tags] hold the tag asked for. *)
Definition has_tag (tags : value) (t : item) : bool :=
  match t !! "tags" with
  | Some (VList l) => bool_decide (tags ∈ l)
  | _ => false
  end.

Definition fake_filter_tasks (tags : value) : prog fake_taskw (list item) :=
  λ c, (Ok (filter (λ t, has_tag tags t = true) c), c).

#[export] Instance fake_taskw_client : TaskwClient fake_taskw := {|
  filter_tasks := fake_filter_tasks;
  task_add := fake_task_add;
|}.

(** The inherited methods of the task side: listing is [get_items],
    deleting removes the task with the given uuid. *)
Definition task_id_key (t : item) : option hkey :=
  match t !! "uuid" with
  | Some u => match py_str u with Ok s => Some (HStr s) | Err _ => None end
  | None => None
  end.

Definition fake_tw_delete (k : hkey) : prog (tw_side fake_taskw) unit :=
  λ s, (Ok tt,
        TwSide (tw_config s) (filter (λ t, task_id_key t ≠ Some k) (tw s))).

#[export] Instance fake_generic_side : GenericSide (tw_side fake_taskw) := {|
  base_start := pret tt;
  base_get_all_items := λ _ _, get_items;
  base_delete_item := fake_tw_delete;
|}.
