(* ===== verification/Aggregator.v ===== *)
(** The aggregator: class [TWGCalAggregator]
    ([src/taskw_gcal_sync/TWGCalAggregator.py], lines 20-116 and 269-288).

    The object's state is the record [aggregator]: its [config], the two
    sides and the correspondence table [tw_gcal_ids].  The constructor is
    [aggregator_init], a program on the preferences manager of the
    process: it makes the manager (line 34) and, when no later line
    raises, takes the table from it (lines 57-59).  [register_items] is
    the registration loop, whose body is [register_item].  The table is read and written through
    [registered_view]: the bidict itself when task items are registered, its
    inverse view when calendar items are.

    The calendar side is any [SideAdapter]; the task side is the
    [tw_side] of [Sides].  As in the code, [register_items] adds through
    the calendar side whichever kind of item it registers.

    For the proofs, the outcomes of the loop body are listed as the
    relation [register_step], one rule per way out of the body, which is
    shown to be the graph of [register_item]: the relation models no code
    of its own, it is the case analysis on which the lemmas about the body
    go by inversion.  The invariants of the loop are proved once, for any
    predicate kept by the two ways in which the body changes the state
    ([kept_by_add], [kept_by_write]).  The witnesses at the end run the
    aggregator over the in-memory sides of [Fakes]. *)

From stdpp Require Import base tactics option list strings gmap.
From S2P Require Import Prelude PyString PyValue Codecs Converter RoundTrip.
From S2P Require Import ConverterSpec Bidict PrefsManager Sides Fakes.

#[local] Open Scope prog_scope.

Record aggregator (C G : Type) : Type := Aggregator {
  config : gmap string string;
  agg_tw_side : tw_side C;
  agg_gcal_side : G;
  tw_gcal_ids : bidict;
}.
Arguments Aggregator {C G} _ _ _ _.
Arguments config {C G} _.
Arguments agg_tw_side {C G} _.
Arguments agg_gcal_side {C G} _.
Arguments tw_gcal_ids {C G} _.

(** The config of lines 37-39. *)
Definition default_config : gmap string string :=
  <["gcal_id_key" := "htmlLink"]> {[ "tw_id_key" := "uuid" ]}.

Definition set_gcal_side {C G} (g : G) (s : aggregator C G) : aggregator C G :=
  Aggregator (config s) (agg_tw_side s) g (tw_gcal_ids s).

Definition set_tw_gcal_ids {C G} (b : bidict) (s : aggregator C G)
    : aggregator C G :=
  Aggregator (config s) (agg_tw_side s) (agg_gcal_side s) b.

(** [self.tw_gcal_ids if item_type == 'tw' else self.tw_gcal_ids.inverse]:
    both directions of the function are the same swap. *)
Definition registered_view (item_type : string) (b : bidict) : bidict :=
  if decide (item_type = "tw") then b else inverse b.

Definition opposite_type (item_type : string) : string :=
  if decide (item_type = "tw") then "gcal" else "tw".

Section aggregator.
Context {C G : Type} `{TaskwClient C, GCalSideLib G} `{UuidLib, DateTimeLib, ContainerLib}.

(** [super(TWGCalAggregator, self, **kargs)], line 28: [super] takes no
    keyword arguments. *)
Definition super_kargs (kargs : gmap string value) : result unit :=
  if negb (bool_decide (kargs = ∅)) then Err TypeError else Ok tt.

(** Lines 57-58: the entry of the table, created empty on first use. *)
Definition prefs_table (pm : prefs_manager) : prefs_manager :=
  if negb (prefs_contains "tw_gcal_ids" pm)
  then prefs_setitem "tw_gcal_ids" bidict_empty pm
  else pm.

(** [TWGCalAggregator(tw_config, gcal_config, ...)], as a program on the
    preferences manager of the process, which is [None] until line 34
    makes it and stays when a later line raises.  [kargs] are the further
    keyword arguments; they are empty once line 28 has returned, so line
    40 adds nothing to the config.  [client] is the task client that the
    task side creates, [prefs_dir] the directory that [PrefsManager] takes
    for the application and [disk] the storage it loads.  Line 61
    registers [cleanup] for the exit of the process: it is the last line,
    so the cleanup of every aggregator that was built runs at exit
    ([process_exit] of [Prefs]). *)
Definition aggregator_init (tw_config gcal_config : value)
    (kargs : gmap string value) (client : C) (prefs_dir : string)
    (disk : storage) : prog (option prefs_manager) (aggregator C G) :=
  plift (super_kargs kargs) ;;
  plift (assert_ (is_dict tw_config)) ;;
  plift (assert_ (is_dict gcal_config)) ;;
  let prefs_manager := prefs_manager_init prefs_dir disk in
  pput (Some prefs_manager) ;;
  let config := default_config in
  let tw_config_new := dict_items tw_config in
  tw_side <- plift (tw_side_init tw_config_new client) ;;
  let gcal_config_new :=
    dict_items tw_config
    ∪ {[ "credentials_dir" := VStr (prefs_dir_full prefs_manager) ]} in
  gcal_side <- plift (gcal_side_init gcal_config_new) ;;
  let prefs_manager := prefs_table prefs_manager in
  pput (Some prefs_manager) ;;
  tw_gcal_ids <- plift (prefs_getitem "tw_gcal_ids" prefs_manager) ;;
  pret (Aggregator config tw_side gcal_side tw_gcal_ids).

(** Running a call on the calendar side. *)
Definition on_gcal {A} (m : prog G A) : prog (aggregator C G) A :=
  λ s, let '(r, g) := m (agg_gcal_side s) in (r, set_gcal_side g s).

(** [convert_fun] of lines 92-94. *)
Definition convert_fun (item_type : string) : item → result item :=
  if decide (item_type = "tw") then convert_tw_to_gcal else convert_gcal_to_tw.

(** [str(item[type_key])], line 101, as a key of the table. *)
Definition item_id (type_key : string) (it : item) : result hkey :=
  bind (getitem it type_key) (λ v, bind (py_str v) (λ s, Ok (HStr s))).

(** The body of the loop of lines 100-116. *)
Definition register_item (item_type type_key opposite_type_key : string)
    (it : item) : prog (aggregator C G) unit :=
  v <- plift (getitem it type_key) ;;
  _id <- plift (py_str v) ;;
  s <- pget ;;
  let registered_ids := registered_view item_type (tw_gcal_ids s) in
  if negb (bidict_has_key registered_ids (HStr _id)) then
    item_converted <- plift (convert_fun item_type it) ;;
    item_registered <- on_gcal (side_add_item item_converted) ;;
    r <- plift (getitem item_registered opposite_type_key) ;;
    r <- plift (to_hkey r) ;;
    s <- pget ;;
    let registered_ids := registered_view item_type (tw_gcal_ids s) in
    ids <- plift (bidict_setitem (HStr _id) r registered_ids) ;;
    pput (set_tw_gcal_ids (registered_view item_type ids) s)
  else pret tt.

Definition register_items (items : list item) (item_type : string)
    : prog (aggregator C G) unit :=
  plift (assert_ (bool_decide (item_type ∈ ["tw"; "gcal"]))) ;;
  s <- pget ;;
  type_key <- plift (getitem (config s) (item_type +:+ "_id_key")) ;;
  opposite_type_key <-
    plift (getitem (config s) (opposite_type item_type +:+ "_id_key")) ;;
  pfor items (register_item item_type type_key opposite_type_key).

(** [find_in_tw] and [find_in_gcal]: bodies [pass], so they return
    [None]. *)
Definition find_in_tw (gcal_item : item) : prog (aggregator C G) value :=
  pret VNone.

Definition find_in_gcal (tw_item : item) : prog (aggregator C G) value :=
  pret VNone.

(** [cleanup]: body [pass]. *)
Definition cleanup : prog (aggregator C G) unit := pret tt.

(** [__enter__] returns the aggregator itself: the name bound by [as] is
    the object. *)
Definition __enter__ : prog (aggregator C G) unit := pret tt.

(** [__exit__] calls [cleanup] and returns [None], so an exception of the
    body of the [with] statement is raised again after it. *)
Definition __exit__ : prog (aggregator C G) unit := cleanup.

(** Running a call on the task side. *)
Definition on_tw {A} (m : prog (tw_side C) A) : prog (aggregator C G) A :=
  λ s, let '(r, t) := m (agg_tw_side s) in
       (r, Aggregator (config s) t (agg_gcal_side s) (tw_gcal_ids s)).

(** [start]: the task side first, then the calendar side. *)
Definition start `{GenericSide (tw_side C)} : prog (aggregator C G) unit :=
  on_tw side_start ;; on_gcal side_start.

(** ** The outcomes of the loop body, as a relation

    The two relations below are derived from [register_item] and stand for
    no further code: they name the ways out of the body, so that proofs
    about it go by inversion. *)

(** What follows the remote add: its exception, or the write of the new
    pair in the table. *)
Inductive record_step (ty otk : string) (id : string)
    : result item → aggregator C G → result unit → aggregator C G → Prop :=
  | record_add_fails e s :
      record_step ty otk id (Err e) s (Err e) s
  | record_no_id registered s :
      registered !! otk = None →
      record_step ty otk id (Ok registered) s (Err (KeyError otk)) s
  | record_unhashable registered w e s :
      registered !! otk = Some w → to_hkey w = Err e →
      record_step ty otk id (Ok registered) s (Err e) s
  | record_refused registered w h e s :
      registered !! otk = Some w → to_hkey w = Ok h →
      bidict_setitem (HStr id) h (registered_view ty (tw_gcal_ids s)) = Err e →
      record_step ty otk id (Ok registered) s (Err e) s
  | record_written registered w h ids s :
      registered !! otk = Some w → to_hkey w = Ok h →
      bidict_setitem (HStr id) h (registered_view ty (tw_gcal_ids s)) = Ok ids →
      record_step ty otk id (Ok registered) s (Ok tt)
        (set_tw_gcal_ids (registered_view ty ids) s).

(** [register_step ty tk otk it s r s'] holds when one iteration of the
    loop, on item [it] and from state [s], ends with result [r] in state
    [s'].  There is one rule per way out of the body: the skip of a
    registered item, the registration of a new one, and the exceptions in
    the order in which the body can raise them.  Once the remote add has
    been called the calendar side is the one it left, also when a later
    step raises. *)
Inductive register_step (ty tk otk : string) (it : item) (s : aggregator C G)
    : result unit → aggregator C G → Prop :=
  | step_no_id :
      it !! tk = None →
      register_step ty tk otk it s (Err (KeyError tk)) s
  | step_skip v id :
      it !! tk = Some v → py_str v = Ok id →
      bidict_has_key (registered_view ty (tw_gcal_ids s)) (HStr id) = true →
      register_step ty tk otk it s (Ok tt) s
  | step_convert_fails v id e :
      it !! tk = Some v → py_str v = Ok id →
      bidict_has_key (registered_view ty (tw_gcal_ids s)) (HStr id) = false →
      convert_fun ty it = Err e →
      register_step ty tk otk it s (Err e) s
  | step_added v id c r g (o : result unit) s' :
      it !! tk = Some v → py_str v = Ok id →
      bidict_has_key (registered_view ty (tw_gcal_ids s)) (HStr id) = false →
      convert_fun ty it = Ok c →
      side_add_item c (agg_gcal_side s) = (r, g) →
      record_step ty otk id r (set_gcal_side g s) o s' →
      register_step ty tk otk it s o s'.

(** An item is registered in a state when its identifier is a key of the
    view of the table that its kind reads. *)
Definition registered (ty tk : string) (it : item) (s : aggregator C G) : Prop :=
  ∃ v id, it !! tk = Some v ∧ py_str v = Ok id ∧
    bidict_has_key (registered_view ty (tw_gcal_ids s)) (HStr id) = true.

End aggregator.

(** ** The views of the table *)

Lemma registered_view_wf ty b : bidict_wf b → bidict_wf (registered_view ty b).
Proof. unfold registered_view. case_decide; auto with py. Qed.

Lemma registered_view_tw b : registered_view "tw" b = b.
Proof. done. Qed.

Lemma registered_view_gcal b : registered_view "gcal" b = inverse b.
Proof. done. Qed.

Lemma registered_view_involutive ty b :
  registered_view ty (registered_view ty b) = b.
Proof. unfold registered_view. case_decide; [done|apply inverse_involutive]. Qed.

#[export] Hint Resolve registered_view_wf : py.

(** ** The loop body *)

Section register_item_lemmas.
Context {C G : Type} `{TaskwClient C, GCalSideLib G} `{UuidLib, DateTimeLib, ContainerLib}.
Implicit Types (s : aggregator C G) (it : item) (ty tk otk : string).

(** The part of the body after the remote add, as a function of what the
    add returned. *)
Lemma record_step_total ty otk id r s :
  ∃ o s', record_step ty otk id r s o s'.
Proof.
  destruct r as [reg|e]; [|eauto using record_step].
  destruct (reg !! otk) as [w|] eqn:Hw; [|eauto using record_step].
  destruct (to_hkey w) as [h|e] eqn:Hh; [|eauto using record_step].
  destruct (bidict_setitem (HStr id) h (registered_view ty (tw_gcal_ids s)))
    eqn:Hset; eauto using record_step.
Qed.

Lemma record_step_run ty tk otk it s v id c r g o s' :
  it !! tk = Some v → py_str v = Ok id →
  bidict_has_key (registered_view ty (tw_gcal_ids s)) (HStr id) = false →
  convert_fun ty it = Ok c →
  side_add_item c (agg_gcal_side s) = (r, g) →
  record_step ty otk id r (set_gcal_side g s) o s' →
  register_item ty tk otk it s = (o, s').
Proof.
  intros Hv Hid Hk Hc Hadd Hrec.
  unfold register_item, pbind, plift, pget, pput, on_gcal.
  rewrite (getitem_Some _ _ _ Hv), Hid, Hk, Hc. simpl. rewrite Hadd. simpl.
  inversion Hrec as [| ? ? Hw | ? ? ? ? Hw Hh | ? ? ? ? ? Hw Hh Hset
    | ? ? ? ? ? Hw Hh Hset]; subst; simpl in *;
    rewrite ?(getitem_None _ _ Hw), ?(getitem_Some _ _ _ Hw), ?Hh; simpl;
    rewrite ?Hset; done.
Qed.

(** The step relation is the graph of the loop body. *)
Lemma register_step_run ty tk otk it s o s' :
  register_step ty tk otk it s o s' → register_item ty tk otk it s = (o, s').
Proof.
  destruct 1 as [Hv | ? ? Hv Hid Hk | ? ? ? Hv Hid Hk Hc
    | ? ? ? ? ? ? ? Hv Hid Hk Hc Hadd Hrec]; [..|by eapply record_step_run];
    unfold register_item, pbind, plift, pget;
    rewrite ?(getitem_None _ _ Hv), ?(getitem_Some _ _ _ Hv); simpl;
    rewrite ?Hid; simpl; rewrite ?Hk; simpl; rewrite ?Hc; done.
Qed.

Lemma register_step_total ty tk otk it s :
  ∃ o s', register_step ty tk otk it s o s'.
Proof.
  destruct (it !! tk) as [v|] eqn:Hv; [|eauto using register_step].
  destruct (py_str_total v) as [id Hid].
  destruct (bidict_has_key (registered_view ty (tw_gcal_ids s)) (HStr id))
    eqn:Hk; [eauto using register_step|].
  destruct (convert_fun ty it) as [c|e] eqn:Hc; [|eauto using register_step].
  destruct (side_add_item c (agg_gcal_side s)) as [r g] eqn:Hadd.
  destruct (record_step_total ty otk id r (set_gcal_side g s)) as (o & s' & Hr).
  eauto using register_step.
Qed.

Lemma register_item_step ty tk otk it s :
  register_step ty tk otk it s
    (register_item ty tk otk it s).1 (register_item ty tk otk it s).2.
Proof.
  destruct (register_step_total ty tk otk it s) as (o & s' & Hstep).
  by rewrite (register_step_run _ _ _ _ _ _ _ Hstep).
Qed.

(** The two ways in which the body returns: the skip of a registered
    item, and the write of the pair of a new one. *)
Lemma register_item_Ok_inv ty tk otk it s s' :
  register_item ty tk otk it s = (Ok tt, s') →
  ∃ v id, it !! tk = Some v ∧ py_str v = Ok id ∧
    ((bidict_has_key (registered_view ty (tw_gcal_ids s)) (HStr id) = true
      ∧ s' = s)
     ∨ (bidict_has_key (registered_view ty (tw_gcal_ids s)) (HStr id) = false
        ∧ ∃ c r g w h ids,
            convert_fun ty it = Ok c
            ∧ side_add_item c (agg_gcal_side s) = (Ok r, g)
            ∧ r !! otk = Some w ∧ to_hkey w = Ok h
            ∧ bidict_setitem (HStr id) h (registered_view ty (tw_gcal_ids s))
              = Ok ids
            ∧ s' = set_tw_gcal_ids (registered_view ty ids)
                     (set_gcal_side g s))).
Proof.
  intros Hrun. pose proof (register_item_step ty tk otk it s) as Hstep.
  rewrite Hrun in Hstep. simpl in Hstep.
  inversion Hstep
    as [|v id Hv Hid Hk| |v id c r g o s1 Hv Hid Hk Hc Hadd Hrec];
    subst; exists v, id; (split_and!; [done..|]); [by left|right].
  split; [done|]. inversion Hrec; subst. eauto 15.
Qed.

End register_item_lemmas.

(** ** Invariants of the registration loop *)

Section register_items_lemmas.
Context {C G : Type} `{TaskwClient C, GCalSideLib G} `{UuidLib, DateTimeLib, ContainerLib}.
Implicit Types (s : aggregator C G) (it : item) (ty tk otk : string).
Implicit Types (I : aggregator C G → Prop).

(** The two ways in which the loop changes the state: the remote add
    replaces the calendar side, and a write binds an identifier that the
    view did not hold.  A predicate kept by both is an invariant of the loop
    body, on every outcome. *)
Definition kept_by_add I : Prop :=
  ∀ s g, I s → I (set_gcal_side g s).

Definition kept_by_write_of ty I (k : hkey) : Prop :=
  ∀ s h ids, I s →
    bidict_has_key (registered_view ty (tw_gcal_ids s)) k = false →
    bidict_setitem k h (registered_view ty (tw_gcal_ids s)) = Ok ids →
    I (set_tw_gcal_ids (registered_view ty ids) s).

Definition kept_by_write ty I : Prop := ∀ k, kept_by_write_of ty I k.

Lemma record_step_preserves ty otk id I r s o s' :
  kept_by_write_of ty I (HStr id) →
  bidict_has_key (registered_view ty (tw_gcal_ids s)) (HStr id) = false →
  record_step ty otk id r s o s' → I s → I s'.
Proof. intros Hw Hk Hstep Hs. destruct Hstep; eauto. Qed.

(** The key that the body writes is the identifier of its item. *)
Lemma register_step_preserves_id ty tk otk it I s o s' :
  kept_by_add I →
  (∀ k, item_id tk it = Ok k → kept_by_write_of ty I k) →
  register_step ty tk otk it s o s' → I s → I s'.
Proof.
  intros Ha Hw Hstep Hs.
  destruct Hstep as [| | |v id ? ? ? ? ? Hv Hid]; try done.
  eapply (record_step_preserves _ _ id I); [| |done|by apply Ha]; [|done].
  apply Hw. unfold item_id.
  by rewrite (getitem_Some _ _ _ Hv); simpl; rewrite Hid.
Qed.

Lemma register_item_preserves_id ty tk otk it I :
  kept_by_add I →
  (∀ k, item_id tk it = Ok k → kept_by_write_of ty I k) →
  preserves I (register_item ty tk otk it).
Proof.
  intros Ha Hw s Hs.
  eapply register_step_preserves_id; eauto using register_item_step.
Qed.

Lemma register_item_preserves ty tk otk it I :
  kept_by_add I → kept_by_write ty I →
  preserves I (register_item ty tk otk it).
Proof. intros Ha Hw. apply register_item_preserves_id; auto. Qed.

Lemma register_items_preserves items ty I :
  kept_by_add I → kept_by_write ty I →
  preserves I (register_items items ty).
Proof.
  intros Ha Hw. unfold register_items.
  apply preserves_pbind; [apply preserves_plift|]. intros _.
  apply preserves_pget_bind. intros s Hs.
  apply preserves_pbind; [apply preserves_plift| |done]. intros tk.
  apply preserves_pbind; [apply preserves_plift|]. intros otk.
  apply preserves_pfor. intros. by apply register_item_preserves.
Qed.

(** *** Instances *)

Lemma wf_kept_by_add : kept_by_add (λ s, bidict_wf (tw_gcal_ids s)).
Proof. by intros s g. Qed.

Lemma wf_kept_by_write ty : kept_by_write ty (λ s, bidict_wf (tw_gcal_ids s)).
Proof. intros k s h ids Hs _ Hset. simpl. eauto with py. Qed.

Lemma frame_kept_by_add t c :
  kept_by_add (λ s, agg_tw_side s = t ∧ config s = c).
Proof. by intros s g. Qed.

Lemma frame_kept_by_write ty t c :
  kept_by_write ty (λ s, agg_tw_side s = t ∧ config s = c).
Proof. by intros k s h ids. Qed.

Lemma registered_kept_by_add ty tk it : kept_by_add (registered ty tk it).
Proof. by intros s g. Qed.

Lemma registered_kept_by_write ty tk it : kept_by_write ty (registered ty tk it).
Proof.
  intros k s h ids (v & id & Hv & Hid & Hk) _ Hset. exists v, id.
  split_and!; [done..|]. simpl. rewrite registered_view_involutive.
  eauto using bidict_setitem_keys.
Qed.

(** A write of the loop binds a fresh key, so the pairs of the view are
    kept as they are. *)
Lemma pairs_kept_by_add ty k h :
  kept_by_add (λ s, fwd (registered_view ty (tw_gcal_ids s)) !! k = Some h).
Proof. by intros s g. Qed.

Lemma pairs_kept_by_write ty k h :
  kept_by_write ty
    (λ s, fwd (registered_view ty (tw_gcal_ids s)) !! k = Some h).
Proof.
  intros k' s h' ids Hs Hk'%bidict_has_key_false Hset. simpl.
  rewrite registered_view_involutive. revert Hset. unfold bidict_setitem.
  rewrite Hk'. destruct (bwd _ !! h'); [done|]. intros [= <-]. simpl.
  rewrite lookup_insert_ne; [done|]. congruence.
Qed.

(** *** The loop body and registered items *)

Lemma register_item_skip ty tk otk it s :
  registered ty tk it s → register_item ty tk otk it s = (Ok tt, s).
Proof.
  intros (v & id & Hv & Hid & Hk). eauto using register_step_run, register_step.
Qed.

Lemma record_step_done ty otk id r s s' :
  record_step ty otk id r s (Ok tt) s' →
  bidict_has_key (registered_view ty (tw_gcal_ids s')) (HStr id) = true.
Proof.
  inversion 1; subst. simpl. rewrite registered_view_involutive.
  eauto using bidict_setitem_has_key.
Qed.

Lemma register_step_done ty tk otk it s s' :
  register_step ty tk otk it s (Ok tt) s' → registered ty tk it s'.
Proof.
  inversion 1; subst; eexists _, _; eauto using record_step_done.
Qed.

Lemma register_item_done ty tk otk it s s' :
  register_item ty tk otk it s = (Ok tt, s') → registered ty tk it s'.
Proof.
  intros Hrun. pose proof (register_item_step ty tk otk it s) as Hstep.
  rewrite Hrun in Hstep. eauto using register_step_done.
Qed.

Lemma register_item_keeps ty tk otk it it' :
  preserves (registered (C:=C) (G:=G) ty tk it) (register_item ty tk otk it').
Proof.
  apply register_item_preserves;
    auto using registered_kept_by_add, registered_kept_by_write.
Qed.

(** *** The loop under its header *)

Lemma register_items_run items ty s tk otk :
  ty ∈ ["tw"; "gcal"] →
  config s !! (ty +:+ "_id_key") = Some tk →
  config s !! (opposite_type ty +:+ "_id_key") = Some otk →
  register_items items ty s = pfor items (register_item ty tk otk) s.
Proof.
  intros Hty Htk Hotk. unfold register_items, pbind, plift, pget.
  rewrite bool_decide_eq_true_2 by done. simpl.
  by rewrite (getitem_Some _ _ _ Htk), (getitem_Some _ _ _ Hotk).
Qed.

Lemma register_items_Ok_inv items ty s s' :
  register_items items ty s = (Ok tt, s') →
  ∃ tk otk, ty ∈ ["tw"; "gcal"]
    ∧ config s !! (ty +:+ "_id_key") = Some tk
    ∧ config s !! (opposite_type ty +:+ "_id_key") = Some otk
    ∧ pfor items (register_item ty tk otk) s = (Ok tt, s').
Proof.
  unfold register_items, pbind, plift, pget, getitem.
  case_bool_decide; [|done]. simpl.
  destruct (config s !! (ty +:+ _)) as [tk|] eqn:Htk; [|done]. simpl.
  destruct (config s !! (opposite_type ty +:+ _)) as [otk|] eqn:Hotk; [|done].
  simpl. eauto 10.
Qed.

Lemma register_items_frame_eq items ty s :
  agg_tw_side (register_items items ty s).2 = agg_tw_side s
  ∧ config (register_items items ty s).2 = config s.
Proof.
  by apply (register_items_preserves items ty
    (λ s', agg_tw_side s' = agg_tw_side s ∧ config s' = config s)
    (frame_kept_by_add _ _) (frame_kept_by_write _ _ _)).
Qed.

(** *** What the loop depends on

    Whether an item is registered is read from the table alone, so a run of
    the loop that returned settles its items for every state that holds
    the table it left, whatever the sides are then. *)

Lemma registered_same_table ty tk it s s2 :
  tw_gcal_ids s2 = tw_gcal_ids s →
  registered ty tk it s → registered ty tk it s2.
Proof. intros Hs (v & id & ? & ? & ?). exists v, id. by rewrite Hs. Qed.

Lemma register_items_settled items ty s s' s2 :
  register_items items ty s = (Ok tt, s') →
  tw_gcal_ids s2 = tw_gcal_ids s' → config s2 = config s' →
  register_items items ty s2 = (Ok tt, s2).
Proof.
  intros (tk & otk & Hty & Htk & Hotk & Hrun)%register_items_Ok_inv Hids Hcfg.
  pose proof (register_items_frame_eq items ty s) as [_ Hc].
  rewrite (register_items_run items ty s tk otk), Hrun in Hc by done.
  simpl in Hc. rewrite (register_items_run items ty s2 tk otk)
    by (by rewrite ?Hcfg, ?Hc).
  apply (pfor_skip _ (registered ty tk)); [apply register_item_skip|].
  eapply Forall_impl;
    [eapply (pfor_all_done _ (registered ty tk));
       eauto using register_item_done, register_item_keeps|].
  intros it. by apply registered_same_table.
Qed.

(** The calendar side after the body is the one the remote add left, if
    the body got as far as the add. *)
Lemma record_step_gcal_side ty otk id r s o s' :
  record_step ty otk id r s o s' → agg_gcal_side s' = agg_gcal_side s.
Proof. by destruct 1. Qed.

Lemma register_item_adds ty tk otk it s v id c :
  it !! tk = Some v → py_str v = Ok id →
  bidict_has_key (registered_view ty (tw_gcal_ids s)) (HStr id) = false →
  convert_fun ty it = Ok c →
  agg_gcal_side (register_item ty tk otk it s).2
  = (side_add_item c (agg_gcal_side s)).2.
Proof.
  intros Hv Hid Hk Hc.
  destruct (side_add_item c (agg_gcal_side s)) as [r g] eqn:Hadd.
  destruct (record_step_total ty otk id r (set_gcal_side g s))
    as (o & s' & Hrec).
  rewrite (record_step_run _ _ _ _ _ _ _ _ _ _ _ _ Hv Hid Hk Hc Hadd Hrec).
  simpl. by rewrite (record_step_gcal_side _ _ _ _ _ _ _ Hrec).
Qed.

(** *** The keys the loop adds *)

(** The keys of the view are keys it had at first or identifiers of the
    items of the list. *)
Definition keys_from ty tk (s0 : aggregator C G) (items : list item) s : Prop :=
  ∀ k, is_Some (fwd (registered_view ty (tw_gcal_ids s)) !! k) →
    is_Some (fwd (registered_view ty (tw_gcal_ids s0)) !! k)
    ∨ ∃ it, it ∈ items ∧ item_id tk it = Ok k.

Lemma keys_from_kept_by_add ty tk s0 items :
  kept_by_add (keys_from ty tk s0 items).
Proof. by intros s g. Qed.

Lemma keys_from_kept_by_write ty tk s0 items it k :
  it ∈ items → item_id tk it = Ok k →
  kept_by_write_of ty (keys_from ty tk s0 items) k.
Proof.
  intros Hit Hid s h ids Hs _ Hset k0. simpl.
  rewrite registered_view_involutive.
  intros [->|Hk0]%(bidict_setitem_keys_inv _ _ _ _ _ Hset); eauto.
Qed.

Lemma pfor_register_item_keys ty tk otk items s :
  keys_from ty tk s items (pfor items (register_item ty tk otk) s).2.
Proof.
  apply (preserves_pfor (keys_from ty tk s items)); [|by left].
  intros it Hit. apply register_item_preserves_id;
    eauto using keys_from_kept_by_add, keys_from_kept_by_write.
Qed.

(** The body on a task that is not a key of the table, when the side
    returns an event with a link that no task is bound to. *)
Lemma register_item_task_added (t : item) (v : task_view) s r g link :
  views t v → end_fits v = true →
  fwd (tw_gcal_ids s) !! HStr (uuid_str (tv_uuid v)) = None →
  side_add_item (event_of v) (agg_gcal_side s) = (Ok r, g) →
  r !! "htmlLink" = Some (VStr link) →
  bwd (tw_gcal_ids s) !! HStr link = None →
  register_item "tw" "uuid" "htmlLink" t s =
    (Ok tt, Aggregator (config s) (agg_tw_side s) g
      (Bidict
        (<[HStr (uuid_str (tv_uuid v)) := HStr link]> (fwd (tw_gcal_ids s)))
        (<[HStr link := HStr (uuid_str (tv_uuid v))]> (bwd (tw_gcal_ids s))))).
Proof.
  intros Hv Hf Hk Hadd Hlink Hl. pose proof Hv as (_ & _ & Hu & _).
  apply register_step_run.
  eapply step_added; [exact Hu|done|by apply bidict_has_key_false
    |by apply convert_tw_to_gcal_views|exact Hadd|].
  exact (record_written "tw" "htmlLink" _ r (VStr link) (HStr link) _
    (set_gcal_side g s) Hlink eq_refl
    (bidict_setitem_fresh _ _ (tw_gcal_ids s) Hk Hl)).
Qed.

End register_items_lemmas.

(** ** Properties of the registration *)

Section registration.
Context {C G : Type} `{TaskwClient C, GCalSideLib G} `{UuidLib, DateTimeLib, ContainerLib}.
Implicit Types (s : aggregator C G) (it : item) (ty tk otk : string).

(** C2. Registration is idempotent: when [register_items] returns, running
    it again on the same items returns too and changes nothing, from the
    state it left and from any other state that holds the table and the
    config it left, such as the aggregator of a later run of the program
    over new sides; since the sides are part of the state, the second run
    makes no remote add and no write to the table. *)
Theorem register_items_idempotent items ty s s' s2 :
  register_items items ty s = (Ok tt, s') →
  tw_gcal_ids s2 = tw_gcal_ids s' → config s2 = config s' →
  register_items items ty s' = (Ok tt, s')
  ∧ register_items items ty s2 = (Ok tt, s2).
Proof. intros Hrun Hids Hcfg. split; by eapply register_items_settled. Qed.

(** C3. The correspondence table stays a bijection: if the two maps of
    [tw_gcal_ids] are inverse of each other before [register_items], they
    are after it, whether it returns or raises part-way through the items. *)
Theorem register_items_wf items ty s :
  bidict_wf (tw_gcal_ids s) →
  bidict_wf (tw_gcal_ids (register_items items ty s).2).
Proof.
  apply (register_items_preserves items ty (λ s, bidict_wf (tw_gcal_ids s)));
    auto using wf_kept_by_add, wf_kept_by_write.
Qed.

(** The relation is the graph of the loop body: the body ends with result
    [o] in state [s'] exactly when the relation has a rule from [s] to [o]
    and [s']. *)
Lemma register_item_refines ty tk otk it s o s' :
  register_item ty tk otk it s = (o, s') ↔ register_step ty tk otk it s o s'.
Proof.
  split; [|apply register_step_run].
  intros Hrun. pose proof (register_item_step ty tk otk it s) as Hstep.
  by rewrite Hrun in Hstep.
Qed.

(** C6. When [register_items] returns, every item of the list is
    registered: its identifier is a key of the view of the table that its
    kind reads. *)
Theorem register_items_registers items ty s s' :
  register_items items ty s = (Ok tt, s') →
  ∃ tk, config s !! (ty +:+ "_id_key") = Some tk
    ∧ Forall (λ it, registered ty tk it s') items.
Proof.
  intros (tk & otk & Hty & Htk & Hotk & Hrun)%register_items_Ok_inv.
  exists tk. split; [done|].
  eapply (pfor_all_done _ (registered ty tk));
    eauto using register_item_done, register_item_keeps.
Qed.

(** C7. [register_items] never touches the task side: whichever kind of
    item is registered, and on every outcome, the task side and the config
    are the ones before the call.  Items of kind ["gcal"] are therefore
    added to the calendar side, not to the task side. *)
Theorem register_items_frame items ty s :
  agg_tw_side (register_items items ty s).2 = agg_tw_side s
  ∧ config (register_items items ty s).2 = config s.
Proof. apply register_items_frame_eq. Qed.

(** C8. Registering a new task: for a task that is not a key of the table
    and whose end is within the range of [datetime], the body adds the converted event to the calendar side and binds the
    task's uuid, as a string, to the [htmlLink] of the event the side
    returned, when no task is bound to that link yet. *)
Theorem register_item_new_task t v s r g link :
  views t v → end_fits v = true →
  fwd (tw_gcal_ids s) !! HStr (uuid_str (tv_uuid v)) = None →
  side_add_item (event_of v) (agg_gcal_side s) = (Ok r, g) →
  r !! "htmlLink" = Some (VStr link) →
  bwd (tw_gcal_ids s) !! HStr link = None →
  register_item "tw" "uuid" "htmlLink" t s =
    (Ok tt, Aggregator (config s) (agg_tw_side s) g
      (Bidict
        (<[HStr (uuid_str (tv_uuid v)) := HStr link]> (fwd (tw_gcal_ids s)))
        (<[HStr link := HStr (uuid_str (tv_uuid v))]> (bwd (tw_gcal_ids s))))).
Proof. apply register_item_task_added. Qed.

(** C9. A remote add that is not recorded: when the side has added the
    converted item but the item it returns has no identifier under the
    opposite key, the body raises [KeyError] with the calendar side changed
    and the table unchanged, so the item added has no correspondence; and
    in every state that holds that table, the state just left included,
    the body on the same item calls the side's add again: the item is
    registered twice over on the next pass. *)
Theorem register_item_unrecorded ty tk otk it s v id c r g :
  it !! tk = Some v → py_str v = Ok id →
  bidict_has_key (registered_view ty (tw_gcal_ids s)) (HStr id) = false →
  convert_fun ty it = Ok c →
  side_add_item c (agg_gcal_side s) = (Ok r, g) →
  r !! otk = None →
  register_item ty tk otk it s = (Err (KeyError otk), set_gcal_side g s)
  ∧ ∀ s2, tw_gcal_ids s2 = tw_gcal_ids s →
      agg_gcal_side (register_item ty tk otk it s2).2
      = (side_add_item c (agg_gcal_side s2)).2.
Proof.
  intros Hv Hid Hk Hc Hadd Hr. split.
  - eauto using register_step_run, register_step, record_step.
  - intros s2 Hs2. apply (register_item_adds _ _ _ _ _ v id); try done.
    by rewrite Hs2.
Qed.

(** [register_items] asserts its [item_type]: for any string other than
    ["tw"] and ["gcal"] it raises [AssertionError] before anything else, and
    the state is unchanged. *)
Lemma register_items_bad_type items ty s :
  ty ∉ ["tw"; "gcal"] → register_items items ty s = (Err AssertionError, s).
Proof.
  intros Hty. unfold register_items, pbind, plift.
  by rewrite bool_decide_eq_false_2.
Qed.

(** C11. Registration never rebinds: a pair of the view of the table that
    [register_items] reads is still a pair of it afterwards, on every
    outcome. *)
Theorem register_items_pairs_kept items ty s k h :
  fwd (registered_view ty (tw_gcal_ids s)) !! k = Some h →
  fwd (registered_view ty (tw_gcal_ids (register_items items ty s).2)) !! k
    = Some h.
Proof.
  apply (register_items_preserves items ty
    (λ s, fwd (registered_view ty (tw_gcal_ids s)) !! k = Some h));
    auto using pairs_kept_by_add, pairs_kept_by_write.
Qed.

(** With the config of the constructor, the header of [register_items]
    cannot raise: for task items the loop runs with the keys ['uuid'] and
    ['htmlLink'], for calendar items with ['htmlLink'] and ['uuid']. *)
Lemma register_items_default_config items s :
  config s = default_config →
  register_items items "tw" s
    = pfor items (register_item "tw" "uuid" "htmlLink") s
  ∧ register_items items "gcal" s
    = pfor items (register_item "gcal" "htmlLink" "uuid") s.
Proof.
  intros Hc. split; apply register_items_run; rewrite ?Hc;
    first [by vm_compute|set_solver].
Qed.

(** C29. Registration binds identifiers of its items only: on every
    outcome, a key of the view of the table that [register_items] reads was
    a key of it before the call or is the identifier of an item of the
    list. *)
Theorem register_items_keys items ty s k :
  is_Some (fwd (registered_view ty
    (tw_gcal_ids (register_items items ty s).2)) !! k) →
  is_Some (fwd (registered_view ty (tw_gcal_ids s)) !! k)
  ∨ ∃ it tk, it ∈ items
      ∧ config s !! (ty +:+ "_id_key") = Some tk ∧ item_id tk it = Ok k.
Proof.
  unfold register_items, pbind, plift, pget, getitem.
  destruct (bool_decide _); [|by left]. simpl.
  destruct (config s !! (ty +:+ _)) as [tk|] eqn:Htk; [|by left]. simpl.
  destruct (config s !! (opposite_type ty +:+ _)) as [otk|]; [|by left].
  simpl. intros [?|(it & ? & ?)]%pfor_register_item_keys; eauto 10.
Qed.

End registration.

(** ** Properties of the constructor *)

Section construction.
Context {C G : Type} `{TaskwClient C, GCalSideLib G}.
Context `{UuidLib, DateTimeLib, ContainerLib}.
Implicit Types (client : C) (g : G) (tw_config gcal_config : value).
Implicit Types (kargs : item) (disk : storage) (held : option prefs_manager).

(** The preferences with the entry of the table: what they held, or the
    empty table. *)
Lemma prefs_table_conts pm :
  prefs_conts (prefs_table pm)
  = <["tw_gcal_ids" :=
        default bidict_empty (prefs_conts pm !! "tw_gcal_ids")]>
      (prefs_conts pm).
Proof.
  unfold prefs_table, prefs_contains.
  destruct (prefs_conts pm !! "tw_gcal_ids") as [b|] eqn:Hb; simpl; [|done].
  by rewrite insert_id.
Qed.

Lemma prefs_table_getitem pm :
  prefs_getitem "tw_gcal_ids" (prefs_table pm)
  = Ok (default bidict_empty (prefs_conts pm !! "tw_gcal_ids")).
Proof. unfold prefs_getitem. by rewrite prefs_table_conts, lookup_insert_eq. Qed.

(** The constructor passes its further keyword arguments to [super],
    which takes none: any such argument raises [TypeError] before anything
    is built. *)
Lemma aggregator_init_kargs tw_config gcal_config kargs client prefs_dir disk
    held :
  kargs ≠ ∅ →
  aggregator_init (G := G) tw_config gcal_config kargs client prefs_dir disk held
  = (Err TypeError, held).
Proof.
  intros Hk. unfold aggregator_init, pbind, plift, super_kargs.
  by rewrite bool_decide_eq_false_2.
Qed.

(** A config that is no dict fails its assertion, before the preferences
    manager is made. *)
Lemma aggregator_init_not_dict tw_config gcal_config client prefs_dir disk held :
  is_dict tw_config && is_dict gcal_config = false →
  aggregator_init (G := G) tw_config gcal_config ∅ client prefs_dir disk held
  = (Err AssertionError, held).
Proof.
  unfold aggregator_init, pbind, plift. simpl.
  by destruct (is_dict tw_config), (is_dict gcal_config).
Qed.

(** The constructor on two dicts, from line 34 on: the preferences manager
    is made; a [tags] of the task side's config that is not a string
    raises the [RuntimeError] of the task side; the constructor of the
    calendar side is given the task side's config over the credentials
    directory; then the aggregator is built with the table of the
    preferences, created empty when they have none. *)
Lemma aggregator_init_dicts (tw_d gcal_d : item) client prefs_dir disk held :
  aggregator_init (G := G) (VDict tw_d) (VDict gcal_d) ∅ client prefs_dir
    disk held
  = let pm := prefs_manager_init prefs_dir disk in
    if is_str (default (VStr "") (tw_d !! "tags")) then
      match gcal_side_init (tw_d ∪ {[ "credentials_dir" := VStr prefs_dir ]}) with
      | Ok g =>
          (Ok (Aggregator default_config (TwSide (tw_side_config tw_d) client)
                 g (default bidict_empty (disk !! "tw_gcal_ids"))),
           Some (prefs_table pm))
      | Err e => (Err e, Some pm)
      end
    else (Err RuntimeError, Some pm).
Proof.
  unfold aggregator_init, pbind, plift, pput, pret. simpl.
  destruct (is_str _) eqn:Htags.
  - rewrite (tw_side_init_str _ _ Htags). simpl.
    destruct (gcal_side_init _) as [g|e]; [|done]. simpl.
    by rewrite prefs_table_getitem.
  - by rewrite (tw_side_init_not_str _ _ Htags).
Qed.

(** What the constructor builds, and the preferences manager it leaves:
    the one it made, with the entry of the table. *)
Lemma aggregator_init_Ok_inv tw_config gcal_config kargs client prefs_dir
    disk held s0 pm :
  aggregator_init tw_config gcal_config kargs client prefs_dir disk held
  = (Ok s0, pm) →
  config s0 = default_config
  ∧ tw_gcal_ids s0 = default bidict_empty (disk !! "tw_gcal_ids")
  ∧ pm = Some (prefs_table (prefs_manager_init prefs_dir disk)).
Proof.
  destruct (decide (kargs = ∅)) as [->|Hk];
    [|by rewrite aggregator_init_kargs].
  destruct (is_dict tw_config && is_dict gcal_config) eqn:Hd;
    [|by rewrite aggregator_init_not_dict].
  destruct tw_config as [| | | | | |tw_d], gcal_config as [| | | | | |gcal_d];
    try done.
  rewrite aggregator_init_dicts. cbn zeta.
  destruct (is_str _); [|done]. destruct (gcal_side_init _); [|done].
  by intros [= <- <-].
Qed.

(** When the constructor raises, the preferences manager of the process
    is the one it had or the one the constructor made, as it was loaded. *)
Lemma aggregator_init_Err_inv tw_config gcal_config kargs client prefs_dir
    disk held e made :
  aggregator_init (G := G) tw_config gcal_config kargs client prefs_dir disk
    held = (Err e, made) →
  made = held ∨ made = Some (prefs_manager_init prefs_dir disk).
Proof.
  destruct (decide (kargs = ∅)) as [->|Hk];
    [|rewrite aggregator_init_kargs by done; intros [= _ <-]; by left].
  destruct (is_dict tw_config && is_dict gcal_config) eqn:Hd;
    [|rewrite aggregator_init_not_dict by done; intros [= _ <-]; by left].
  destruct tw_config as [| | | | | |tw_d], gcal_config as [| | | | | |gcal_d];
    try done.
  rewrite aggregator_init_dicts. cbn zeta.
  destruct (is_str _); [destruct (gcal_side_init _); [done|]|];
    intros [= _ <-]; by right.
Qed.

(** The storage is read for the table alone, and the preferences manager
    the process had is replaced: the constructor over another storage
    builds the same aggregator but for the table. *)
Lemma aggregator_init_stored tw_config gcal_config kargs client prefs_dir
    disk disk' held held' s pm :
  aggregator_init tw_config gcal_config kargs client prefs_dir disk held
  = (Ok s, pm) →
  aggregator_init tw_config gcal_config kargs client prefs_dir disk' held'
  = (Ok (set_tw_gcal_ids (default bidict_empty (disk' !! "tw_gcal_ids")) s),
     Some (prefs_table (prefs_manager_init prefs_dir disk'))).
Proof.
  destruct (decide (kargs = ∅)) as [->|Hk];
    [|by rewrite aggregator_init_kargs].
  destruct (is_dict tw_config && is_dict gcal_config) eqn:Hd;
    [|by rewrite aggregator_init_not_dict].
  destruct tw_config as [| | | | | |tw_d], gcal_config as [| | | | | |gcal_d];
    try done.
  rewrite !aggregator_init_dicts. cbn zeta.
  destruct (is_str _); [|done]. destruct (gcal_side_init _); [|done].
  by intros [= <- <-].
Qed.

(** C22. The constructor on every input, in the order of its steps: a
    further keyword argument raises [TypeError] at the call of [super],
    which takes none; then a config that is no dict fails its assertion;
    then the preferences manager is made, and it stays with the process
    whatever follows; then a [tags] of the task side's config that is not
    a string raises the [RuntimeError] of the task side; then the
    constructor of the calendar side is given the task side's config over
    the credentials directory, and its exception is the constructor's;
    else the aggregator is built, with the default config and the table
    of the preferences, created empty when the storage has none.  Of
    [gcal_config] the outcome depends on nothing but its kind. *)
Theorem aggregator_init_outcome tw_config gcal_config kargs client prefs_dir
    disk held :
  aggregator_init (G := G) tw_config gcal_config kargs client prefs_dir disk held
  = if decide (kargs = ∅) then
      if is_dict tw_config && is_dict gcal_config then
        let tw_d := dict_items tw_config in
        let pm := prefs_manager_init prefs_dir disk in
        if is_str (default (VStr "") (tw_d !! "tags")) then
          match
            gcal_side_init (tw_d ∪ {[ "credentials_dir" := VStr prefs_dir ]})
          with
          | Ok g =>
              (Ok (Aggregator default_config
                     (TwSide (tw_side_config tw_d) client) g
                     (default bidict_empty (disk !! "tw_gcal_ids"))),
               Some (prefs_table pm))
          | Err e => (Err e, Some pm)
          end
        else (Err RuntimeError, Some pm)
      else (Err AssertionError, held)
    else (Err TypeError, held).
Proof.
  case_decide as Hk; [subst kargs|by apply aggregator_init_kargs].
  destruct (is_dict tw_config && is_dict gcal_config) eqn:Hd;
    [|by apply aggregator_init_not_dict].
  destruct tw_config as [| | | | | |tw_d], gcal_config as [| | | | | |gcal_d];
    try done.
  apply aggregator_init_dicts.
Qed.

End construction.

(** ** Witnesses

    The aggregator over the in-memory sides of [Fakes], with the codecs of
    [Codecs], an empty calendar and an empty table. *)

Definition fake_aggregator : aggregator fake_taskw fake_gcal :=
  Aggregator default_config (TwSide (tw_side_config ∅) []) [] bidict_empty.

(** The state after the task of [RoundTrip] has been registered. *)
Definition milk_registered : aggregator fake_taskw fake_gcal :=
  (register_items [milk_task] "tw" fake_aggregator).2.

(** The task that the event without description converts to. *)
Definition bare_task : item := from_ok ∅ (convert_gcal_to_tw bare_event).

Lemma register_items_idempotent_witness :
  register_items [milk_task] "tw" milk_registered = (Ok tt, milk_registered)
  ∧ register_items [milk_task] "tw" (set_gcal_side [] milk_registered)
    = (Ok tt, set_gcal_side [] milk_registered).
Proof.
  apply (register_items_idempotent [milk_task] "tw" fake_aggregator);
    [apply run_Ok; vm_compute|..]; reflexivity.
Defined.

Lemma register_items_wf_witness :
  bidict_wf (tw_gcal_ids (register_items [milk_task] "tw" fake_aggregator).2).
Proof.
  exact (register_items_wf [milk_task] "tw" fake_aggregator bidict_empty_wf).
Defined.

Lemma register_items_registers_witness :
  ∃ tk, config fake_aggregator !! ("tw" +:+ "_id_key") = Some tk
    ∧ Forall (λ it, registered "tw" tk it milk_registered) [milk_task].
Proof.
  apply (register_items_registers [milk_task] "tw" fake_aggregator).
  apply run_Ok. vm_compute. reflexivity.
Defined.

Lemma register_item_new_task_witness :
  register_item "tw" "uuid" "htmlLink" milk_task fake_aggregator =
    (Ok tt, Aggregator default_config (TwSide (tw_side_config ∅) [])
      [fake_event 0 (event_of milk_view)]
      (Bidict
        (<[HStr (uuid_str (tv_uuid milk_view)) := HStr (fake_link 0)]> ∅)
        (<[HStr (fake_link 0) := HStr (uuid_str (tv_uuid milk_view))]> ∅))).
Proof.
  exact (register_item_new_task milk_task milk_view fake_aggregator
    (fake_event 0 (event_of milk_view)) [fake_event 0 (event_of milk_view)]
    (fake_link 0) milk_task_views eq_refl eq_refl eq_refl eq_refl eq_refl).
Defined.

Lemma register_item_unrecorded_witness :
  register_item "gcal" "htmlLink" "uuid" bare_event fake_aggregator =
    (Err (KeyError "uuid"),
     set_gcal_side [fake_event 0 bare_task] fake_aggregator)
  ∧ ∀ s2 : aggregator fake_taskw fake_gcal,
      tw_gcal_ids s2 = tw_gcal_ids fake_aggregator →
      agg_gcal_side (register_item "gcal" "htmlLink" "uuid" bare_event s2).2
      = (side_add_item bare_task (agg_gcal_side s2)).2.
Proof.
  apply (register_item_unrecorded (H0:=fake_gcal_lib)
    "gcal" "htmlLink" "uuid" bare_event
    fake_aggregator (VStr "https://calendar.example/event/x")
    "https://calendar.example/event/x" bare_task (fake_event 0 bare_task)
    [fake_event 0 bare_task]);
    [reflexivity..| |reflexivity|by vm_compute].
  apply from_ok_Ok. by vm_compute.
Defined.

Lemma register_items_bad_type_witness :
  register_items [milk_task] "both" fake_aggregator
  = (Err AssertionError, fake_aggregator).
Proof.
  apply (register_items_bad_type [milk_task] "both" fake_aggregator).
  apply (proj1 (bool_decide_eq_false _)). by vm_compute.
Defined.

Lemma register_items_default_config_witness :
  register_items [milk_task] "tw" fake_aggregator
    = pfor [milk_task] (register_item "tw" "uuid" "htmlLink") fake_aggregator
  ∧ register_items [milk_task] "gcal" fake_aggregator
    = pfor [milk_task] (register_item "gcal" "htmlLink" "uuid") fake_aggregator.
Proof.
  exact (register_items_default_config [milk_task] fake_aggregator eq_refl).
Defined.

Lemma register_items_keys_witness :
  is_Some (fwd (registered_view "tw" (tw_gcal_ids fake_aggregator))
    !! HStr (uuid_str (tv_uuid milk_view)))
  ∨ ∃ it tk, it ∈ [milk_task]
      ∧ config fake_aggregator !! ("tw" +:+ "_id_key") = Some tk
      ∧ item_id tk it = Ok (HStr (uuid_str (tv_uuid milk_view))).
Proof.
  apply (register_items_keys [milk_task] "tw" fake_aggregator).
  eexists. by vm_compute.
Defined.

Lemma register_items_pairs_kept_witness :
  fwd (registered_view "tw"
    (tw_gcal_ids (register_items [bare_event] "tw" milk_registered).2))
    !! HStr (uuid_str (tv_uuid milk_view)) = Some (HStr (fake_link 0)).
Proof.
  apply (register_items_pairs_kept [bare_event] "tw" milk_registered).
  by vm_compute.
Defined.
