(* ===== verification/Typing.v ===== *)
(** Types of the items the converter takes and returns.

    Python does not declare them; the code relies on them.  [pytype] names
    the kinds of object the converter's operations accept, [has_type]
    decides them, and a [schema] lists the keys of a dict with the type of
    each and whether the key has to be there.  Three schemas describe the
    items of [src/taskw_gcal_sync/TWGCalAggregator.py]:

    - [tw_item_schema]: what [convert_tw_to_gcal] needs of a task,
    - [gcal_item_schema]: what [convert_gcal_to_tw] needs of an event,
    - [parsed_tw_item_schema]: what [convert_gcal_to_tw] returns.

    The theorems are progress and preservation for [convert_fun], the
    function [register_items] picks by item type: a well-typed item
    converts, and the result has the schema of the other side.  A task
    that [convert_gcal_to_tw] returns need not have [tw_item_schema]: its
    [status] and [uuid] are optional.

    The type of the [entry] of a task is [TTimePlus 1], a [datetime] to
    which a day can be added: the converter computes
    [entry + timedelta(days=1)] for a task without a due date (line 176),
    and a later entry raises [OverflowError]. *)

From stdpp Require Import base tactics option list strings gmap.
From S2P Require Import Prelude PyString PyValue Codecs Converter RoundTrip.
From S2P Require Import ConverterSpec Bidict Sides Fakes Aggregator.

#[local] Open Scope result_scope.

(** ** Types *)

Inductive pytype : Type :=
| TAny
| TStr
| TEnum (choices : list string)
| TUuid
| TTime
| TTimePlus (days : Z)
| TStamp
| TList (ty : pytype)
| TDict (key : string) (ty : pytype).

Record field : Type := Field {
  field_key : string;
  field_type : pytype;
  field_required : bool
}.

#[export] Instance pytype_eq_dec : EqDecision pytype.
Proof. solve_decision. Defined.

#[export] Instance field_eq_dec : EqDecision field.
Proof. solve_decision. Defined.

Definition schema : Type := list field.

Definition schema_keys (sc : schema) : gset string :=
  list_to_set (field_key <$> sc).

(** A task as [convert_tw_to_gcal] reads it; other keys are free.  The
    entry is a datetime to which a day can be added, which the converter
    does when the task has no due date. *)
Definition tw_item_schema : schema :=
  [ Field "description" TAny true;
    Field "status" TStr true;
    Field "uuid" TUuid true;
    Field "entry" (TTimePlus 1) true;
    Field "due" TTime false;
    Field "annotations" (TList TStr) false ].

(** An event as [convert_gcal_to_tw] reads it. *)
Definition gcal_item_schema : schema :=
  [ Field "summary" TAny true;
    Field "description" TStr false;
    Field "start" (TDict "dateTime" TStamp) true;
    Field "end" (TDict "dateTime" TStamp) true ].

(** A task as [convert_gcal_to_tw] returns it. *)
Definition parsed_tw_item_schema : schema :=
  [ Field "description" TAny true;
    Field "status" (TEnum valid_statuses) false;
    Field "uuid" TUuid false;
    Field "entry" TTime true;
    Field "due" TTime true;
    Field "annotations" (TList TStr) true ].

(** The schemas of [convert_fun item_type]. *)
Definition input_schema (item_type : string) : schema :=
  if decide (item_type = "tw") then tw_item_schema else gcal_item_schema.

Definition output_schema (item_type : string) : schema :=
  if decide (item_type = "tw") then gcal_item_schema
  else parsed_tw_item_schema.

Section typing.
Context `{UuidLib, DateTimeLib, ContainerLib}.
Implicit Types (t g it : item) (v : value) (ty : pytype) (sc : schema).

(** [TUuid] is a [uuid.UUID], a 128-bit number; [TTimePlus n] is a
    datetime [n] days or more before the end of the range of [datetime];
    [TStamp] is a [str] that [parse_datetime] reads; [TDict k ty] is a dict
    with a [ty] under [k]. *)
Fixpoint has_type (ty : pytype) (v : value) : bool :=
  match ty, v with
  | TAny, _ => true
  | TStr, VStr _ => true
  | TEnum choices, VStr s => bool_decide (s ∈ choices)
  | TUuid, VUuid u => uuid_ok u
  | TTime, VTime _ => true
  | TTimePlus n, VTime t => datetime_ok (t + n * microseconds_per_day)%Z
  | TStamp, VStr s => is_ok (parse_datetime (VStr s))
  | TList ty, VList l => forallb (has_type ty) l
  | TDict k ty, VDict d => from_option (has_type ty) false (d !! k)
  | _, _ => false
  end.

Definition has_field (it : item) (f : field) : bool :=
  match it !! field_key f with
  | Some v => has_type (field_type f) v
  | None => negb (field_required f)
  end.

Definition has_schema (sc : schema) (it : item) : bool :=
  forallb (has_field it) sc.

(** ** Inversion of typing *)

Lemma has_field_required it k ty :
  has_field it (Field k ty true) = true →
  ∃ v, it !! k = Some v ∧ has_type ty v = true.
Proof. unfold has_field. simpl. destruct (it !! k); naive_solver. Qed.

Lemma has_field_optional it k ty :
  has_field it (Field k ty false) = true →
  it !! k = None ∨ ∃ v, it !! k = Some v ∧ has_type ty v = true.
Proof. unfold has_field. simpl. destruct (it !! k); naive_solver. Qed.

Lemma has_type_str v : has_type TStr v = true → ∃ s, v = VStr s.
Proof. destruct v; naive_solver. Qed.

Lemma has_type_time v : has_type TTime v = true → ∃ d, v = VTime d.
Proof. destruct v; naive_solver. Qed.

Lemma has_type_time_plus n v :
  has_type (TTimePlus n) v = true →
  ∃ d, v = VTime d ∧ datetime_ok (d + n * microseconds_per_day)%Z = true.
Proof. destruct v; naive_solver. Qed.

Lemma has_type_uuid v : has_type TUuid v = true → ∃ u, v = VUuid u ∧ uuid_ok u = true.
Proof. destruct v; naive_solver. Qed.

Lemma has_type_strs v :
  has_type (TList TStr) v = true → ∃ l, v = VList (VStr <$> l).
Proof.
  destruct v as [| | | | |l|]; try done. simpl. intros Hl.
  apply forallb_Forall_true in Hl.
  induction Hl as [|x l [s ->]%has_type_str _ [l' [= ->]]]; [by exists []|].
  by exists (s :: l').
Qed.

Lemma has_type_stamp_dict v :
  has_type (TDict "dateTime" TStamp) v = true →
  ∃ d s dt, v = VDict d ∧ d !! "dateTime" = Some (VStr s)
            ∧ parse_datetime (VStr s) = Ok dt.
Proof.
  destruct v as [| | | | | |d]; try done. simpl.
  destruct (d !! "dateTime") as [[| |s| | | |]|] eqn:Hd; try done. simpl.
  intros [dt Hdt]%is_ok_Ok. by exists d, s, dt.
Qed.

Lemma has_type_strs_intro l : has_type (TList TStr) (VList (VStr <$> l)) = true.
Proof. simpl. apply forallb_Forall_true, Forall_fmap, Forall_true. done. Qed.

Lemma has_type_stamp_intro d :
  has_type (TDict "dateTime" TStamp) (date_time_dict (rfc3339 d)) = true.
Proof.
  unfold date_time_dict. simpl. rewrite lookup_singleton_eq. simpl.
  by rewrite parse_format_datetime.
Qed.

(** ** Tasks *)

(** A well-typed task is one a view reads. *)
Lemma tw_item_schema_views t :
  has_schema tw_item_schema t = true →
  ∃ w, views t w ∧ uuid_ok (tv_uuid w) = true ∧ end_fits w = true.
Proof.
  unfold has_schema. simpl. rewrite !andb_true_iff.
  intros ([d [Hd _]]%has_field_required
    & [st' [Hs [st ->]%has_type_str]]%has_field_required
    & [u' [Hu (u & -> & Hok)%has_type_uuid]]%has_field_required
    & [e' [He (e & -> & Hfit)%has_type_time_plus]]%has_field_required
    & Hdue%has_field_optional & Hanns%has_field_optional & _).
  assert (∃ due, t !! "due" = VTime <$> due) as [due Hdue'].
  { destruct Hdue as [->|(? & -> & [x ->]%has_type_time)];
      [by exists None|by exists (Some x)]. }
  assert (∃ anns, t !! "annotations" = (λ l, VList (VStr <$> l)) <$> anns)
    as [anns Hanns'].
  { destruct Hanns as [->|(? & -> & [l ->]%has_type_strs)];
      [by exists None|by exists (Some l)]. }
  exists (TaskView d st u e due anns). split_and!; [done..|].
  unfold end_fits. simpl. by destruct due.
Qed.

Lemma event_of_typed w : has_schema gcal_item_schema (event_of w) = true.
Proof.
  destruct (event_of_lookups w) as (Hd & Hs & Hb & He).
  unfold has_schema, has_field. cbn [forallb gcal_item_schema field_key].
  rewrite Hs, Hd, Hb, He. cbn [field_type field_required].
  by rewrite !has_type_stamp_intro.
Qed.

(** ** Events *)

Lemma gcal_item_schema_time g k :
  has_field g (Field k (TDict "dateTime" TStamp) true) = true →
  ∃ dt, event_time g k = Ok dt.
Proof.
  intros (x & Hk & (d & s & dt & -> & Hs & Hdt)%has_type_stamp_dict)
    %has_field_required.
  exists dt. unfold event_time.
  rewrite (getitem_Some _ _ _ Hk). cbn [bind subscript].
  by rewrite (getitem_Some _ _ _ Hs).
Qed.

Lemma gcal_item_schema_parse g :
  has_field g (Field "description" TStr false) = true →
  ∃ parsed, _parse_gcal_item_desc g = Ok parsed.
Proof.
  intros [Hd|(x & Hd & [d ->]%has_type_str)]%has_field_optional.
  - unfold _parse_gcal_item_desc. rewrite (has_key_None _ _ Hd). eauto.
  - rewrite (parse_str_run _ _ Hd). cbn zeta. case_bool_decide; eauto.
Qed.

Lemma built_task_typed anns st u summary entry due :
  (∀ u', u = Some u' → uuid_ok u' = true) →
  has_schema parsed_tw_item_schema (built_task anns st u summary entry due)
  = true.
Proof.
  intros Hu.
  destruct (built_task_lookups anns st u summary entry due)
    as (Ha & Hs & Hu' & Hd & He & Hdue).
  unfold has_schema, has_field.
  cbn [forallb parsed_tw_item_schema field_key].
  rewrite Ha, Hs, Hu', Hd, He, Hdue. cbn [field_type field_required].
  rewrite has_type_strs_intro.
  destruct u as [u'|]; simpl; [rewrite (Hu u' eq_refl)|];
    case_bool_decide; simpl; by rewrite ?bool_decide_eq_true_2.
Qed.

Lemma parsed_tw_item_schema_keys :
  schema_keys parsed_tw_item_schema = converted_keys.
Proof. unfold schema_keys, converted_keys. simpl. set_solver. Qed.

Lemma convert_tw_to_gcal_typed t :
  has_schema tw_item_schema t = true →
  ∃ g, convert_tw_to_gcal t = Ok g
    ∧ has_schema gcal_item_schema g = true
    ∧ dom g ⊆ schema_keys gcal_item_schema.
Proof.
  intros (w & Hw & _ & Hf)%tw_item_schema_views. exists (event_of w).
  split_and!; [by apply convert_tw_to_gcal_views|apply event_of_typed|].
  unfold event_of, schema_keys. simpl. set_solver.
Qed.

Lemma convert_gcal_to_tw_typed g :
  has_schema gcal_item_schema g = true →
  ∃ t, convert_gcal_to_tw g = Ok t
    ∧ has_schema parsed_tw_item_schema t = true
    ∧ dom t ⊆ schema_keys parsed_tw_item_schema.
Proof.
  unfold has_schema. simpl. rewrite !andb_true_iff.
  intros ([s [Hs _]]%has_field_required
    & [[[anns st] u] Hp]%gcal_item_schema_parse
    & [entry Hb]%gcal_item_schema_time & [due He]%gcal_item_schema_time & _).
  exists (built_task anns st u s entry due).
  split_and!; [by apply convert_gcal_to_tw_built| |].
  - apply built_task_typed. by apply (parse_clean g anns st).
  - rewrite parsed_tw_item_schema_keys. apply built_task_dom.
Qed.

(** ** Properties *)

(** C34. Progress and preservation for the conversion that
    [register_items] picks by item type: an item that has the schema of its
    side converts without an exception, and the item returned has the
    schema of the other side and no key outside it.  For a task the result
    is an event with a summary, a description text and parseable start and
    end times; for an event it is a task with annotations, entry and due
    dates, a status of the five valid ones if any and a 128-bit uuid if
    any. *)
Theorem convert_fun_typed item_type it :
  has_schema (input_schema item_type) it = true →
  ∃ out, convert_fun item_type it = Ok out
    ∧ has_schema (output_schema item_type) out = true
    ∧ dom out ⊆ schema_keys (output_schema item_type).
Proof.
  unfold input_schema, output_schema, convert_fun.
  case_decide; auto using convert_tw_to_gcal_typed, convert_gcal_to_tw_typed.
Qed.

End typing.

(** ** Witnesses *)

Lemma convert_fun_typed_witness :
  ∃ out, convert_fun "tw" milk_task = Ok out
    ∧ has_schema (output_schema "tw") out = true
    ∧ dom out ⊆ schema_keys (output_schema "tw").
Proof. exact (convert_fun_typed "tw" milk_task eq_refl). Defined.
