(* ===== verification/Liveness.v ===== *)
(** Registration returns: progress of [register_items] on tasks.

    [register_items] of [src/taskw_gcal_sync/TWGCalAggregator.py] (lines
    78-116) can raise at every step of its body.  This file shows when it
    cannot: on tasks that have the schema of [Typing], with the keys of the
    constructor's config, over a calendar side that answers every add by an
    event with a link it has not given before.  That promise of the
    calendar side is the interface [FreshLinks]; the in-memory calendar of
    [Fakes] is an instance of it.

    The invariant that carries the loop through is [links_issued]: every
    link bound in the table is one the calendar side has given. *)

From stdpp Require Import base tactics option list strings gmap pretty.
From S2P Require Import Prelude PyString PyValue Codecs Converter RoundTrip.
From S2P Require Import ConverterSpec Bidict Sides Fakes Aggregator Typing.

(** ** A calendar side that gives fresh links *)

Class FreshLinks (G : Type) `{SideAdapter G} : Type := {
  (** The links the side has given so far. *)
  issued : G → gset string;
  add_item_fresh (c : item) (g : G) :
    ∃ r link, side_add_item c g = (Ok r, (side_add_item c g).2)
      ∧ r !! "htmlLink" = Some (VStr link)
      ∧ (link ∉ issued g)
      ∧ issued (side_add_item c g).2 = {[ link ]} ∪ issued g
}.

(** The calendar of [Fakes]: the links of the indices below its length. *)
Definition fake_issued (g : fake_gcal) : gset string :=
  list_to_set (fake_link <$> seq 0 (length g)).

Lemma fake_link_inj : Inj (=) (=) fake_link.
Proof.
  intros n m Hnm. unfold fake_link in Hnm.
  by apply (inj _), (inj pretty) in Hnm.
Qed.

Lemma fake_issued_elem g n : fake_link n ∈ fake_issued g ↔ n < length g.
Proof.
  unfold fake_issued. rewrite elem_of_list_to_set, list_elem_of_fmap. split.
  - intros (m & ->%fake_link_inj & Hm%elem_of_seq). lia.
  - intros Hn. exists n. split; [done|]. apply elem_of_seq. lia.
Qed.

Lemma fake_issued_snoc g ev :
  fake_issued (g ++ [ev]) = {[ fake_link (length g) ]} ∪ fake_issued g.
Proof.
  unfold fake_issued. rewrite length_app. simpl.
  rewrite Nat.add_1_r, seq_S, fmap_app, list_to_set_app_L. simpl. set_solver.
Qed.

#[export, refine] Instance fake_gcal_fresh : FreshLinks fake_gcal := {|
  issued := fake_issued
|}.
Proof.
  intros c g. exists (fake_event (length g) c), (fake_link (length g)).
  split_and!; [done|by unfold fake_event; simplify_map_eq| |].
  - rewrite fake_issued_elem. lia.
  - apply fake_issued_snoc.
Defined.

(** ** The invariant *)

Section liveness.
Context {C G : Type} `{TaskwClient C, GCalSideLib G} `{UuidLib, DateTimeLib, ContainerLib}.
Context `{!FreshLinks G}.
Implicit Types (s : aggregator C G) (t : item) (items : list item).

(** Every link bound in the table is one the calendar side has given. *)
Definition links_issued (s : aggregator C G) : Prop :=
  ∀ link, is_Some (bwd (tw_gcal_ids s) !! HStr link) →
    link ∈ issued (agg_gcal_side s).

Lemma links_issued_empty s :
  tw_gcal_ids s = bidict_empty → links_issued s.
Proof. intros Hs link. rewrite Hs. simpl. by intros [? ?]. Qed.

(** The body on a task that is not registered yet: the add returns a link
    that no task is bound to, so the write goes through. *)
Lemma register_item_task_new t w s :
  views t w → end_fits w = true →
  fwd (tw_gcal_ids s) !! HStr (uuid_str (tv_uuid w)) = None →
  links_issued s →
  ∃ s', register_item "tw" "uuid" "htmlLink" t s = (Ok tt, s')
    ∧ links_issued s'.
Proof.
  intros Hw Hf Hk Hs.
  destruct (add_item_fresh (event_of w) (agg_gcal_side s))
    as (r & link & Hadd & Hlink & Hfresh & Hissued).
  assert (bwd (tw_gcal_ids s) !! HStr link = None) as Hl.
  { apply eq_None_not_Some. intros Hsome. by apply Hfresh, Hs. }
  eexists. split; [by eapply register_item_task_added|].
  intros l. simpl. rewrite Hissued.
    rewrite lookup_insert_is_Some. intros [[= ->]|[_ Hsome]]; set_solver.
Qed.

Lemma register_item_task_returns t s :
  has_schema tw_item_schema t = true → links_issued s →
  ∃ s', register_item "tw" "uuid" "htmlLink" t s = (Ok tt, s')
    ∧ links_issued s'.
Proof.
  intros (w & Hw & _ & Hf)%tw_item_schema_views Hs.
  destruct (fwd (tw_gcal_ids s) !! HStr (uuid_str (tv_uuid w))) eqn:Hk;
    [|by eapply register_item_task_new].
  exists s. split; [|done]. apply register_item_skip.
  destruct Hw as (_ & _ & Hu & _). exists (VUuid (tv_uuid w)), (uuid_str (tv_uuid w)).
  split_and!; [done..|]. apply bidict_has_key_true. by eexists.
Qed.

(** ** Properties *)

(** C36. Registration of tasks returns: with the keys of the constructor's
    config, over a calendar side that answers every add by an event with a
    fresh link, and from a table whose links the side has given,
    [register_items] on tasks that have the task schema raises nothing, and
    leaves every one of them registered and the table with links the side
    has given only; so it can be run again on any such tasks. *)
Theorem register_items_returns items s :
  config s = default_config → links_issued s →
  Forall (λ t, has_schema tw_item_schema t = true) items →
  ∃ s', register_items items "tw" s = (Ok tt, s')
    ∧ links_issued s'
    ∧ Forall (λ t, registered "tw" "uuid" t s') items.
Proof.
  intros Hc Hs Hitems.
  rewrite (register_items_run items "tw" s "uuid" "htmlLink")
    by (rewrite ?Hc; done || set_solver).
  destruct (pfor_returns links_issued items
    (register_item "tw" "uuid" "htmlLink")) with (s := s)
    as (s' & Hrun & Hs'); [|done|].
  - intros t s0 Ht Hs0. apply register_item_task_returns; [|done].
    by apply (proj1 (Forall_forall _ _) Hitems).
  - exists s'. split_and!; [done..|].
    eapply (pfor_all_done _ (registered "tw" "uuid"));
      eauto using register_item_done, register_item_keeps.
Qed.

End liveness.

(** ** Witnesses *)

Lemma register_items_returns_witness :
  ∃ s', register_items [milk_task] "tw" fake_aggregator = (Ok tt, s')
    ∧ links_issued s'
    ∧ Forall (λ t, registered "tw" "uuid" t s') [milk_task].
Proof.
  apply (register_items_returns [milk_task] fake_aggregator eq_refl
    (links_issued_empty fake_aggregator eq_refl)).
  by repeat constructor.
Defined.
