(* ===== verification/DeletionSync.v ===== *)
(** Deletion propagation: [synchronise_deleted_items], which the script
    calls on the aggregator once for each side.

    The method is not among the sources; it is modelled from its
    specification: for the given side, every identifier that the
    correspondence table holds for that side is looked up in the side's
    current listing; when the item is gone, the mirrored item is deleted on
    the opposite side through its adapter, and then the entry is removed
    from the table.

    The identifier of a listed item is computed as [register_items] computes
    it ([item_id]): the string of the value under the side's identifier
    key.  The entries are visited in the order of the table's keys.

    Proved here: the invariants a pass keeps, for any predicate that does
    not depend on the sides and is kept by the removal of an entry; the
    view of the table after a pass that returns; that a second pass against
    the same listing changes nothing. *)

From stdpp Require Import base tactics option list strings gmap.
From S2P Require Import Prelude PyString PyValue Codecs Converter RoundTrip.
From S2P Require Import Bidict Sides Fakes Aggregator.

#[local] Open Scope prog_scope.

Section deletion_sync.
Context {C G : Type} `{TaskwClient C, GenericSide (tw_side C), GCalSideLib G}.
Context `{UuidLib, DateTimeLib, ContainerLib}.

(** The listing of a side and the deletion on a side, by the kind of its
    items. *)
Definition list_side (ty : string) : prog (aggregator C G) (list item) :=
  if decide (ty = "tw") then on_tw (side_get_all_items None true)
  else on_gcal (side_get_all_items None true).

Definition delete_on_side (ty : string) (k : hkey)
    : prog (aggregator C G) unit :=
  if decide (ty = "tw") then on_tw (side_delete_item k)
  else on_gcal (side_delete_item k).

(** One entry of the table: nothing when its item is still listed, else the
    deletion of the mirrored item and then the removal of the entry. *)
Definition forget_item (ty : string) (present : list hkey) (k : hkey)
    : prog (aggregator C G) unit :=
  s <- pget ;;
  match fwd (registered_view ty (tw_gcal_ids s)) !! k with
  | None => pret tt
  | Some mirrored =>
      if bool_decide (k ∈ present) then pret tt
      else
        delete_on_side (opposite_type ty) mirrored ;;
        s <- pget ;;
        ids <- plift (bidict_delitem k (registered_view ty (tw_gcal_ids s))) ;;
        pput (set_tw_gcal_ids (registered_view ty ids) s)
  end.

Definition synchronise_deleted_items (ty : string)
    : prog (aggregator C G) unit :=
  s <- pget ;;
  type_key <- plift (getitem (config s) (ty +:+ "_id_key")) ;;
  items <- list_side ty ;;
  present <- plift (mapM_result (item_id type_key) items) ;;
  s <- pget ;;
  let keys := (map_to_list (fwd (registered_view ty (tw_gcal_ids s)))).*1 in
  pfor keys (forget_item ty present).

(** ** Invariants *)

Implicit Types (I : aggregator C G → Prop).

(** A predicate that does not depend on the sides. *)
Definition side_independent I : Prop :=
  ∀ s t g, I s → I (Aggregator (config s) t g (tw_gcal_ids s)).

(** A predicate kept when an entry whose item is gone is removed. *)
Definition kept_by_removal ty (present : list hkey) I : Prop :=
  ∀ s k ids, I s → k ∉ present →
    bidict_delitem k (registered_view ty (tw_gcal_ids s)) = Ok ids →
    I (set_tw_gcal_ids (registered_view ty ids) s).

Lemma on_tw_preserves {A} I (m : prog (tw_side C) A) :
  side_independent I → preserves I (on_tw m).
Proof.
  intros HI s Hs. unfold on_tw. destruct (m (agg_tw_side s)) as [r t].
  apply (HI s t (agg_gcal_side s) Hs).
Qed.

Lemma on_gcal_preserves {A} I (m : prog G A) :
  side_independent I → preserves I (on_gcal m).
Proof.
  intros HI s Hs. unfold on_gcal. destruct (m (agg_gcal_side s)) as [r g].
  apply (HI s (agg_tw_side s) g Hs).
Qed.

Lemma list_side_preserves I ty : side_independent I → preserves I (list_side ty).
Proof.
  intros HI. unfold list_side.
  case_decide; auto using on_tw_preserves, on_gcal_preserves.
Qed.

Lemma delete_on_side_preserves I ty k :
  side_independent I → preserves I (delete_on_side ty k).
Proof.
  intros HI. unfold delete_on_side.
  case_decide; auto using on_tw_preserves, on_gcal_preserves.
Qed.

Lemma forget_item_preserves I ty present k :
  side_independent I → kept_by_removal ty present I →
  preserves I (forget_item ty present k).
Proof.
  intros HI Hrm. unfold forget_item. apply preserves_pget_bind. intros s Hs.
  destruct (fwd _ !! k) as [mirrored|]; [|done].
  case_bool_decide as Hk; [done|].
  apply preserves_pbind; [by apply delete_on_side_preserves| |done]. intros _.
  apply preserves_pget_bind. intros s' Hs'. unfold pbind, plift, pput.
  destruct (bidict_delitem _ _) as [ids|] eqn:Hdel; simpl; eauto.
Qed.

Lemma synchronise_deleted_items_preserves I ty :
  side_independent I → (∀ present, kept_by_removal ty present I) →
  preserves I (synchronise_deleted_items ty).
Proof.
  intros HI Hrm. unfold synchronise_deleted_items.
  apply preserves_pget_bind. intros s Hs.
  apply preserves_pbind; [apply preserves_plift| |done]. intros tk.
  apply preserves_pbind; [by apply list_side_preserves|]. intros items.
  apply preserves_pbind; [apply preserves_plift|]. intros present.
  apply preserves_pget_bind. intros s' Hs'.
  apply preserves_pfor; [|done]. intros. by apply forget_item_preserves.
Qed.

Lemma wf_side_independent :
  side_independent (λ s, bidict_wf (tw_gcal_ids s)).
Proof. by intros s t g. Qed.

Lemma wf_kept_by_removal ty present :
  kept_by_removal ty present (λ s, bidict_wf (tw_gcal_ids s)).
Proof. intros s k ids Hs _ Hdel. simpl. eauto with py. Qed.

(** ** The table after a pass *)

Implicit Types (s : aggregator C G) (k : hkey) (present : list hkey).

(** The calls on the sides leave the table and the config alone. *)
Lemma table_side_independent (b : bidict) (c : gmap string string) :
  side_independent (λ s, tw_gcal_ids s = b ∧ config s = c).
Proof. by intros s t g. Qed.

Lemma list_side_table ty s :
  tw_gcal_ids (list_side ty s).2 = tw_gcal_ids s
  ∧ config (list_side ty s).2 = config s.
Proof.
  by apply (list_side_preserves _ ty
    (table_side_independent (tw_gcal_ids s) (config s))).
Qed.

Lemma delete_on_side_table ty k s :
  tw_gcal_ids (delete_on_side ty k s).2 = tw_gcal_ids s.
Proof.
  by apply (delete_on_side_preserves _ ty k
    (table_side_independent (tw_gcal_ids s) (config s))).
Qed.

(** The view of the table, as a map. *)
Definition view_of ty s : gmap hkey hkey :=
  fwd (registered_view ty (tw_gcal_ids s)).

(** An entry is settled when the view does not hold it or its item is
    listed: [forget_item] leaves it alone. *)
Definition settled ty present k s : Prop :=
  view_of ty s !! k = None ∨ k ∈ present.

Lemma forget_item_skip ty present k s :
  settled ty present k s → forget_item ty present k s = (Ok tt, s).
Proof.
  unfold settled, view_of, forget_item, pbind, pget. simpl.
  intros [->|Hk]; [done|]. destruct (fwd _ !! k); [|done].
  by rewrite bool_decide_eq_true_2.
Qed.

(** An entry whose item is gone: the mirrored item is deleted, and when
    that returns the entry is removed. *)
Lemma forget_item_gone ty present k mirrored s :
  view_of ty s !! k = Some mirrored → k ∉ present →
  let run := delete_on_side (opposite_type ty) mirrored s in
  forget_item ty present k s =
    match run.1 with
    | Ok _ =>
        (Ok tt, set_tw_gcal_ids (registered_view ty
           (Bidict (delete k (view_of ty run.2))
                   (delete mirrored (bwd (registered_view ty
                      (tw_gcal_ids run.2)))))) run.2)
    | Err e => (Err e, run.2)
    end.
Proof.
  unfold view_of, forget_item, pbind, pget, plift, pput. simpl.
  intros Hk Hp. rewrite Hk, bool_decide_eq_false_2 by done.
  pose proof (delete_on_side_table (opposite_type ty) mirrored s) as Ht.
  destruct (delete_on_side _ _ s) as [[[]|e] s1]; simpl in *; [|done].
  unfold bidict_delitem. by rewrite Ht, Hk.
Qed.

(** The view after one entry has been visited, when the visit returns. *)
Lemma forget_item_view ty present k s s' k0 :
  forget_item ty present k s = (Ok tt, s') →
  view_of ty s' !! k0 =
    if decide (k0 = k ∧ k0 ∉ present) then None else view_of ty s !! k0.
Proof.
  destruct (view_of ty s !! k) as [m|] eqn:Hk.
  2:{ rewrite forget_item_skip by by left. intros [= <-].
      case_decide as Hc; [|done]. by destruct Hc as [-> _]. }
  destruct (decide (k ∈ present)) as [Hp|Hp].
  { rewrite forget_item_skip by by right. intros [= <-].
    case_decide as Hc; [|done]. by destruct Hc as [-> []]. }
  rewrite (forget_item_gone _ _ _ _ _ Hk Hp). cbn zeta.
  pose proof (delete_on_side_table (opposite_type ty) m s) as Ht.
  destruct (delete_on_side _ _ s) as [[[]|e] s1]; simpl in *; [|done].
  intros [= <-]. unfold view_of. simpl.
  rewrite registered_view_involutive, Ht. simpl.
  destruct (decide (k0 = k)) as [->|Hne].
  - rewrite lookup_delete_eq. by rewrite decide_True.
  - rewrite lookup_delete_ne by done. rewrite decide_False; [done|].
    by intros [? _].
Qed.

Lemma pfor_forget_item_view ty present ks s s' k0 :
  pfor ks (forget_item ty present) s = (Ok tt, s') →
  view_of ty s' !! k0 =
    if decide (k0 ∈ ks ∧ k0 ∉ present) then None else view_of ty s !! k0.
Proof.
  revert s. induction ks as [|k ks IH]; intros s.
  { intros [= <-]. rewrite decide_False; [done|]. by intros [?%elem_of_nil _]. }
  rewrite pfor_cons. unfold pbind.
  destruct (forget_item ty present k s) as [[[]|e] s1] eqn:Hk; [|done].
  intros Hks. rewrite (IH _ Hks), (forget_item_view _ _ _ _ _ k0 Hk).
  repeat case_decide; try done; set_solver.
Qed.

Lemma elem_of_keys (m : gmap hkey hkey) k :
  k ∈ (map_to_list m).*1 ↔ is_Some (m !! k).
Proof.
  rewrite list_elem_of_fmap. split.
  - intros ([k' v] & -> & Hkv%elem_of_map_to_list). by exists v.
  - intros [v Hv]. exists (k, v). by rewrite elem_of_map_to_list.
Qed.

(** The pass under its header: the listing, then the loop over the keys
    of the view. *)
Lemma synchronise_deleted_items_run ty s tk items present :
  config s !! (ty +:+ "_id_key") = Some tk →
  (list_side ty s).1 = Ok items →
  mapM_result (item_id tk) items = Ok present →
  synchronise_deleted_items ty s =
    pfor (map_to_list (view_of ty s)).*1 (forget_item ty present)
      (list_side ty s).2.
Proof.
  intros Htk Hitems Hpresent. unfold synchronise_deleted_items, pbind, pget, plift.
  simpl. rewrite (getitem_Some _ _ _ Htk).
  destruct (list_side_table ty s) as [Ht _].
  destruct (list_side ty s) as [r s1]; simpl in *; subst r.
  by rewrite Hpresent; unfold view_of; rewrite Ht.
Qed.

Lemma synchronise_deleted_items_Ok_inv ty s s' :
  synchronise_deleted_items ty s = (Ok tt, s') →
  ∃ tk items present,
    config s !! (ty +:+ "_id_key") = Some tk
    ∧ (list_side ty s).1 = Ok items
    ∧ mapM_result (item_id tk) items = Ok present
    ∧ pfor (map_to_list (view_of ty s)).*1 (forget_item ty present)
        (list_side ty s).2 = (Ok tt, s').
Proof.
  intros Hrun.
  destruct (config s !! (ty +:+ "_id_key")) as [tk|] eqn:Htk.
  2:{ revert Hrun. unfold synchronise_deleted_items, pbind, pget, plift.
      simpl. by rewrite (getitem_None _ _ Htk). }
  destruct (list_side ty s).1 as [items|e] eqn:Hitems.
  2:{ revert Hrun. unfold synchronise_deleted_items, pbind, pget, plift.
      simpl. rewrite (getitem_Some _ _ _ Htk).
      destruct (list_side ty s) as [r s1]; simpl in *. by subst r. }
  destruct (mapM_result (item_id tk) items) as [present|e] eqn:Hpresent.
  - rewrite (synchronise_deleted_items_run _ _ _ _ _ Htk Hitems Hpresent)
      in Hrun. eauto 10.
  - revert Hrun. unfold synchronise_deleted_items, pbind, pget, plift.
    simpl. rewrite (getitem_Some _ _ _ Htk).
    destruct (list_side ty s) as [r s1]; simpl in *; subst r.
    by rewrite Hpresent.
Qed.

Lemma synchronise_deleted_items_config ty s :
  config (synchronise_deleted_items ty s).2 = config s.
Proof.
  apply (synchronise_deleted_items_preserves (λ s', config s' = config s) ty);
    [by intros ? ? ?|by intros ? ? ? ?|done].
Qed.

(** ** Properties *)

(** C30. Deletion propagation, when the pass returns: the entries of the
    view of the table for the given side are afterwards exactly the entries
    it had whose identifier is the identifier of an item that the side
    lists; every other entry is removed. *)
Theorem synchronise_deleted_items_view ty s s' :
  synchronise_deleted_items ty s = (Ok tt, s') →
  ∃ tk items present,
    config s !! (ty +:+ "_id_key") = Some tk
    ∧ (list_side ty s).1 = Ok items
    ∧ mapM_result (item_id tk) items = Ok present
    ∧ ∀ k, fwd (registered_view ty (tw_gcal_ids s')) !! k =
        if decide (k ∈ present)
        then fwd (registered_view ty (tw_gcal_ids s)) !! k else None.
Proof.
  intros (tk & items & present & Htk & Hitems & Hpresent & Hrun)
    %synchronise_deleted_items_Ok_inv.
  exists tk, items, present. split_and!; [done..|]. intros k.
  pose proof (pfor_forget_item_view _ _ _ _ _ k Hrun) as Hk.
  destruct (list_side_table ty s) as [Ht _].
  unfold view_of in *. rewrite Ht in Hk. rewrite Hk.
  destruct (decide (k ∈ present)) as [Hp|Hp].
  { by rewrite decide_False by naive_solver. }
  case_decide as Hin; [done|]. apply eq_None_not_Some. intros Hs.
  apply Hin. split; [|done]. by apply elem_of_keys.
Qed.

(** A second deletion pass is a no-op: when the pass returns, and the side
    then lists the same items without changing its state, the pass run
    again returns and leaves the state as it is. *)
Lemma synchronise_deleted_items_idempotent ty s s' :
  synchronise_deleted_items ty s = (Ok tt, s') →
  list_side ty s' = ((list_side ty s).1, s') →
  synchronise_deleted_items ty s' = (Ok tt, s').
Proof.
  intros Hrun Hlist. pose proof (synchronise_deleted_items_config ty s) as Hc.
  rewrite Hrun in Hc. simpl in Hc.
  apply synchronise_deleted_items_Ok_inv in Hrun
    as (tk & items & present & Htk & Hitems & Hpresent & Hrun).
  rewrite (synchronise_deleted_items_run ty s' tk items present);
    [|by rewrite Hc|by rewrite Hlist|done].
  rewrite Hlist. simpl. apply (pfor_skip _ (settled ty present));
    [apply forget_item_skip|].
  apply Forall_forall. intros k [m Hk]%elem_of_keys.
  rewrite (pfor_forget_item_view _ _ _ _ _ k Hrun) in Hk.
  case_decide as Hd; [done|]. right.
  destruct (decide (k ∈ present)) as [|Hp]; [done|].
  destruct Hd. split; [|done]. apply elem_of_keys.
  destruct (list_side_table ty s) as [Ht _]. unfold view_of in *.
  rewrite <- Ht. eauto.
Qed.

End deletion_sync.

(** ** Witnesses

    The state in which the task of [RoundTrip] is registered and the task
    client lists nothing: the task is gone, and the pass removes its
    entry. *)

Definition milk_forgotten : aggregator fake_taskw fake_gcal :=
  (synchronise_deleted_items "tw" milk_registered).2.

(** The in-memory task side lists without changing its state. *)
Lemma fake_list_side_tw_state (s : aggregator fake_taskw fake_gcal) :
  (list_side "tw" s).2 = s.
Proof.
  destruct s as [c [tc cl] g ids]. unfold list_side. simpl.
  unfold on_tw, get_items, pbind, pget, plift. simpl.
  by destruct (getitem tc "tags").
Qed.

Lemma synchronise_deleted_items_view_witness :
  ∃ tk items present,
    config milk_registered !! ("tw" +:+ "_id_key") = Some tk
    ∧ (list_side "tw" milk_registered).1 = Ok items
    ∧ mapM_result (item_id tk) items = Ok present
    ∧ ∀ k, fwd (registered_view "tw" (tw_gcal_ids milk_forgotten)) !! k =
        if decide (k ∈ present)
        then fwd (registered_view "tw" (tw_gcal_ids milk_registered)) !! k
        else None.
Proof.
  apply (synchronise_deleted_items_view "tw" milk_registered).
  apply run_Ok. by vm_compute.
Defined.

Lemma synchronise_deleted_items_idempotent_witness :
  synchronise_deleted_items "tw" milk_forgotten = (Ok tt, milk_forgotten).
Proof.
  apply (synchronise_deleted_items_idempotent "tw" milk_registered).
  - apply run_Ok. by vm_compute.
  - apply injective_projections;
      [by vm_compute|apply fake_list_side_tw_state].
Defined.
