(* ===== verification/SyncScript.v ===== *)
(** The command-line script,
    [src/taskw_gcal_sync/scripts/tw_gcal_sync.py].

    [main] (lines 36-65) checks the number of tags, builds the two configs,
    constructs the aggregator and, inside the [with] statement, runs one
    synchronisation pass ([sync_pass]): start, registration of the task
    side's items, then of the calendar side's, then deletion propagation
    for each side.  The [with] statement is [with_aggregator]: [__enter__],
    the body, then [__exit__], which calls [cleanup] however the body ends
    and lets an exception through.

    The decorators of [main] (lines 7-35) are [command]: the declarations
    of the five options applied to an [invocation], the values [click]
    collected for each option, then the call of [main].

    The run of [main] is a [result], the aggregator it ends with, if it
    built one, and the preferences manager of the process, if the
    constructor got as far as making it.  The set-up of the logger is left
    out. *)

From stdpp Require Import base tactics option list strings gmap.
From S2P Require Import Prelude PyString PyValue Codecs Converter RoundTrip.
From S2P Require Import Bidict PrefsManager Sides Fakes Aggregator DeletionSync.

#[local] Open Scope prog_scope.

Section script.
Context {C G : Type} `{TaskwClient C, GenericSide (tw_side C), GCalSideLib G}.
Context `{UuidLib, DateTimeLib, ContainerLib}.

(** [with aggregator: body]: [__enter__] returns the aggregator, [__exit__]
    calls [cleanup] and returns [None], so the outcome is the body's. *)
Definition with_aggregator {A} (body : prog (aggregator C G) A)
    : prog (aggregator C G) A :=
  λ s,
    match __enter__ s with
    | (Err e, s0) => (Err e, s0)
    | (Ok _, s0) => let '(r, s') := body s0 in (r, (__exit__ s').2)
    end.

(** The body of the [with] statement, lines 48-65. *)
Definition sync_pass (order_by : option string) (ascending_order : bool)
    : prog (aggregator C G) unit :=
  start ;;
  tw_items <- on_tw (side_get_all_items order_by ascending_order) ;;
  register_items tw_items "tw" ;;
  gcal_items <- on_gcal (side_get_all_items order_by ascending_order) ;;
  register_items gcal_items "gcal" ;;
  synchronise_deleted_items "tw" ;;
  synchronise_deleted_items "gcal".

(** [main]: the options as [click] parsed them, then what the aggregator's
    constructor takes from its environment (the task client, the directory
    of the preferences and the storage they are loaded from).  The process
    has no preferences manager before the constructor makes one. *)
Definition main (gcal_calendar : string) (tw_tags : list string)
    (order_by : option string) (ascending_order : bool) (verbose : nat)
    (client : C) (prefs_dir : string) (disk : storage)
    : result unit * option (aggregator C G) * option prefs_manager :=
  if negb (length tw_tags =? 1) then (Err RuntimeError, None, None)
  else
    let tw_config := VDict {[ "tags" := VList (VStr <$> tw_tags) ]} in
    let gcal_config := VDict {[ "calendar_summary" := VStr gcal_calendar ]} in
    match aggregator_init tw_config gcal_config ∅ client prefs_dir disk None with
    | (Err e, pm) => (Err e, None, pm)
    | (Ok aggregator, pm) =>
        let '(r, s) :=
          with_aggregator (sync_pass order_by ascending_order) aggregator in
        (r, Some s, pm)
    end.

(** ** The command line

    The decorators of [main] (lines 7-35) declare five options.  An
    [invocation] holds what [click] collected from the arguments before it
    applies the declarations: the values given for each option, in order. *)
Record invocation : Type := Invocation {
  given_gcal_calendar : list string;
  given_tw_tags : list string;
  given_order_by : list string;
  given_ascending_order : list bool;
  given_verbose : nat
}.

(** The [click.Choice] of [--order-by], line 27. *)
Definition order_by_choices : list string :=
  ["description"; "end"; "entry"; "id"; "modified"; "status"; "urgency"].

(** [-c]: required; the last value given is the option's. *)
Definition gcal_calendar_option (inv : invocation) : result string :=
  match last (given_gcal_calendar inv) with
  | None => Err UsageError
  | Some c => Ok c
  end.

(** [-t]: required and multiple; every value given, as a tuple. *)
Definition tw_tags_option (inv : invocation) : result (list string) :=
  if bool_decide (given_tw_tags inv = []) then Err UsageError
  else Ok (given_tw_tags inv).

(** [-o]: optional, [None] when absent; the last value given is the
    option's, and it must be one of the choices. *)
Definition order_by_option (inv : invocation) : result (option string) :=
  match last (given_order_by inv) with
  | None => Ok None
  | Some o =>
      if bool_decide (o ∈ order_by_choices) then Ok (Some o)
      else Err UsageError
  end.

(** [--ascending-order/--descending-order]: a flag, [True] by default. *)
Definition ascending_order_option (inv : invocation) : bool :=
  default true (last (given_ascending_order inv)).

(** The command [click] makes of [main]: the declarations are applied and
    [main] is called with the values.  Every failure of a declaration is
    the same usage error, so the order in which [click] handles the
    options does not show. *)
Definition command (inv : invocation)
    (client : C) (prefs_dir : string) (disk : storage)
    : result unit * option (aggregator C G) * option prefs_manager :=
  match
    (gcal_calendar <- gcal_calendar_option inv ;;
     tw_tags <- tw_tags_option inv ;;
     order_by <- order_by_option inv ;;
     Ok (gcal_calendar, tw_tags, order_by))%result
  with
  | Err e => (Err e, None, None)
  | Ok (gcal_calendar, tw_tags, order_by) =>
      main gcal_calendar tw_tags order_by (ascending_order_option inv)
        (given_verbose inv) client prefs_dir disk
  end.

(** An invocation that passes the declarations: a calendar and a tag are
    given, and the ordering key, if any, is one of the choices. *)
Definition usable (inv : invocation) : bool :=
  bool_decide (given_gcal_calendar inv ≠ [])
  && bool_decide (given_tw_tags inv ≠ [])
  && from_option (λ o, bool_decide (o ∈ order_by_choices)) true
       (last (given_order_by inv)).

(** ** Lemmas *)

Lemma with_aggregator_run {A} (body : prog (aggregator C G) A) s :
  with_aggregator body s = body s.
Proof. unfold with_aggregator. simpl. by destruct (body s). Qed.

(** What the declarations let through to [main]: a calendar, at least one
    tag, and an ordering key that is one of the choices when there is one. *)
Lemma order_by_option_choice inv o :
  order_by_option inv = Ok (Some o) → o ∈ order_by_choices.
Proof.
  unfold order_by_option. destruct (last _) as [o'|]; [|done].
  case_bool_decide; [|done]. by intros [= <-].
Qed.

(** The options that pass the declarations, one by one. *)
Lemma gcal_calendar_option_run inv :
  gcal_calendar_option inv
  = if bool_decide (given_gcal_calendar inv ≠ [])
    then Ok (default "" (last (given_gcal_calendar inv))) else Err UsageError.
Proof.
  unfold gcal_calendar_option.
  destruct (last _) as [c|] eqn:Hc.
  - rewrite bool_decide_eq_true_2; [done|]. intros E. by rewrite E in Hc.
  - apply last_None in Hc. by rewrite Hc.
Qed.

Lemma tw_tags_option_run inv :
  tw_tags_option inv
  = if bool_decide (given_tw_tags inv ≠ [])
    then Ok (given_tw_tags inv) else Err UsageError.
Proof.
  unfold tw_tags_option. case_bool_decide as Ht.
  - by rewrite bool_decide_eq_false_2 by naive_solver.
  - by rewrite bool_decide_eq_true_2.
Qed.

Lemma order_by_option_run inv :
  order_by_option inv
  = if from_option (λ o, bool_decide (o ∈ order_by_choices)) true
         (last (given_order_by inv))
    then Ok (last (given_order_by inv)) else Err UsageError.
Proof. unfold order_by_option. by destruct (last _). Qed.

Lemma start_preserves (I : aggregator C G → Prop) :
  side_independent I → preserves I start.
Proof.
  intros HI. unfold start.
  apply preserves_pbind; auto using on_tw_preserves, on_gcal_preserves.
Qed.

(** An invariant of registration and of deletion propagation is an
    invariant of the pass. *)
Lemma sync_pass_preserves (I : aggregator C G → Prop) order_by ascending_order :
  side_independent I →
  (∀ ty, kept_by_write ty I) →
  (∀ ty present, kept_by_removal ty present I) →
  preserves I (sync_pass order_by ascending_order).
Proof.
  intros HI Hw Hrm. unfold sync_pass.
  assert (kept_by_add I) as Ha by (intros s g; apply HI).
  pose proof (start_preserves I HI).
  do 6 (apply preserves_pbind; [|intros ?]; first
    by auto using on_tw_preserves, on_gcal_preserves,
      register_items_preserves, synchronise_deleted_items_preserves).
  by apply synchronise_deleted_items_preserves.
Qed.

(** ** Properties *)

(** The script cannot get past the constructor: whatever the options
    and the environment, [main] raises [RuntimeError] and builds no
    aggregator.  With a number of tags other than one it raises at once;
    with one tag it passes the tags as a list, which the constructor of the
    task side rejects, after the constructor of the aggregator has made
    the preferences manager. *)
Lemma main_raises gcal_calendar tw_tags order_by ascending_order verbose
    (client : C) prefs_dir disk :
  main gcal_calendar tw_tags order_by ascending_order verbose client
    prefs_dir disk
  = (Err RuntimeError, None,
     if length tw_tags =? 1 then Some (prefs_manager_init prefs_dir disk)
     else None).
Proof.
  unfold main. destruct (length tw_tags =? 1); [|done]. simpl.
  rewrite aggregator_init_dicts. cbn zeta. by rewrite lookup_singleton_eq.
Qed.

(** A synchronisation pass keeps the correspondence table a bijection,
    whether it returns or raises at any of its steps: the invariant of the
    two registrations and the two deletion propagations, composed. *)
Lemma sync_pass_wf order_by ascending_order s :
  bidict_wf (tw_gcal_ids s) →
  bidict_wf (tw_gcal_ids
    (with_aggregator (sync_pass order_by ascending_order) s).2).
Proof.
  rewrite with_aggregator_run.
  apply (sync_pass_preserves (λ s, bidict_wf (tw_gcal_ids s)));
    auto using wf_side_independent, wf_kept_by_write, wf_kept_by_removal.
Qed.

(** The outcome of the command on every command line: when a required
    option ([-c], [-t]) is missing or the last [-o] is not one of the
    seven choices it is the usage error of [click], and [main] is not
    called; otherwise [main] is called and raises its [RuntimeError].
    Neither way is an aggregator built; a preferences manager is made
    when [main] is called with one tag, and holds what it loaded. *)
Lemma command_outcome inv (client : C) prefs_dir disk :
  command inv client prefs_dir disk
  = (Err (if usable inv then RuntimeError else UsageError), None,
     if usable inv && (length (given_tw_tags inv) =? 1)
     then Some (prefs_manager_init prefs_dir disk) else None).
Proof.
  unfold command, usable.
  rewrite gcal_calendar_option_run, tw_tags_option_run, order_by_option_run.
  destruct (bool_decide (given_gcal_calendar inv ≠ [])); simpl; [|done].
  destruct (bool_decide (given_tw_tags inv ≠ [])); simpl; [|done].
  destruct (from_option _ _ _); simpl; [|done]. apply main_raises.
Qed.

End script.

(** ** Witnesses *)

Lemma sync_pass_wf_witness :
  bidict_wf (tw_gcal_ids
    (with_aggregator (sync_pass (Some "description") true)
       fake_aggregator).2).
Proof.
  exact (sync_pass_wf (Some "description") true fake_aggregator
    bidict_empty_wf).
Defined.
