(* ===== verification/Session.v ===== *)
(** The life of an aggregator, as a state machine.

    After its constructor an object of class [TWGCalAggregator]
    ([src/taskw_gcal_sync/TWGCalAggregator.py]) changes only through calls
    of its methods and of its sides' listings, in any order, with any
    arguments, whether a call returns or raises ([call], [run_call]).
    [reachable s0] is the set of the states such calls lead to from [s0];
    the pass of the script ([sync_pass] of [SyncScript]) is one such
    sequence.

    The theorem of the file is an invariant of every reachable state of a
    constructed aggregator, by induction on [reachable]: the table is a
    bijection and the config is the constructor's, so [register_items] and
    [synchronise_deleted_items] never fail on their headers. *)

From stdpp Require Import base tactics option list strings gmap.
From S2P Require Import Prelude PyString PyValue Codecs Converter RoundTrip.
From S2P Require Import Bidict PrefsManager Sides Fakes Aggregator.
From S2P Require Import DeletionSync SyncScript.

#[local] Open Scope prog_scope.

(** ** Calls *)

Inductive call : Type :=
| CallStart
| CallTwGetAllItems (order_by : option string) (ascending_order : bool)
| CallGcalGetAllItems (order_by : option string) (ascending_order : bool)
| CallRegisterItems (items : list item) (item_type : string)
| CallSynchroniseDeletedItems (item_type : string)
| CallFindInTw (gcal_item : item)
| CallFindInGcal (tw_item : item)
| CallCleanup.

#[export] Instance call_eq_dec : EqDecision call.
Proof. solve_decision. Defined.

Section session.
Context {C G : Type} `{TaskwClient C, GenericSide (tw_side C), GCalSideLib G}.
Context `{UuidLib, DateTimeLib, ContainerLib}.
Implicit Types (s : aggregator C G) (c : call) (cs : list call).
Implicit Types (I : aggregator C G → Prop).

(** A call, with its result dropped: what it leaves of the object. *)
Definition run_call (c : call) : prog (aggregator C G) unit :=
  match c with
  | CallStart => start
  | CallTwGetAllItems order_by ascending_order =>
      on_tw (side_get_all_items order_by ascending_order) ;; pret tt
  | CallGcalGetAllItems order_by ascending_order =>
      on_gcal (side_get_all_items order_by ascending_order) ;; pret tt
  | CallRegisterItems items item_type => register_items items item_type
  | CallSynchroniseDeletedItems item_type =>
      synchronise_deleted_items item_type
  | CallFindInTw gcal_item => find_in_tw gcal_item ;; pret tt
  | CallFindInGcal tw_item => find_in_gcal tw_item ;; pret tt
  | CallCleanup => cleanup
  end.

(** The states a sequence of calls leads to; a caller may go on after a
    call that raised. *)
Inductive reachable (s0 : aggregator C G) : aggregator C G → Prop :=
  | reachable_init : reachable s0 s0
  | reachable_call s c :
      reachable s0 s → reachable s0 (run_call c s).2.

(** The same, as a function of the list of calls. *)
Definition run_calls (cs : list call) (s : aggregator C G) : aggregator C G :=
  foldl (λ s c, (run_call c s).2) s cs.

(** The calls of the pass of the script, in order. *)
Definition sync_pass_calls (order_by : option string) (ascending_order : bool)
    (tw_items gcal_items : list item) : list call :=
  [ CallStart;
    CallTwGetAllItems order_by ascending_order;
    CallRegisterItems tw_items "tw";
    CallGcalGetAllItems order_by ascending_order;
    CallRegisterItems gcal_items "gcal";
    CallSynchroniseDeletedItems "tw";
    CallSynchroniseDeletedItems "gcal" ].

(** ** Reachability *)

Lemma reachable_trans s0 s1 s2 :
  reachable s0 s1 → reachable s1 s2 → reachable s0 s2.
Proof. induction 2; eauto using reachable. Qed.

Lemma run_calls_reachable cs s : reachable s (run_calls cs s).
Proof.
  revert s. induction cs as [|c cs IH]; intros s; [constructor|].
  eapply reachable_trans; [|apply IH]. eauto using reachable.
Qed.

Lemma reachable_run_calls s0 s : reachable s0 s ↔ ∃ cs, s = run_calls cs s0.
Proof.
  split; [|intros [cs ->]; apply run_calls_reachable].
  induction 1 as [|s c _ [cs ->]]; [by exists []|].
  exists (cs ++ [c]). unfold run_calls. by rewrite foldl_app.
Qed.

(** A sequence of programs that stops at the first exception ends in a
    state that each of them alone can reach. *)
Lemma pbind_reachable {A B} (m : prog (aggregator C G) A)
    (f : A → prog (aggregator C G) B) s0 s :
  reachable s0 s →
  (∀ s, reachable s0 s → reachable s0 (m s).2) →
  (∀ a s, reachable s0 s → reachable s0 (f a s).2) →
  reachable s0 (pbind m f s).2.
Proof.
  intros Hs Hm Hf. unfold pbind. specialize (Hm s Hs).
  destruct (m s) as [[a|e] s1]; simpl in *; auto.
Qed.

Lemma run_call_reachable c s0 s :
  reachable s0 s → reachable s0 (run_call c s).2.
Proof. apply reachable_call. Qed.

Lemma list_reachable (side : bool) order_by ascending_order s0 s :
  reachable s0 s →
  reachable s0
    ((if side then on_tw (side_get_all_items order_by ascending_order)
      else on_gcal (side_get_all_items order_by ascending_order)) s).2.
Proof.
  intros Hs. destruct side.
  - pose proof (reachable_call s0 s
      (CallTwGetAllItems order_by ascending_order) Hs) as Hc.
    simpl in Hc. unfold pbind in Hc. by destruct (on_tw _ s) as [[?|?] ?].
  - pose proof (reachable_call s0 s
      (CallGcalGetAllItems order_by ascending_order) Hs) as Hc.
    simpl in Hc. unfold pbind in Hc. by destruct (on_gcal _ s) as [[?|?] ?].
Qed.

(** The pass of the script ends in a reachable state, on every outcome. *)
Lemma sync_pass_reachable order_by ascending_order s :
  reachable s (with_aggregator (sync_pass order_by ascending_order) s).2.
Proof.
  rewrite with_aggregator_run. unfold sync_pass.
  apply pbind_reachable; [constructor|apply (run_call_reachable CallStart)|].
  intros _ s1 Hs1. apply pbind_reachable;
    [done|intros; by apply (list_reachable true)|].
  intros tw_items s2 Hs2. apply pbind_reachable;
    [done|apply (run_call_reachable (CallRegisterItems _ _))|].
  intros _ s3 Hs3. apply pbind_reachable;
    [done|intros; by apply (list_reachable false)|].
  intros gcal_items s4 Hs4. apply pbind_reachable;
    [done|apply (run_call_reachable (CallRegisterItems _ _))|].
  intros _ s5 Hs5. apply pbind_reachable;
    [done|apply (run_call_reachable (CallSynchroniseDeletedItems _))|].
  intros _ s6 Hs6. by apply (run_call_reachable (CallSynchroniseDeletedItems _)).
Qed.

(** ** Invariants *)

(** A predicate on the table and the config that writes of fresh keys and
    removals keep is kept by every call. *)
Lemma run_call_preserves I c :
  side_independent I →
  (∀ ty, kept_by_write ty I) →
  (∀ ty present, kept_by_removal ty present I) →
  preserves I (run_call c).
Proof.
  intros HI Hw Hrm.
  assert (kept_by_add I) as Ha by (intros s g; apply HI).
  destruct c; simpl;
    [by apply start_preserves
    |apply preserves_pbind; [by apply on_tw_preserves|intros; apply preserves_pret]
    |apply preserves_pbind; [by apply on_gcal_preserves|intros; apply preserves_pret]
    |by apply register_items_preserves
    |by apply synchronise_deleted_items_preserves
    |apply preserves_pbind; [|intros]; apply preserves_pret ..
    |apply preserves_pret].
Qed.

Lemma reachable_preserves I s0 s :
  side_independent I →
  (∀ ty, kept_by_write ty I) →
  (∀ ty present, kept_by_removal ty present I) →
  I s0 → reachable s0 s → I s.
Proof.
  intros HI Hw Hrm Hs0. induction 1 as [|s c _ IH]; [done|].
  by apply run_call_preserves.
Qed.

Lemma config_side_independent (c : gmap string string) :
  side_independent (λ s, config s = c).
Proof. by intros s t g. Qed.

Lemma config_kept_by_write ty (c : gmap string string) :
  kept_by_write ty (λ s, config s = c).
Proof. by intros k s h ids. Qed.

Lemma config_kept_by_removal ty present (c : gmap string string) :
  kept_by_removal ty present (λ s, config s = c).
Proof. by intros s k ids. Qed.

(** ** Properties *)

(** C10. An invariant of the aggregator over its whole life: from the
    object the constructor returns, over a storage whose table is a
    bijection if it has one, every state reached by any sequence of calls
    of [start], the listings of the sides, [register_items],
    [synchronise_deleted_items], [find_in_tw], [find_in_gcal] and
    [cleanup], with any arguments and whether the calls return or raise,
    has a table that is a bijection and the config of the constructor; so
    in every such state [register_items] passes its header and runs its
    loop with the keys ['uuid'] and ['htmlLink']. *)
Theorem reachable_invariant tw_config gcal_config kargs (client : C)
    prefs_dir disk held s0 pm s :
  aggregator_init tw_config gcal_config kargs client prefs_dir disk held
  = (Ok s0, pm) →
  (∀ b, disk !! "tw_gcal_ids" = Some b → bidict_wf b) →
  reachable s0 s →
  bidict_wf (tw_gcal_ids s) ∧ config s = default_config
  ∧ ∀ items,
      register_items items "tw" s
      = pfor items (register_item "tw" "uuid" "htmlLink") s.
Proof.
  intros (Hc & Hids & _)%aggregator_init_Ok_inv Hstored Hs.
  assert (config s = default_config) as Hcs.
  { apply (reachable_preserves (λ s, config s = default_config) s0);
      auto using config_side_independent, config_kept_by_write,
        config_kept_by_removal. }
  split_and!; [|done|].
  - apply (reachable_preserves (λ s, bidict_wf (tw_gcal_ids s)) s0);
      auto using wf_side_independent, wf_kept_by_write, wf_kept_by_removal.
    rewrite Hids. destruct (disk !! "tw_gcal_ids"); simpl;
      auto using bidict_empty_wf.
  - intros items. apply register_items_run; rewrite ?Hcs; [set_solver|done..].
Qed.

End session.

(** ** Witnesses *)

(** The aggregator the constructor builds over the in-memory sides, and
    the state after the calls of a pass that lists one task. *)
Definition fake_session : aggregator fake_taskw fake_gcal :=
  Aggregator default_config
    (TwSide (tw_side_config {[ "tags" := VStr "remindme" ]}) []) []
    bidict_empty.

Lemma fake_session_init :
  aggregator_init (VDict {[ "tags" := VStr "remindme" ]}) (VDict ∅) ∅ []
    "/home/user/.config" ∅ None
  = (Ok fake_session,
     Some (prefs_table (prefs_manager_init "/home/user/.config" ∅))).
Proof. reflexivity. Qed.

Lemma reachable_invariant_witness :
  let s := run_calls (sync_pass_calls None true [milk_task] []) fake_session in
  bidict_wf (tw_gcal_ids s) ∧ config s = default_config
  ∧ ∀ items,
      register_items items "tw" s
      = pfor items (register_item "tw" "uuid" "htmlLink") s.
Proof.
  apply (reachable_invariant _ _ _ _ _ _ _ fake_session _ _ fake_session_init);
    [by intros b; rewrite lookup_empty|apply run_calls_reachable].
Defined.

