(* ===== verification/Prefs.v ===== *)
(** The runs of the program over the persisted preferences.

    The constructor of the aggregator
    ([src/taskw_gcal_sync/TWGCalAggregator.py], lines 34 and 57-61) makes
    the preferences manager of [PrefsManager], binds [self.tw_gcal_ids] to
    the table held under its entry ['tw_gcal_ids'] and registers [cleanup]
    for the exit of the process.  The table of the aggregator and the
    entry of the preferences are one object: what the aggregator writes in
    the table is what the flush stores.  [live_prefs] reads the
    preferences of a running process through the aggregator for that
    reason.

    [process_exit] is the exit of a process, as the specification has it:
    the cleanup of the aggregator, if one was built, then the flush of the
    preferences manager, if one was made, whether the program returned or
    raised.  [run_program] is one run of a process: the constructor over
    the storage, a body, the exit.  [run_script] is the script as such a
    process, the command of [SyncScript] and the exit.

    The theorems are about several runs: a registration that returned is
    settled for the next run; and the script leaves the storage as it was
    on every command line, for its preferences manager, when it gets as
    far as making one, flushes what it loaded. *)

From stdpp Require Import base tactics option list strings gmap.
From S2P Require Import Prelude PyString PyValue Codecs Converter RoundTrip.
From S2P Require Import Bidict PrefsManager Sides Fakes Aggregator.
From S2P Require Import DeletionSync SyncScript Session.

#[local] Open Scope prog_scope.

Section prefs.
Context {C G : Type} `{TaskwClient C, GenericSide (tw_side C), GCalSideLib G}.
Context `{UuidLib, DateTimeLib, ContainerLib}.
Implicit Types (s : aggregator C G) (pm : prefs_manager) (disk : storage).

(** Line 59: the table of the aggregator is the object held under the
    entry, so the preferences of a running process hold the table as the
    aggregator has it now. *)
Definition live_prefs s pm : prefs_manager :=
  prefs_setitem "tw_gcal_ids" (tw_gcal_ids s) pm.

(** The exit of a process that built the aggregator [built], if any, and
    made the preferences manager [made], if any, over the storage [disk]:
    the [cleanup] that line 61 registered runs, then the preferences are
    flushed, with the table as the aggregator has it.  A process without a
    preferences manager writes nothing. *)
Definition process_exit (built : option (aggregator C G))
    (made : option prefs_manager) (disk : storage)
    : option (aggregator C G) * storage :=
  let built := (λ s, (cleanup s).2) <$> built in
  (built,
   match made with
   | Some pm => prefs_flush (from_option (λ s, live_prefs s pm) pm built)
   | None => disk
   end).

(** One run of a process: the constructor, the body, then the exit,
    whether the body returned or raised and whether the constructor did. *)
Definition run_program (tw_config gcal_config : value)
    (kargs : gmap string value) (client : C) (prefs_dir : string)
    (body : prog (aggregator C G) unit) (disk : storage)
    : result unit * option (aggregator C G) * storage :=
  match
    aggregator_init tw_config gcal_config kargs client prefs_dir disk None
  with
  | (Err e, made) =>
      let '(built, disk') := process_exit None made disk in
      (Err e, built, disk')
  | (Ok s, made) =>
      let '(r, s') := body s in
      let '(built, disk') := process_exit (Some s') made disk in
      (r, built, disk')
  end.

(** Runs of the process one after the other, each over the storage the
    one before left. *)
Definition run_programs (tw_config gcal_config : value)
    (kargs : gmap string value) (client : C) (prefs_dir : string)
    (bodies : list (prog (aggregator C G) unit)) (disk : storage) : storage :=
  foldl (λ disk body,
    (run_program tw_config gcal_config kargs client prefs_dir body disk).2)
    disk bodies.

(** The script as a process, lines 68-69 of
    [src/taskw_gcal_sync/scripts/tw_gcal_sync.py]: the command on the
    values of the command line, over the storage, then the exit. *)
Definition run_script (inv : invocation) (client : C) (prefs_dir : string)
    (disk : storage) : result unit * storage :=
  let '(r, built, made) := command inv client prefs_dir disk in
  (r, (process_exit built made disk).2).

(** The table in storage, if there is one, is a bijection. *)
Definition storage_wf (disk : storage) : Prop :=
  ∀ b, disk !! "tw_gcal_ids" = Some b → bidict_wf b.

(** ** Lemmas *)

(** A process that built no aggregator leaves the storage as it was,
    whether it made a preferences manager or not. *)
Lemma process_exit_unbuilt prefs_dir disk (b : bool) :
  process_exit None
    (if b then Some (prefs_manager_init prefs_dir disk) else None) disk
  = (None, disk).
Proof. by destruct b. Qed.

(** A run whose constructor returns, in one equation. *)
Lemma run_program_Ok tw_config gcal_config kargs (client : C) prefs_dir body
    disk s made :
  aggregator_init tw_config gcal_config kargs client prefs_dir disk None
  = (Ok s, made) →
  run_program tw_config gcal_config kargs client prefs_dir body disk
  = ((body s).1, Some (body s).2,
     <["tw_gcal_ids" := tw_gcal_ids (body s).2]> disk).
Proof.
  intros Hs. unfold run_program. rewrite Hs.
  apply aggregator_init_Ok_inv in Hs as (_ & _ & ->).
  destruct (body s) as [r s'] eqn:Hb. simpl.
  unfold prefs_flush, live_prefs, prefs_setitem. simpl.
  by rewrite prefs_table_conts, insert_insert_eq.
Qed.

Lemma run_program_Ok_inv tw_config gcal_config kargs (client : C) prefs_dir
    body disk r s' disk' :
  run_program tw_config gcal_config kargs client prefs_dir body disk
  = (r, Some s', disk') →
  ∃ s made,
    aggregator_init tw_config gcal_config kargs client prefs_dir disk None
    = (Ok s, made)
    ∧ body s = (r, s')
    ∧ disk' = <["tw_gcal_ids" := tw_gcal_ids s']> disk.
Proof.
  destruct (aggregator_init tw_config gcal_config kargs client prefs_dir
    disk None) as [[s|e] made] eqn:Hs.
  - rewrite (run_program_Ok _ _ _ _ _ _ _ _ _ Hs). intros [= <- <- <-].
    exists s, made. by destruct (body s).
  - unfold run_program. by rewrite Hs.
Qed.

(** A run whose constructor raises leaves the storage as it was. *)
Lemma run_program_Err tw_config gcal_config kargs (client : C) prefs_dir body
    disk e made :
  aggregator_init tw_config gcal_config kargs client prefs_dir disk None
  = (Err e, made) →
  run_program tw_config gcal_config kargs client prefs_dir body disk
  = (Err e, None, disk).
Proof.
  intros Hs. unfold run_program. rewrite Hs.
  apply aggregator_init_Err_inv in Hs as [->| ->]; done.
Qed.

(** A run keeps what the body keeps of the table. *)
Lemma run_program_storage_wf tw_config gcal_config kargs (client : C)
    prefs_dir body disk :
  (∀ s, reachable s (body s).2) →
  storage_wf disk →
  storage_wf
    (run_program tw_config gcal_config kargs client prefs_dir body disk).2.
Proof.
  intros Hbody Hdisk.
  destruct (aggregator_init tw_config gcal_config kargs client prefs_dir
    disk None) as [[s|e] made] eqn:Hs.
  - rewrite (run_program_Ok _ _ _ _ _ _ _ _ _ Hs). simpl.
    intros b. rewrite lookup_insert_eq. intros [= <-].
    apply (reachable_preserves (λ s, bidict_wf (tw_gcal_ids s)) s);
      auto using wf_side_independent, wf_kept_by_write, wf_kept_by_removal.
    apply aggregator_init_Ok_inv in Hs as (_ & -> & _).
    destruct (disk !! "tw_gcal_ids") eqn:Hb; simpl; auto using bidict_empty_wf.
  - by rewrite (run_program_Err _ _ _ _ _ _ _ _ _ Hs).
Qed.

End prefs.

Section prefs_properties.
Context {C G : Type} `{TaskwClient C, GenericSide (tw_side C), GCalSideLib G}.
Context `{UuidLib, DateTimeLib, ContainerLib}.
Context (tw_config gcal_config : value) (kargs : gmap string value).
Context (client : C) (prefs_dir : string).

(** ** Properties *)

(** C32. Registration is settled across runs of the program: when a run
    whose body registers a list of items returns, with the table flushed
    to storage at its exit, the next run over that storage constructs an
    aggregator with the table the first run left, registers the same items
    without a remote add or a write (it ends with the aggregator as
    constructed) and leaves the storage as it found it. *)
Theorem run_program_settled items ty disk s1 disk1 :
  run_program tw_config gcal_config kargs client prefs_dir
    (register_items items ty) disk = (Ok tt, Some s1, disk1) →
  ∃ s2 made,
    aggregator_init tw_config gcal_config kargs client prefs_dir disk1 None
    = (Ok s2, made)
    ∧ tw_gcal_ids s2 = tw_gcal_ids s1
    ∧ run_program tw_config gcal_config kargs client prefs_dir
        (register_items items ty) disk1 = (Ok tt, Some s2, disk1).
Proof.
  intros (s & made & Hs & Hbody & ->)%run_program_Ok_inv.
  pose proof (aggregator_init_stored _ _ _ _ _ _
    (<["tw_gcal_ids" := tw_gcal_ids s1]> disk) _ None _ _ Hs) as Hs2.
  rewrite lookup_insert_eq in Hs2. simpl in Hs2.
  pose proof (register_items_frame_eq items ty s) as [_ Hc].
  rewrite Hbody in Hc. eexists _, _. split_and!; [exact Hs2|done|].
  rewrite (run_program_Ok _ _ _ _ _ _ _ _ _ Hs2).
  rewrite (register_items_settled items ty s s1 _ Hbody) by done.
  simpl. by rewrite insert_insert_eq.
Qed.

(** The table in storage is a bijection after any number of runs of the
    program, each with a body that changes the aggregator by calls of its
    methods only: the invariant of [Session], carried through the storage. *)
Lemma run_programs_storage_wf bodies disk :
  Forall (λ body : prog (aggregator C G) unit,
    ∀ s, reachable s (body s).2) bodies →
  storage_wf disk →
  storage_wf
    (run_programs tw_config gcal_config kargs client prefs_dir bodies disk).
Proof.
  intros Hbodies. revert disk.
  induction Hbodies as [|body bodies Hbody _ IH]; intros disk Hdisk; [done|].
  apply IH. by apply run_program_storage_wf.
Qed.

(** C33. The script on every command line and every storage: when a
    required option ([-c], [-t]) is missing or the last [-o] is not one of
    the seven choices, the run ends in the usage error of [click] and
    [main] is not called; otherwise [main] is called and raises its
    [RuntimeError].  Neither way is an aggregator built, and the storage
    is left as it was, for the preferences manager, when the constructor
    gets as far as making one, flushes what it loaded: no run of the
    script synchronises anything or records a correspondence. *)
Theorem run_script_outcome inv disk :
  run_script inv client prefs_dir disk
  = (Err (if usable inv then RuntimeError else UsageError), disk).
Proof.
  unfold run_script. rewrite command_outcome.
  by rewrite process_exit_unbuilt.
Qed.

End prefs_properties.

(** ** Witnesses *)

(** A first run over an empty storage that registers one task. *)
Definition first_run_state : aggregator fake_taskw fake_gcal :=
  (register_items [milk_task] "tw" fake_session).2.

Definition first_run_storage : storage :=
  <["tw_gcal_ids" := tw_gcal_ids first_run_state]> ∅.

Lemma first_run :
  run_program (VDict {[ "tags" := VStr "remindme" ]}) (VDict ∅) ∅
    ([] : fake_taskw) "/home/user/.config" (register_items [milk_task] "tw") ∅
  = (Ok tt, Some first_run_state, first_run_storage).
Proof.
  rewrite (run_program_Ok _ _ _ _ _ _ ∅ fake_session _ fake_session_init).
  by do 2 f_equal.
Qed.

Lemma run_program_settled_witness :
  ∃ (s2 : aggregator fake_taskw fake_gcal) made,
    aggregator_init (VDict {[ "tags" := VStr "remindme" ]}) (VDict ∅) ∅
      ([] : fake_taskw) "/home/user/.config" first_run_storage None
    = (Ok s2, made)
    ∧ tw_gcal_ids s2 = tw_gcal_ids first_run_state
    ∧ run_program (VDict {[ "tags" := VStr "remindme" ]}) (VDict ∅) ∅
        ([] : fake_taskw) "/home/user/.config"
        (register_items [milk_task] "tw") first_run_storage
      = (Ok tt, Some s2, first_run_storage).
Proof.
  exact (run_program_settled _ _ _ _ _ _ _ _ _ _ first_run).
Defined.

Lemma run_programs_storage_wf_witness :
  storage_wf
    (run_programs (VDict {[ "tags" := VStr "remindme" ]}) (VDict ∅) ∅
       ([] : fake_taskw) "/home/user/.config"
       [with_aggregator (sync_pass None true);
        register_items [milk_task] "tw"] ∅).
Proof.
  apply run_programs_storage_wf; [|by intros b; rewrite lookup_empty].
  repeat constructor.
  - apply sync_pass_reachable.
  - intros s. apply (reachable_call s s (CallRegisterItems _ _)). constructor.
Defined.
