(* ===== verification/Pass.v ===== *)
(** The synchronisation pass, end to end.

    The body of the [with] statement of [main]
    ([src/taskw_gcal_sync/scripts/tw_gcal_sync.py], lines 48-65) is
    [sync_pass] of [SyncScript]: start, the listing of the tasks and their
    registration, the listing of the events and their registration, then
    deletion propagation for each side.  Each step can raise; this file
    shows when none does and what the pass reaches.

    The calendar side is a [CalendarStore]: its [start] and its listing
    return and leave it as it is, and an add puts the event it returns
    among the events listed.  With [FreshLinks] of [Liveness] that is what
    the pass asks of a calendar.  The task side is only listed by the
    pass, so it is asked to be quiet in the state at hand ([tw_quiet]).

    [consistent] is the state between two passes of a calendar that the
    synchroniser alone writes: every entry of the table is a listed task
    and a listed event, and every listed event is an entry.  The theorem:
    from a consistent state the pass returns, in a consistent state where
    every listed task is registered, and from there it changes nothing. *)

From stdpp Require Import base tactics option list strings gmap pretty.
From S2P Require Import Prelude PyString PyValue Codecs Converter RoundTrip.
From S2P Require Import ConverterSpec Bidict Sides Fakes Aggregator Typing.
From S2P Require Import Liveness DeletionSync SyncScript.

#[local] Open Scope prog_scope.

(** ** A calendar that lists what was added *)

Class CalendarStore (G : Type) `{SideAdapter G} : Type := {
  (** The events the side holds. *)
  events : G → list item;
  start_returns g : side_start g = (Ok tt, g);
  get_all_items_returns order_by ascending g :
    ∃ l, side_get_all_items order_by ascending g = (Ok l, g)
      ∧ ∀ e, e ∈ l ↔ e ∈ events g;
  add_item_events c g r g' :
    side_add_item c g = (Ok r, g') →
    ∀ e, e ∈ events g' ↔ e = r ∨ e ∈ events g
}.

#[export, refine] Instance fake_gcal_store : CalendarStore fake_gcal := {|
  events := λ g, g
|}.
Proof.
  - done.
  - intros order_by ascending g. by exists g.
  - intros c g r g' [= <- <-] e.
    rewrite elem_of_app, list_elem_of_singleton. naive_solver.
Defined.

Section pass.
Context {C G : Type} `{TaskwClient C, GenericSide (tw_side C), GCalSideLib G}.
Context `{UuidLib, DateTimeLib, ContainerLib}.
Context `{!FreshLinks G, !CalendarStore G}.
Implicit Types (s : aggregator C G) (t e : item) (tw_items : list item).
Implicit Types (k : hkey).

(** The task side in a state where it starts and lists [tw_items], and
    stays as it is. *)
Definition tw_quiet tw_items (side : tw_side C) : Prop :=
  side_start side = (Ok tt, side)
  ∧ ∀ order_by ascending,
      side_get_all_items order_by ascending side = (Ok tw_items, side).

(** Every task of the table is listed. *)
Definition tasks_bound tw_items s : Prop :=
  ∀ k, is_Some (fwd (tw_gcal_ids s) !! k) →
    ∃ t, t ∈ tw_items ∧ item_id "uuid" t = Ok k.

(** Every listed event is in the table, and every event of the table is
    listed. *)
Definition events_bound s : Prop :=
  (∀ e, e ∈ events (agg_gcal_side s) →
     ∃ link, e !! "htmlLink" = Some (VStr link)
       ∧ is_Some (bwd (tw_gcal_ids s) !! HStr link))
  ∧ (∀ k, is_Some (bwd (tw_gcal_ids s) !! k) →
       ∃ e, e ∈ events (agg_gcal_side s) ∧ item_id "htmlLink" e = Ok k).

Definition consistent tw_items s : Prop :=
  config s = default_config
  ∧ bidict_wf (tw_gcal_ids s)
  ∧ links_issued s
  ∧ tw_quiet tw_items (agg_tw_side s)
  ∧ Forall (λ t, has_schema tw_item_schema t = true) tw_items
  ∧ tasks_bound tw_items s
  ∧ events_bound s.

(** ** The identifiers of listed items *)

Lemma item_id_task t w :
  views t w → item_id "uuid" t = Ok (HStr (uuid_str (tv_uuid w))).
Proof.
  intros (_ & _ & Hu & _). unfold item_id. by rewrite (getitem_Some _ _ _ Hu).
Qed.

Lemma item_id_link e link :
  e !! "htmlLink" = Some (VStr link) → item_id "htmlLink" e = Ok (HStr link).
Proof. intros He. unfold item_id. by rewrite (getitem_Some _ _ _ He). Qed.

(** ** The calls on the sides *)

Lemma aggregator_eta s :
  Aggregator (config s) (agg_tw_side s) (agg_gcal_side s) (tw_gcal_ids s) = s.
Proof. by destruct s. Qed.

Lemma start_quiet tw_items s :
  tw_quiet tw_items (agg_tw_side s) → start s = (Ok tt, s).
Proof.
  intros [Hstart _]. unfold start, pbind, on_tw, on_gcal, set_gcal_side.
  rewrite Hstart. simpl. rewrite start_returns. simpl.
  by rewrite aggregator_eta.
Qed.

Lemma tw_get_all_items_quiet tw_items order_by ascending s :
  tw_quiet tw_items (agg_tw_side s) →
  on_tw (side_get_all_items order_by ascending) s = (Ok tw_items, s).
Proof.
  intros [_ Hlist]. unfold on_tw. by rewrite Hlist, aggregator_eta.
Qed.

Lemma gcal_get_all_items_quiet order_by ascending s :
  ∃ l, on_gcal (side_get_all_items order_by ascending) s = (Ok l, s)
    ∧ ∀ e, e ∈ l ↔ e ∈ events (agg_gcal_side s).
Proof.
  destruct (get_all_items_returns order_by ascending (agg_gcal_side s))
    as (l & Hl & Hin).
  exists l. split; [|done]. unfold on_gcal, set_gcal_side.
  by rewrite Hl, aggregator_eta.
Qed.

(** ** Registration of the tasks *)

(** The body on a listed task: a skip, or an add that the calendar lists
    from then on under the link bound to the task. *)
Lemma register_item_task_consistent tw_items t s :
  consistent tw_items s → t ∈ tw_items →
  ∃ s', register_item "tw" "uuid" "htmlLink" t s = (Ok tt, s')
    ∧ consistent tw_items s'.
Proof.
  intros (Hc & Hwf & Hli & Hq & Hty & Htb & Heb1 & Heb2) Ht.
  pose proof (proj1 (Forall_forall _ _) Hty t Ht)
    as (w & Hw & _ & Hf)%tw_item_schema_views.
  pose proof Hw as (_ & _ & Hu & _).
  destruct (fwd (tw_gcal_ids s) !! HStr (uuid_str (tv_uuid w))) eqn:Hk.
  { exists s. split; [|done]. apply register_item_skip.
    exists (VUuid (tv_uuid w)), (uuid_str (tv_uuid w)).
    split_and!; [done..|]. apply bidict_has_key_true. by eexists. }
  destruct (add_item_fresh (event_of w) (agg_gcal_side s))
    as (r & link & Hadd & Hlink & Hfresh & Hissued).
  assert (bwd (tw_gcal_ids s) !! HStr link = None) as Hl.
  { apply eq_None_not_Some. intros Hsome. by apply Hfresh, Hli. }
  pose proof (add_item_events _ _ _ _ Hadd) as Hev.
  pose proof (bidict_setitem_fresh _ _ (tw_gcal_ids s) Hk Hl) as Hset.
  eexists. split; [by eapply register_item_task_added|].
  unfold consistent.
  split_and!; simpl; [done|by eapply bidict_setitem_wf| |done|done| |split].
  - intros l. simpl. rewrite Hissued, lookup_insert_is_Some.
    intros [[= ->]|[_ Hsome]]; [set_solver|]. apply elem_of_union_r, Hli, Hsome.
  - intros k. simpl. rewrite lookup_insert_is_Some.
    intros [<-|[_ Hsome]]; [|by apply Htb]. exists t. by rewrite (item_id_task t w).
  - intros e [->|He]%Hev; simpl.
    + exists link. by rewrite lookup_insert_eq.
    + destruct (Heb1 e He) as (link' & Hlink' & Hb). exists link'.
      split; [done|]. rewrite lookup_insert_is_Some'. by right.
  - intros k. simpl. rewrite lookup_insert_is_Some.
    intros [<-|[_ Hsome]].
    + exists r. split; [apply Hev; by left|by apply item_id_link].
    + destruct (Heb2 k Hsome) as (e & He & Hid). exists e.
      split; [apply Hev; by right|done].
Qed.

(** The registration of the listed tasks returns, with every one of them
    registered. *)
Lemma register_tasks_consistent tw_items s :
  consistent tw_items s →
  ∃ s', register_items tw_items "tw" s = (Ok tt, s')
    ∧ consistent tw_items s'
    ∧ Forall (λ t, registered "tw" "uuid" t s') tw_items.
Proof.
  intros Hs. pose proof Hs as (Hc & _).
  rewrite (register_items_run tw_items "tw" s "uuid" "htmlLink")
    by (rewrite ?Hc; [set_solver|done..]).
  destruct (pfor_returns (consistent tw_items) tw_items
    (register_item "tw" "uuid" "htmlLink")
    (λ t s0 Ht Hs0, register_item_task_consistent tw_items t s0 Hs0 Ht) s Hs)
    as (s' & Hrun & Hs').
  exists s'. split_and!; [done..|].
  eapply (pfor_all_done _ (registered "tw" "uuid"));
    eauto using register_item_done, register_item_keeps.
Qed.

(** ** The steps that change nothing *)

(** Every listed event is registered, so the registration of the events
    skips them all. *)
Lemma register_events_skip l s :
  config s = default_config → events_bound s →
  (∀ e, e ∈ l → e ∈ events (agg_gcal_side s)) →
  register_items l "gcal" s = (Ok tt, s).
Proof.
  intros Hc [Heb _] Hl.
  rewrite (register_items_run l "gcal" s "htmlLink" "uuid")
    by (rewrite ?Hc; [set_solver|done..]).
  apply (pfor_skip _ (registered "gcal" "htmlLink")); [apply register_item_skip|].
  apply Forall_forall. intros e He.
  destruct (Heb e (Hl e He)) as (link & Hlink & Hb).
  exists (VStr link), link. split_and!; [done..|]. by apply bidict_has_key_true.
Qed.

(** Deletion propagation for a side that lists every item of the
    table. *)
Lemma synchronise_deleted_items_skip ty s tk items :
  config s !! (ty +:+ "_id_key") = Some tk →
  list_side ty s = (Ok items, s) →
  Forall (λ it, is_ok (item_id tk it) = true) items →
  (∀ k, is_Some (view_of ty s !! k) →
     ∃ it, it ∈ items ∧ item_id tk it = Ok k) →
  synchronise_deleted_items ty s = (Ok tt, s).
Proof.
  intros Htk Hlist Hids Hall.
  destruct (mapM_result_Ok _ _ Hids) as (present & Hpresent & Hin).
  rewrite (synchronise_deleted_items_run ty s tk items present)
    by (done || by rewrite Hlist).
  rewrite Hlist. simpl.
  apply (pfor_skip _ (settled ty present)); [apply forget_item_skip|].
  apply Forall_forall. intros k Hk%elem_of_keys. right. by apply Hin, Hall.
Qed.

Lemma synchronise_deleted_tasks_skip tw_items s :
  consistent tw_items s → synchronise_deleted_items "tw" s = (Ok tt, s).
Proof.
  intros (Hc & _ & _ & Hq & Hty & Htb & _).
  apply (synchronise_deleted_items_skip "tw" s "uuid" tw_items);
    [by rewrite Hc|by apply (tw_get_all_items_quiet tw_items)| |done].
  eapply Forall_impl; [exact Hty|]. intros t (w & Hw & _)%tw_item_schema_views.
  by rewrite (item_id_task t w).
Qed.

Lemma synchronise_deleted_events_skip tw_items s :
  consistent tw_items s → synchronise_deleted_items "gcal" s = (Ok tt, s).
Proof.
  intros (Hc & _ & _ & _ & _ & _ & Heb1 & Heb2).
  destruct (gcal_get_all_items_quiet None true s) as (l & Hl & Hin).
  apply (synchronise_deleted_items_skip "gcal" s "htmlLink" l);
    [by rewrite Hc|done| |].
  - apply Forall_forall. intros e (link & Hlink & _)%Hin%Heb1.
    by rewrite (item_id_link e link).
  - intros k (e & He & Hid)%Heb2. exists e. by rewrite Hin.
Qed.

(** ** The pass *)

(** The pass is the registration of the listed tasks: every other step
    returns and leaves the state as it is. *)
Lemma sync_pass_run order_by ascending_order tw_items s s' :
  consistent tw_items s →
  register_items tw_items "tw" s = (Ok tt, s') →
  consistent tw_items s' →
  with_aggregator (sync_pass order_by ascending_order) s = (Ok tt, s').
Proof.
  intros Hs Hreg Hs'. pose proof Hs as (_ & _ & _ & Hq & _).
  pose proof Hs' as (Hc' & _ & _ & _ & _ & _ & Heb').
  rewrite with_aggregator_run. unfold sync_pass.
  rewrite (pbind_Ok _ _ _ _ _ (start_quiet tw_items s Hq)).
  rewrite (pbind_Ok _ _ _ _ _ (tw_get_all_items_quiet tw_items _ _ s Hq)).
  rewrite (pbind_Ok _ _ _ _ _ Hreg).
  destruct (gcal_get_all_items_quiet order_by ascending_order s')
    as (l & Hl & Hin).
  rewrite (pbind_Ok _ _ _ _ _ Hl).
  rewrite (pbind_Ok _ _ _ _ _
    (register_events_skip l s' Hc' Heb' (λ e, proj1 (Hin e)))).
  rewrite (pbind_Ok _ _ _ _ _ (synchronise_deleted_tasks_skip tw_items s' Hs')).
  by apply (synchronise_deleted_events_skip tw_items).
Qed.

(** ** Properties *)

(** C31. The pass converges.  From a consistent state (the config of the
    constructor, a table that is a bijection and holds links of the
    calendar only, a task side that lists tasks with the task schema, a
    table and a calendar that hold the same events, each of a listed
    task) the pass of the script returns, over a calendar that lists what
    was added to it under fresh links: it ends in a consistent state with
    the task side as it was and every listed task registered, and run
    again from there it returns and changes nothing. *)
Theorem sync_pass_converges order_by ascending_order tw_items s :
  consistent tw_items s →
  ∃ s', with_aggregator (sync_pass order_by ascending_order) s = (Ok tt, s')
    ∧ consistent tw_items s'
    ∧ agg_tw_side s' = agg_tw_side s
    ∧ Forall (λ t, registered "tw" "uuid" t s') tw_items
    ∧ with_aggregator (sync_pass order_by ascending_order) s' = (Ok tt, s').
Proof.
  intros Hs. destruct (register_tasks_consistent tw_items s Hs)
    as (s' & Hreg & Hs' & Hall).
  exists s'. split_and!; [by eapply sync_pass_run|done| |done|].
  - pose proof (register_items_frame_eq tw_items "tw" s) as [Ht _].
    by rewrite Hreg in Ht.
  - apply (sync_pass_run _ _ tw_items); [done| |done].
    by apply (register_items_settled tw_items "tw" s s').
Qed.

End pass.

(** ** Witnesses *)

(** An aggregator over the in-memory sides, with one task to synchronise
    and nothing synchronised yet. *)
Definition one_task : aggregator fake_taskw fake_gcal :=
  Aggregator default_config
    (TwSide (tw_side_config {[ "tags" := VStr "remindme" ]}) [milk_task]) []
    bidict_empty.

Lemma one_task_consistent : consistent [milk_task] one_task.
Proof.
  unfold consistent. split_and!; [done|apply bidict_empty_wf
    |by apply links_issued_empty|done|by repeat constructor| |split].
  - intros k [? ?]. done.
  - intros e ?%elem_of_nil. done.
  - intros k [? ?]. done.
Qed.

Lemma sync_pass_converges_witness :
  ∃ s', with_aggregator (sync_pass None true) one_task = (Ok tt, s')
    ∧ consistent [milk_task] s'
    ∧ agg_tw_side s' = agg_tw_side one_task
    ∧ Forall (λ t, registered "tw" "uuid" t s') [milk_task]
    ∧ with_aggregator (sync_pass None true) s' = (Ok tt, s').
Proof.
  exact (sync_pass_converges None true [milk_task] one_task
    one_task_consistent).
Defined.
