(* ===== verification/Refinement.v ===== *)
(** The registration of the code against the protocol of the
    specification.

    [absr] abstracts an aggregator
    ([src/taskw_gcal_sync/TWGCalAggregator.py]) to a state of [spec] of
    [EngineSpec]: the table [tw_gcal_ids] as a set of entries, and the two
    sides as the two stores.  The protocol is instantiated with what the
    code uses: the identifier of an item is [str(item[key])] ([item_id],
    line 101), the conversions are the two converters and the adds are
    the [add_item] of the sides.

    For tasks the code refines the protocol: when [register_items]
    returns on items of kind ["tw"], the states it went through are,
    under [absr], the steps of [spec.register_task] on the items in their
    order.  The calendar is one that returns its links as strings
    ([FreshLinks]).

    For events it does not.  The add goes to the calendar instead of the
    task store (line 91), and the entry written binds the link to the
    [uuid] object that the add returned, not to its string (lines 101 and
    116): the table then has no entry under the identifier by which
    [register_items] looks the task up, and the task is mirrored to the
    calendar again. *)

From stdpp Require Import base tactics option list strings gmap.
From S2P Require Import Prelude PyString PyValue Codecs Converter RoundTrip.
From S2P Require Import ConverterSpec Tests Bidict EngineSpec Sides Fakes.
From S2P Require Import Aggregator Liveness DeletionSync SyncScript Pass.

Section refinement.
Context {C G : Type} `{TaskwClient C, GenericSide (tw_side C), GCalSideLib G}.
Context `{UuidLib, DateTimeLib, ContainerLib}.
Implicit Types (s : aggregator C G) (t e : item) (items : list item).

(** The abstraction function. *)
Definition absr s : spec.state (tw_side C) G :=
  spec.State (table_of (tw_gcal_ids s)) (agg_tw_side s) (agg_gcal_side s).

(** The steps of the protocol with the identifiers, the conversions and
    the adds of the code. *)
Definition spec_register_task : item → relation (spec.state (tw_side C) G) :=
  spec.register_task
    (item_id "uuid") (item_id "htmlLink") convert_tw_to_gcal side_add_item.

Definition spec_register_event : item → relation (spec.state (tw_side C) G) :=
  spec.register_event
    (item_id "uuid") (item_id "htmlLink") convert_gcal_to_tw side_add_item.

(** ** Tasks *)

Section tasks.
Context `{!FreshLinks G}.

(** An iteration of the loop that returns is a step of the protocol. *)
Lemma register_item_task_refines t s s' :
  bidict_wf (tw_gcal_ids s) →
  register_item "tw" "uuid" "htmlLink" t s = (Ok tt, s') →
  spec_register_task t (absr s) (absr s').
Proof.
  intros Hwf (v & id & Hv & Hid & Hcases)%register_item_Ok_inv.
  assert (item_id "uuid" t = Ok (HStr id)) as Hid'.
  { unfold item_id. by rewrite (getitem_Some _ _ _ Hv); simpl; rewrite Hid. }
  destruct Hcases as [[Hk ->]|[Hk (c & r & g & w & h & ids & Hc & Hadd & Hw
    & Hh & Hset & ->)]].
  - apply bidict_has_key_true in Hk. destruct Hk as [c Hc].
    eapply spec.task_known; [exact Hid'|by apply elem_of_table_of].
  - apply bidict_has_key_false in Hk.
    destruct (add_item_fresh c (agg_gcal_side s))
      as (r' & link & Hadd' & Hlink & _).
    rewrite Hadd in Hadd'. injection Hadd' as <-.
    rewrite Hlink in Hw. injection Hw as <-. injection Hh as <-.
    pose proof (table_of_setitem (tw_gcal_ids s) (HStr id) (HStr link)
      Hwf Hk) as Hins.
    rewrite registered_view_tw in Hset.
    destruct (spec.insert _ _ _) as [T|] eqn:Hi; [|by rewrite Hset in Hins].
    destruct Hins as (b' & Hb' & <-). rewrite Hset in Hb'. injection Hb' as <-.
    exact (spec.task_mirrored _ _ _ _ t (HStr id) c r g (HStr link) _
      (absr s) Hid' Hc Hadd (item_id_link r link Hlink) Hi).
Qed.

(** ** Properties *)

(** C23. The code refines the registration protocol of the specification
    on tasks: when [register_items] returns on items of kind ["tw"], from
    an aggregator with the keys of the constructor and a table that is a
    bijection, over a calendar that returns its links as strings, the
    states before and after are related, under the abstraction [absr], by
    the steps of the protocol on the items in their order (a known task
    is skipped; a new one is converted, added to the calendar and bound
    to the identifier the calendar returned, by the insertion of the
    specification); so what the specification promises of the protocol
    holds of the code: the table after is a bijection and every item is
    bound in it. *)
Theorem register_items_refines items s s' :
  config s = default_config → bidict_wf (tw_gcal_ids s) →
  register_items items "tw" s = (Ok tt, s') →
  steps spec_register_task items (absr s) (absr s')
  ∧ spec.bijective (spec.pairs (absr s'))
  ∧ Forall (λ t, spec.task_bound (item_id "uuid") t (absr s')) items.
Proof.
  intros Hc Hwf Hrun.
  rewrite (register_items_run items "tw" s "uuid" "htmlLink") in Hrun
    by (rewrite ?Hc; done || set_solver).
  destruct (pfor_simulates spec_register_task
    (λ s, bidict_wf (tw_gcal_ids s)) absr items
    (register_item "tw" "uuid" "htmlLink")) with (s := s) (s' := s')
    as [Hsteps Hwf']; [|done..|].
  - intros t s0 s1 _ Hs0 Ht. split; [by apply register_item_task_refines|].
    pose proof (register_item_preserves "tw" "uuid" "htmlLink" t _
      wf_kept_by_add (wf_kept_by_write "tw") s0 Hs0) as Hp.
    by rewrite Ht in Hp.
  - split_and!; [done|by apply table_of_bijective|].
    by eapply spec.register_tasks_bound.
Qed.

End tasks.

(** ** Events *)

(** The loop body on a new event, when the add returns the task it was
    given with its [uuid]. *)
Lemma register_item_event_added e s link c r g u :
  e !! "htmlLink" = Some (VStr link) →
  bwd (tw_gcal_ids s) !! HStr link = None →
  convert_gcal_to_tw e = Ok c →
  side_add_item c (agg_gcal_side s) = (Ok r, g) →
  r !! "uuid" = Some (VUuid u) →
  fwd (tw_gcal_ids s) !! HUuid u = None →
  register_item "gcal" "htmlLink" "uuid" e s =
    (Ok tt, Aggregator (config s) (agg_tw_side s) g
      (Bidict (<[HUuid u := HStr link]> (fwd (tw_gcal_ids s)))
              (<[HStr link := HUuid u]> (bwd (tw_gcal_ids s))))).
Proof.
  intros He Hl Hc Hadd Hr Hu. apply register_step_run.
  eapply step_added; [exact He|done|by apply bidict_has_key_false
    |exact Hc|exact Hadd|].
  exact (record_written "gcal" "uuid" _ r (VUuid u) (HUuid u) _
    (set_gcal_side g s) Hr eq_refl
    (bidict_setitem_fresh _ _ (inverse (tw_gcal_ids s)) Hl Hu)).
Qed.

(** C13. An event is not mirrored as the protocol says.  For an event
    whose link is not in the table, when the add returns the converted
    task with its [uuid], the loop body returns with the task added to
    the calendar side, the task side as it was, and the link bound to the
    [uuid] object, not to its string; so the table has no entry under the
    string by which a task is looked up, and the loop body on a task with
    that [uuid] adds its event to the calendar once more. *)
Theorem register_item_event_rebinds e s link c r g u :
  e !! "htmlLink" = Some (VStr link) →
  bwd (tw_gcal_ids s) !! HStr link = None →
  convert_gcal_to_tw e = Ok c →
  side_add_item c (agg_gcal_side s) = (Ok r, g) →
  r !! "uuid" = Some (VUuid u) →
  fwd (tw_gcal_ids s) !! HUuid u = None →
  fwd (tw_gcal_ids s) !! HStr (uuid_str u) = None →
  ∃ s', register_item "gcal" "htmlLink" "uuid" e s = (Ok tt, s')
    ∧ agg_gcal_side s' = g ∧ agg_tw_side s' = agg_tw_side s
    ∧ fwd (tw_gcal_ids s') !! HUuid u = Some (HStr link)
    ∧ fwd (tw_gcal_ids s') !! HStr (uuid_str u) = None
    ∧ ∀ t v, views t v → tv_uuid v = u → end_fits v = true →
        agg_gcal_side (register_item "tw" "uuid" "htmlLink" t s').2
        = (side_add_item (event_of v) g).2.
Proof.
  intros He Hl Hc Hadd Hr Hu Hs. eexists.
  split; [by eapply register_item_event_added|]. simpl.
  split_and!; [done..|by apply lookup_insert_eq|by rewrite lookup_insert_ne|].
  intros t v Hv <- Hf. pose proof Hv as (_ & _ & Hu' & _).
  rewrite (register_item_adds "tw" "uuid" "htmlLink" t _
    (VUuid (tv_uuid v)) (uuid_str (tv_uuid v)) (event_of v)); [done..| |].
  - apply bidict_has_key_false. simpl. by rewrite lookup_insert_ne.
  - by apply convert_tw_to_gcal_views.
Qed.

(** No step of the protocol on an event changes the calendar; the loop
    body on a new event does. *)
Lemma register_item_event_not_refined e s link c r g u :
  e !! "htmlLink" = Some (VStr link) →
  bwd (tw_gcal_ids s) !! HStr link = None →
  convert_gcal_to_tw e = Ok c →
  side_add_item c (agg_gcal_side s) = (Ok r, g) →
  r !! "uuid" = Some (VUuid u) →
  fwd (tw_gcal_ids s) !! HUuid u = None →
  g ≠ agg_gcal_side s →
  ∃ s', register_item "gcal" "htmlLink" "uuid" e s = (Ok tt, s')
    ∧ ¬ spec_register_event e (absr s) (absr s').
Proof.
  intros He Hl Hc Hadd Hr Hu Hg. eexists.
  split; [by eapply register_item_event_added|].
  by intros Hstep%spec.register_event_calendar.
Qed.

End refinement.

(** ** Witnesses *)

Lemma register_items_refines_witness :
  let s' := (register_items [milk_task] "tw" fake_aggregator).2 in
  steps spec_register_task [milk_task] (absr fake_aggregator) (absr s')
  ∧ spec.bijective (spec.pairs (absr s'))
  ∧ Forall (λ t, spec.task_bound (item_id "uuid") t (absr s')) [milk_task].
Proof.
  apply (register_items_refines [milk_task] fake_aggregator _ eq_refl
    bidict_empty_wf).
  by apply run_Ok.
Defined.

(** The event of [Tests], not yet in the table of an aggregator over the
    in-memory sides. *)
Lemma register_item_event_rebinds_witness :
  ∃ s', register_item "gcal" "htmlLink" "uuid" stored_event fake_aggregator
        = (Ok tt, s')
    ∧ agg_gcal_side s' = [fake_event 0 (task_of milk_view)]
    ∧ agg_tw_side s' = agg_tw_side fake_aggregator
    ∧ fwd (tw_gcal_ids s') !! HUuid (tv_uuid milk_view)
      = Some (HStr "https://calendar.example/event/0")
    ∧ fwd (tw_gcal_ids s') !! HStr (uuid_str (tv_uuid milk_view)) = None
    ∧ ∀ t v, views t v → tv_uuid v = tv_uuid milk_view → end_fits v = true →
        agg_gcal_side (register_item "tw" "uuid" "htmlLink" t s').2
        = (side_add_item (event_of v) [fake_event 0 (task_of milk_view)]).2.
Proof.
  exact (register_item_event_rebinds stored_event fake_aggregator
    "https://calendar.example/event/0" (task_of milk_view)
    (fake_event 0 (task_of milk_view)) [fake_event 0 (task_of milk_view)]
    (tv_uuid milk_view) eq_refl eq_refl stored_event_converts eq_refl
    eq_refl eq_refl eq_refl).
Defined.
